(** * fax-ui: ephemeral media hosting and signed-cookie sessions

    A shallow embedding of the Go sources of fax-ui (package [main]:
    the upload/media store, the cleanup sweep, the session layer, the
    OAuth handlers and the configuration loader), together with the
    parts of the Go standard library those functions call, and the
    properties proved about them.

    Conventions.
    - A Go [string] is a Rocq [string] (a sequence of bytes); a [[]byte]
      is a [list byte].
    - A Go [(T, error)] result is a [result T]; an [error] carries its
      message.
    - [time.Time] is an integer count of nanoseconds on the process's
      monotonic clock ([Z]); [time.Duration] is a [Z] of nanoseconds.
    - The map [uploadedFiles] is a [gmap string uploadedFile].  The
      handlers are modelled as atomic steps: the critical sections
      guarded by [memMu] are not interleaved. *)

From Stdlib Require Import ZArith List String Ascii Bool Lia.
From Stdlib.Strings Require Import Byte.
From stdpp Require Import base option list gmap strings.

Local Open Scope Z_scope.

(* ================================================================= *)
(** * Part I: definitions *)
(* ================================================================= *)

(** ** Go results *)

Inductive result (A : Type) : Type :=
| Ok (a : A)
| Err (msg : string).
Arguments Ok {A} a.
Arguments Err {A} msg.

Definition is_Ok {A} (r : result A) : bool :=
  match r with Ok _ => true | Err _ => false end.

(** [fmt.Errorf("<prefix>: %w", err)] *)
Definition wrap (prefix : string) (msg : string) : string :=
  prefix +:+ ": " +:+ msg.

Definition bytes := list byte.

(** ** Package [strings] *)

Module strings.

(** [strings.HasPrefix(s, prefix)] *)
Fixpoint HasPrefix (s prefix : string) : bool :=
  match prefix, s with
  | EmptyString, _ => true
  | String _ _, EmptyString => false
  | String p prefix', String c s' =>
      if Ascii.eqb c p then HasPrefix s' prefix' else false
  end.

(** [s[len(prefix):]] when [prefix] is known to be a prefix of [s] *)
Fixpoint skip (s prefix : string) : string :=
  match prefix, s with
  | String _ prefix', String _ s' => skip s' prefix'
  | _, _ => s
  end.

(** [strings.TrimPrefix(s, prefix)] *)
Definition TrimPrefix (s prefix : string) : string :=
  if HasPrefix s prefix then skip s prefix else s.

(** Width in bytes of the white-space rune encoded at the head of
    [s], or [0] when the head does not decode to a rune with
    [unicode.IsSpace]: the ASCII characters tab, LF, VT, FF, CR and
    space, then U+0085, U+00A0, U+1680, U+2000..U+200A, U+2028,
    U+2029, U+202F, U+205F and U+3000 in UTF-8. *)
Definition space_width (s : bytes) : nat :=
  match s with
  | (x09 | x0a | x0b | x0c | x0d | x20) :: _ => 1
  | xc2 :: (x85 | xa0) :: _ => 2
  | xe1 :: x9a :: x80 :: _ => 3
  | xe2 :: x80 ::
      (x80 | x81 | x82 | x83 | x84 | x85 | x86 | x87 | x88 | x89 | x8a
       | xa8 | xa9 | xaf) :: _ => 3
  | xe2 :: x81 :: x9f :: _ => 3
  | xe3 :: x80 :: x80 :: _ => 3
  | _ => 0
  end%nat.

(** The same for the rune that ends the string, given the string
    reversed ([utf8.DecodeLastRuneInString] walks back to the rune's
    first byte). *)
Definition space_width_rev (r : bytes) : nat :=
  match r with
  | (x09 | x0a | x0b | x0c | x0d | x20) :: _ => 1
  | (x85 | xa0) :: xc2 :: _ => 2
  | x80 :: x9a :: xe1 :: _ => 3
  | (x80 | x81 | x82 | x83 | x84 | x85 | x86 | x87 | x88 | x89 | x8a
     | xa8 | xa9 | xaf) :: x80 :: xe2 :: _ => 3
  | x9f :: x81 :: xe2 :: _ => 3
  | x80 :: x80 :: xe3 :: _ => 3
  | _ => 0
  end%nat.

(** Drop runes from the head while [width] recognises one. *)
Fixpoint trim_while (width : bytes -> nat) (fuel : nat) (s : bytes) : bytes :=
  match fuel with
  | O => s
  | S fuel' =>
      match width s with
      | O => s
      | w => trim_while width fuel' (drop w s)
      end
  end.

Definition TrimLeftSpace (s : bytes) : bytes :=
  trim_while space_width (length s) s.

Definition TrimRightSpace (s : bytes) : bytes :=
  rev (trim_while space_width_rev (length s) (rev s)).

(** [strings.TrimSpace(s)] *)
Definition TrimSpace (s : string) : string :=
  string_of_list_byte (TrimRightSpace (TrimLeftSpace (list_byte_of_string s))).

(** [s] cut at the first occurrence of the byte [sep]:
    [Some (before, after)], or [None] when [sep] does not occur. *)
Fixpoint cut (s : string) (sep : ascii) : option (string * string) :=
  match s with
  | EmptyString => None
  | String c s' =>
      if Ascii.eqb c sep then Some (EmptyString, s')
      else match cut s' sep with
           | Some (before, after) => Some (String c before, after)
           | None => None
           end
  end.

(** [strings.SplitN(s, sep, n)] for a one-byte separator and
    [n >= 0]: at most [n] substrings, the last one the unsplit
    remainder; [n = 0] gives the nil slice. *)
Fixpoint SplitN (s : string) (sep : ascii) (n : nat) : list string :=
  match n with
  | O => []
  | S O => [s]
  | S n' =>
      match cut s sep with
      | Some (before, after) => before :: SplitN after sep n'
      | None => [s]
      end
  end.

Definition to_lower (c : ascii) : ascii :=
  let n := nat_of_ascii c in
  if ((65 <=? n) && (n <=? 90))%nat then ascii_of_nat (n + 32) else c.

(** [strings.EqualFold(s, t)] when [t] is ASCII without the letters
    [k] and [s] (the only ASCII letters that fold to runes outside
    ASCII): equality up to ASCII case. *)
Fixpoint EqualFold (s t : string) : bool :=
  match s, t with
  | EmptyString, EmptyString => true
  | String a s', String b t' =>
      if Ascii.eqb (to_lower a) (to_lower b) then EqualFold s' t' else false
  | _, _ => false
  end.

End strings.

(** [s[:n]] for [n <= len(s)] *)
Definition slice_to (s : string) (n : nat) : string := String.substring 0 n s.

(** ** Package [encoding/hex] *)

Module hex.

Definition hextable : string := "0123456789abcdef".

Definition digit (n : N) : ascii :=
  match String.get (N.to_nat n) hextable with
  | Some c => c
  | None => "0"%char
  end.

(** [hex.EncodeToString(src)]: two lower-case digits per byte. *)
Fixpoint EncodeToString (src : bytes) : string :=
  match src with
  | [] => EmptyString
  | v :: src' =>
      let n := Byte.to_N v in
      String (digit (N.shiftr n 4))
        (String (digit (N.land n 15)) (EncodeToString src'))
  end.

End hex.

(** ** Package [encoding/base64] *)

Module base64.

(** The alphabet of [base64.URLEncoding]; its padding is ['=']. *)
Definition encodeURL : string :=
  "ABCDEFGHIJKLMNOPQRSTUVWXYZabcdefghijklmnopqrstuvwxyz0123456789-_".

Definition sextet (n : N) : ascii :=
  match String.get (N.to_nat (N.land n 63)) encodeURL with
  | Some c => c
  | None => "A"%char
  end.

(** [base64.URLEncoding.EncodeToString(src)]: every group of three
    bytes gives four characters; a last group of one or two bytes is
    padded to four characters. *)
Fixpoint EncodeToString (src : bytes) : string :=
  match src with
  | [] => EmptyString
  | [a] =>
      let v := N.shiftl (Byte.to_N a) 16 in
      String (sextet (N.shiftr v 18)) (String (sextet (N.shiftr v 12)) "==")
  | [a; b] =>
      let v := N.lor (N.shiftl (Byte.to_N a) 16) (N.shiftl (Byte.to_N b) 8) in
      String (sextet (N.shiftr v 18)) (String (sextet (N.shiftr v 12))
        (String (sextet (N.shiftr v 6)) "="))
  | a :: b :: c :: src' =>
      let v := N.lor (N.lor (N.shiftl (Byte.to_N a) 16)
                            (N.shiftl (Byte.to_N b) 8)) (Byte.to_N c) in
      String (sextet (N.shiftr v 18)) (String (sextet (N.shiftr v 12))
        (String (sextet (N.shiftr v 6)) (String (sextet v)
          (EncodeToString src'))))
  end.

End base64.

(** ** Package [crypto/sha256] *)

Module sha256.

Definition w32 (x : Z) : Z := x mod 2 ^ 32.
Definition add32 (x y : Z) : Z := w32 (x + y).
Definition rotr (n x : Z) : Z :=
  Z.lor (Z.shiftr x n) (w32 (Z.shiftl x (32 - n))).
Definition not32 (x : Z) : Z := Z.lxor x 0xffffffff.

Definition Ch (x y z : Z) : Z := Z.lxor (Z.land x y) (Z.land (not32 x) z).
Definition Maj (x y z : Z) : Z :=
  Z.lxor (Z.lxor (Z.land x y) (Z.land x z)) (Z.land y z).
Definition bsig0 (x : Z) : Z := Z.lxor (Z.lxor (rotr 2 x) (rotr 13 x)) (rotr 22 x).
Definition bsig1 (x : Z) : Z := Z.lxor (Z.lxor (rotr 6 x) (rotr 11 x)) (rotr 25 x).
Definition ssig0 (x : Z) : Z := Z.lxor (Z.lxor (rotr 7 x) (rotr 18 x)) (Z.shiftr x 3).
Definition ssig1 (x : Z) : Z := Z.lxor (Z.lxor (rotr 17 x) (rotr 19 x)) (Z.shiftr x 10).

(** The first [n] primes, by trial division from [k] on. *)
Fixpoint primes_from (fuel : nat) (k : Z) (found : list Z) (n : nat) : list Z :=
  match fuel, n with
  | O, _ | _, O => rev found
  | S fuel', S n' =>
      if forallb (fun p => negb (k mod p =? 0)) found
      then primes_from fuel' (k + 1) (k :: found) n'
      else primes_from fuel' (k + 1) found n
  end.

Definition primes (n : nat) : list Z := primes_from 400 2 [] n.

(** The integer cube root, bit by bit from bit [bits - 1] down. *)
Fixpoint cbrt_bits (bits : nat) (x r : Z) : Z :=
  match bits with
  | O => r
  | S bits' =>
      let r' := r + 2 ^ Z.of_nat bits' in
      cbrt_bits bits' x (if r' * r' * r' <=? x then r' else r)
  end.

(** The round constants: the first 32 bits of the fractional parts of
    the cube roots of the first 64 primes. *)
Definition K : list Z :=
  Eval vm_compute in map (fun p => w32 (cbrt_bits 40 (p * 2 ^ 96) 0)) (primes 64).

(** The initial hash value: the same of the square roots of the first
    8 primes. *)
Definition init : list Z :=
  Eval vm_compute in map (fun p => w32 (Z.sqrt (p * 2 ^ 64))) (primes 8).

Definition BlockSize : nat := 64.
Definition Size : nat := 32.

Definition byte_of_Z (x : Z) : byte :=
  match Byte.of_N (Z.to_N (x mod 256)) with
  | Some b => b
  | None => x00
  end.
Definition Z_of_byte (b : byte) : Z := Z.of_N (Byte.to_N b).

(** Big-endian encoding of [x] on [n] bytes. *)
Fixpoint be_bytes (n : nat) (x : Z) : bytes :=
  match n with
  | O => []
  | S n' => be_bytes n' (Z.shiftr x 8) ++ [byte_of_Z x]
  end.

(** The message followed by [0x80], zeros up to 56 modulo 64, and the
    bit length on eight bytes. *)
Definition pad (msg : bytes) : bytes :=
  let len := length msg in
  let zeros := ((BlockSize - (len + 9) mod BlockSize) mod BlockSize)%nat in
  msg ++ [x80] ++ replicate zeros x00 ++ be_bytes 8 (8 * Z.of_nat len).

Fixpoint words (n : nat) (b : bytes) : list Z :=
  match n, b with
  | S n', b0 :: b1 :: b2 :: b3 :: b' =>
      (Z.shiftl (Z_of_byte b0) 24 + Z.shiftl (Z_of_byte b1) 16
       + Z.shiftl (Z_of_byte b2) 8 + Z_of_byte b3) :: words n' b'
  | _, _ => []
  end.

(** The message schedule, most recent word first. *)
Fixpoint schedule (n : nat) (w : list Z) : list Z :=
  match n with
  | O => w
  | S n' =>
      let v := add32 (add32 (add32 (ssig1 (nth 1 w 0)) (nth 6 w 0))
                            (ssig0 (nth 14 w 0))) (nth 15 w 0) in
      schedule n' (v :: w)
  end.

Definition round (s : list Z) (kw : Z * Z) : list Z :=
  match s with
  | [a; b; c; d; e; f; g; h] =>
      let t1 := add32 (add32 (add32 (add32 h (bsig1 e)) (Ch e f g)) (fst kw)) (snd kw) in
      let t2 := add32 (bsig0 a) (Maj a b c) in
      [add32 t1 t2; a; b; c; add32 d t1; e; f; g]
  | _ => s
  end.

Definition block (h : list Z) (blk : bytes) : list Z :=
  let w := rev (schedule 48 (rev (words 16 blk))) in
  zip_with add32 h (fold_left round (combine K w) h).

Fixpoint blocks (n : nat) (h : list Z) (b : bytes) : list Z :=
  match n with
  | O => h
  | S n' => blocks n' (block h (take BlockSize b)) (drop BlockSize b)
  end.

(** [sha256.Sum256(data)] *)
Definition Sum256 (data : bytes) : bytes :=
  let p := pad data in
  flat_map (be_bytes 4) (blocks (length p / BlockSize) init p).

End sha256.

(** ** Package [crypto/hmac] *)

Module hmac.

Definition xor_pad (pad : byte) (key : bytes) : bytes :=
  map (fun b => sha256.byte_of_Z (Z.lxor (sha256.Z_of_byte b) (sha256.Z_of_byte pad))) key.

(** [h := hmac.New(sha256.New, key); h.Write(msg); h.Sum(nil)]:
    keys longer than the block size are hashed first, shorter keys
    are padded with zeros. *)
Definition Sum (key msg : bytes) : bytes :=
  let key0 := if (sha256.BlockSize <? length key)%nat then sha256.Sum256 key else key in
  let key' := key0 ++ replicate (sha256.BlockSize - length key0) x00 in
  sha256.Sum256 (xor_pad x5c key' ++ sha256.Sum256 (xor_pad x36 key' ++ msg)).

(** [hmac.Equal(mac1, mac2)]: equality of the two byte strings (the
    comparison is constant-time in Go; only its result is modelled). *)
Definition Equal (mac1 mac2 : string) : bool := String.eqb mac1 mac2.

End hmac.


(** ** Package [crypto/rand] *)

Module rand.

(** The entropy source as the program sees it, through the signature
    of [rand.Read] ([n int, err error]) that its callers handle: the
    [k]-th call either fails or delivers bytes [pool k 0],
    [pool k 1], ... *)
Record Source := {
  fails : nat -> option string;
  pool : nat -> nat -> byte;
  calls : nat
}.

(** [b := make([]byte, n); _, err := rand.Read(b)] *)
Definition Read (n : nat) (src : Source) : result bytes * Source :=
  let src' := {| fails := fails src; pool := pool src; calls := S (calls src) |} in
  match fails src (calls src) with
  | Some e => (Err e, src')
  | None => (Ok (map (pool src (calls src)) (seq 0 n)), src')
  end.

End rand.



(** ** Package [path/filepath] (Unix) *)

Module filepath.

Definition Separator : ascii := "/".

(** The elements of [path] between separators. *)
Fixpoint elements (path : string) : list string :=
  match path with
  | EmptyString => [EmptyString]
  | String c path' =>
      if Ascii.eqb c Separator then EmptyString :: elements path'
      else match elements path' with
           | e :: es => String c e :: es
           | [] => [String c EmptyString]
           end
  end.

(** One pass of [Clean] over the elements; [out] holds the elements
    written so far, last one first.  An empty element and [.] are
    dropped; [..] removes the last element written when there is one
    that is not itself [..], is dropped at the root, and is kept
    otherwise. *)
Fixpoint clean_elements (rooted : bool) (out : list string) (elems : list string)
  : list string :=
  match elems with
  | [] => out
  | e :: elems' =>
      if String.eqb e "" || String.eqb e "." then clean_elements rooted out elems'
      else if String.eqb e ".." then
        match out with
        | top :: out' =>
            if String.eqb top ".." then clean_elements rooted (e :: out) elems'
            else clean_elements rooted out' elems'
        | [] =>
            if rooted then clean_elements rooted [] elems'
            else clean_elements rooted [e] elems'
        end
      else clean_elements rooted (e :: out) elems'
  end.

(** [filepath.Clean(path)] *)
Definition Clean (path : string) : string :=
  let rooted := strings.HasPrefix path "/" in
  let body := String.concat "/" (rev (clean_elements rooted [] (elements path))) in
  if rooted then "/" +:+ body
  else if String.eqb body "" then "." else body.

(** [filepath.Join(elem...)]: the elements from the first non-empty
    one on, joined by separators and cleaned; empty when all are. *)
Fixpoint Join (elem : list string) : string :=
  match elem with
  | [] => ""
  | e :: elem' =>
      if String.eqb e "" then Join elem'
      else Clean (String.concat "/" elem)
  end.

Fixpoint has_separator (path : string) : bool :=
  match path with
  | EmptyString => false
  | String c path' => Ascii.eqb c Separator || has_separator path'
  end.

(** [filepath.Ext(path)]: the suffix that starts at the last dot of
    the last element of [path]; empty without such a dot. *)
Fixpoint Ext (path : string) : string :=
  match path with
  | EmptyString => EmptyString
  | String c path' =>
      match Ext path' with
      | EmptyString =>
          if has_separator path' then EmptyString
          else if Ascii.eqb c "." then path else EmptyString
      | e => e
      end
  end.

End filepath.

(** ** Package [time] *)

Module time.
Definition Time := Z.
Definition Duration := Z.
Definition Second : Duration := 1000000000.
Definition Minute : Duration := 60 * Second.
Definition Hour : Duration := 60 * Minute.
(** [t.Add(d)] *)
Definition Add (t : Time) (d : Duration) : Time := t + d.
(** [t.After(u)] *)
Definition After (t u : Time) : bool := u <? t.
(** [int(d.Seconds())] *)
Definition Seconds (d : Duration) : Z := d / Second.
End time.

(** ** Package [os]: the file system the disk backend writes to *)

Module os.

Record FS := {
  dirs : gset string;
  files : gmap string bytes;
  (** failures the file system is about to report, if any *)
  mkdir_err : option string;
  create_err : option string;
  write_err : option string
}.

(** [os.MkdirAll(path, 0o755)] *)
Definition MkdirAll (path : string) (fs : FS) : result unit * FS :=
  match mkdir_err fs with
  | Some e => (Err e, fs)
  | None =>
      (Ok tt, {| dirs := {[path]} ∪ dirs fs; files := files fs;
                 mkdir_err := mkdir_err fs; create_err := create_err fs;
                 write_err := write_err fs |})
  end.

(** [os.Create(name)]: the file is created, or truncated. *)
Definition Create (name : string) (fs : FS) : result unit * FS :=
  match create_err fs with
  | Some e => (Err e, fs)
  | None =>
      (Ok tt, {| dirs := dirs fs; files := <[name := []]> (files fs);
                 mkdir_err := mkdir_err fs; create_err := create_err fs;
                 write_err := write_err fs |})
  end.

(** Appending [data] to the open file [name]. *)
Definition Write (name : string) (data : bytes) (fs : FS) : result unit * FS :=
  match write_err fs with
  | Some e => (Err e, fs)
  | None =>
      (Ok tt, {| dirs := dirs fs;
                 files := <[name := default [] (files fs !! name) ++ data]> (files fs);
                 mkdir_err := mkdir_err fs; create_err := create_err fs;
                 write_err := write_err fs |})
  end.

End os.

(** ** Package [mime/multipart] *)

Module multipart.

(** An opened part: the bytes a reader gets from it and, when reading
    fails, the error that follows them. *)
Record File := {
  content : bytes;
  read_err : option string
}.

Record FileHeader := {
  Filename : string;
  (** [Header.Get("Content-Type")], empty when the header is absent *)
  ContentType : string;
  (** the outcome of [Open()] *)
  Open : result File
}.

(** [Form.File]; [None] is the nil map. *)
Record Form := {
  File_ : option (gmap string (list FileHeader))
}.

End multipart.

(** ** Package [net/http] *)

Module http.

Definition StatusTemporaryRedirect : Z := 307.
Definition StatusSeeOther : Z := 303.
Definition StatusBadRequest : Z := 400.
Definition StatusNotFound : Z := 404.
Definition StatusMethodNotAllowed : Z := 405.
Definition StatusInternalServerError : Z := 500.

Definition MethodGet : string := "GET".
Definition MethodPost : string := "POST".

Inductive SameSite := SameSiteDefaultMode | SameSiteLaxMode.

Record Cookie := {
  Name : string;
  Value : string;
  Path : string;
  MaxAge : Z;
  HttpOnly : bool;
  Secure : bool;
  SameSite_ : SameSite
}.

Record Request := {
  Method : string;
  (** [r.URL.Path] *)
  URLPath : string;
  (** [r.URL.Query()], in order *)
  URLQuery : list (string * string);
  (** the outcome of [r.ParseForm()]: the values of [r.Form], those
      of the body before those of the query *)
  Form : result (list (string * string));
  MultipartForm : option multipart.Form;
  (** the cookies sent with the request, in order *)
  Cookies : list (string * string)
}.

(** The first value stored under [key], empty when there is none:
    [url.Values.Get] and [r.FormValue]. *)
Fixpoint Get (vals : list (string * string)) (key : string) : string :=
  match vals with
  | [] => ""
  | (k, v) :: vals' => if String.eqb k key then v else Get vals' key
  end.

(** [r.FormValue(key)] once the form has been parsed *)
Definition FormValue (r : Request) (key : string) : string :=
  match Form r with
  | Ok vals => Get vals key
  | Err _ => ""
  end.

(** [r.Cookie(name)]: the first cookie of that name, or
    [http.ErrNoCookie]. *)
Fixpoint lookup_cookie (cs : list (string * string)) (name : string) : result string :=
  match cs with
  | [] => Err "http: named cookie not present"
  | (k, v) :: cs' => if String.eqb k name then Ok v else lookup_cookie cs' name
  end.

Definition Cookie_ (r : Request) (name : string) : result string :=
  lookup_cookie (Cookies r) name.

(** A value handed to a template. *)
Inductive TemplateValue := VStr (s : string) | VBool (b : bool).

(** What a handler writes: the call of [net/http] that produces the
    status line and the body.
    - [Error msg code]: [http.Error(w, msg, code)];
    - [NotFound]: [http.NotFound(w, r)], a 404;
    - [Redirect url code]: [http.Redirect(w, r, url, code)];
    - [ServeFile name]: [http.ServeFile(w, r, name)], the file [name]
      of the file system;
    - [ServeContent contentType name content]:
      [http.ServeContent(w, r, name, modtime, content)] on the bytes
      [content], after the header [Content-Type] was set to
      [contentType] if it is given;
    - [ExecuteTemplate name data]: the template [name] run on [data]. *)
Inductive Reply :=
| Error (msg : string) (code : Z)
| NotFound
| Redirect (url : string) (code : Z)
| ServeFile (name : string)
| ServeContent (contentType : option string) (name : string) (content : bytes)
| ExecuteTemplate (name : string) (data : list (string * TemplateValue)).

(** The cookies set with [http.SetCookie], in order, and the reply. *)
Record Response := {
  SetCookies : list Cookie;
  reply : Reply
}.

Definition respond (r : Reply) : Response := {| SetCookies := []; reply := r |}.

End http.

(** ** Package [golang.org/x/oauth2] *)

Module oauth2.

Inductive Endpoint := GoogleEndpoint | AzureADEndpoint (tenant : string) | GitHubEndpoint.

Record Config := {
  ClientID : string;
  ClientSecret : string;
  RedirectURL : string;
  Scopes : list string;
  Endpoint_ : Endpoint
}.

(** What [token.Valid()] answers for a token the provider returned. *)
Record Token := { Valid : bool }.

(** The provider as the server reaches it: the authorization URL
    built for a configuration and a state, and the outcome of
    exchanging a code. *)
Record Provider := {
  AuthCodeURL : Config -> string -> string;
  Exchange : Config -> string -> result Token
}.

End oauth2.

(* ----------------------------------------------------------------- *)
(** ** Package [main]: types *)

(** [AuthConfig] holds authentication configuration *)
Module AuthConfig.
Record t := {
  Password : string;
  SessionSecret : string;
  GoogleClientID : string;
  GoogleClientSecret : string;
  MicrosoftClientID : string;
  MicrosoftSecret : string;
  GitHubClientID : string;
  GitHubSecret : string;
  BaseURL : string
}.

Definition with_BaseURL (c : t) (url : string) : t :=
  {| Password := Password c; SessionSecret := SessionSecret c;
     GoogleClientID := GoogleClientID c; GoogleClientSecret := GoogleClientSecret c;
     MicrosoftClientID := MicrosoftClientID c; MicrosoftSecret := MicrosoftSecret c;
     GitHubClientID := GitHubClientID c; GitHubSecret := GitHubSecret c;
     BaseURL := url |}.
End AuthConfig.

(** [uploadedFile] represents a file stored in memory for Telnyx to fetch *)
Record uploadedFile := {
  Data : bytes;
  Type_ : string;
  ExpiresAt : time.Time
}.

(** [App] holds the application state and dependencies.  [Tmpl] is the
    template set as the handlers use it: the error, if any, that
    executing the named template gives.  The API client is an external
    service and [memMu] has no content. *)
Module App.
Record t := {
  Tmpl : string -> option string;
  DefaultFrom : string;
  DefaultConnectionID : string;
  FaxApplicationID : string;
  Hipaa : bool;
  PublicBaseURL : string;
  UploadDir : string;
  uploadedFiles : gmap string uploadedFile;
  AuthConfig : AuthConfig.t
}.

Definition with_uploadedFiles (a : t) (m : gmap string uploadedFile) : t :=
  {| Tmpl := Tmpl a; DefaultFrom := DefaultFrom a;
     DefaultConnectionID := DefaultConnectionID a;
     FaxApplicationID := FaxApplicationID a; Hipaa := Hipaa a;
     PublicBaseURL := PublicBaseURL a; UploadDir := UploadDir a;
     uploadedFiles := m; AuthConfig := AuthConfig a |}.

Definition with_AuthConfig (a : t) (c : AuthConfig.t) : t :=
  {| Tmpl := Tmpl a; DefaultFrom := DefaultFrom a;
     DefaultConnectionID := DefaultConnectionID a;
     FaxApplicationID := FaxApplicationID a; Hipaa := Hipaa a;
     PublicBaseURL := PublicBaseURL a; UploadDir := UploadDir a;
     uploadedFiles := uploadedFiles a; AuthConfig := c |}.
End App.

(** [Config] holds the configuration values for the application *)
Module Config.
Record t := {
  APIKey : string;
  DefaultFrom : string;
  DefaultConn : string;
  FaxAppID : string;
  Hipaa : bool;
  PublicBaseURL : string;
  UploadDir : string;
  Port : string;
  AuthConfig : AuthConfig.t
}.
End Config.

(* ----------------------------------------------------------------- *)
(** ** Sessions *)

Definition sessionCookieName : string := "fax_ui_session".
Definition sessionMaxAge : time.Duration := 24 * time.Hour.

(** [generateSessionToken] creates a secure random session token *)
Definition generateSessionToken (src : rand.Source) : result string * rand.Source :=
  match rand.Read 32 src with
  | (Err e, src') => (Err e, src')
  | (Ok b, src') => (Ok (base64.EncodeToString b), src')
  end.

(** [signSessionToken] creates an HMAC signature for the session token *)
Definition signSessionToken (token secret : string) : string :=
  base64.EncodeToString
    (hmac.Sum (list_byte_of_string secret) (list_byte_of_string token)).

(** [verifySessionToken] verifies the HMAC signature of a session token *)
Definition verifySessionToken (token signature secret : string) : bool :=
  let expected := signSessionToken token secret in
  hmac.Equal signature expected.

(** [setSessionCookie] sets an authenticated session cookie: the error,
    or the cookie handed to [http.SetCookie]. *)
Definition setSessionCookie (a : App.t) (userInfo : string) (src : rand.Source)
  : result http.Cookie * rand.Source :=
  match generateSessionToken src with
  | (Err e, src') => (Err e, src')
  | (Ok token, src') =>
      let signature := signSessionToken token (AuthConfig.SessionSecret (App.AuthConfig a)) in
      let value := token +:+ "." +:+ signature +:+ "." +:+ userInfo in
      (Ok {| http.Name := sessionCookieName;
             http.Value := value;
             http.Path := "/";
             http.MaxAge := time.Seconds sessionMaxAge;
             http.HttpOnly := true;
             http.Secure := strings.HasPrefix (App.PublicBaseURL a) "https://";
             http.SameSite_ := http.SameSiteLaxMode |}, src')
  end.

(** [clearSessionCookie] removes the session cookie *)
Definition clearSessionCookie : http.Cookie :=
  {| http.Name := sessionCookieName; http.Value := ""; http.Path := "/";
     http.MaxAge := -1; http.HttpOnly := true; http.Secure := false;
     http.SameSite_ := http.SameSiteDefaultMode |}.

Definition nonempty (s : string) : bool := negb (String.eqb s "").

(** [hasAuthConfigured] returns true if any authentication method is
    configured *)
Definition hasAuthConfigured (a : App.t) : bool :=
  nonempty (AuthConfig.Password (App.AuthConfig a))
  || nonempty (AuthConfig.GoogleClientID (App.AuthConfig a))
  || nonempty (AuthConfig.MicrosoftClientID (App.AuthConfig a))
  || nonempty (AuthConfig.GitHubClientID (App.AuthConfig a)).

(** The check [isAuthenticated] makes on the value of the session
    cookie. *)
Definition verifyCookieValue (value secret : string) : bool :=
  match strings.SplitN value "." 3 with
  | [token; signature; _] => verifySessionToken token signature secret
  | _ => false
  end.

(** [isAuthenticated] checks if the request has a valid session *)
Definition isAuthenticated (a : App.t) (r : http.Request) : bool :=
  if negb (hasAuthConfigured a) then true
  else match http.Cookie_ r sessionCookieName with
       | Err _ => false
       | Ok value => verifyCookieValue value (AuthConfig.SessionSecret (App.AuthConfig a))
       end.

(** [requireAuth] is middleware that requires authentication *)
Definition requireAuth {S : Type} (a : App.t)
    (next : http.Request -> S -> http.Response * S) (r : http.Request) (s : S)
  : http.Response * S :=
  if negb (isAuthenticated a r)
  then (http.respond (http.Redirect ("/login?redirect=" +:+ http.URLPath r) http.StatusSeeOther), s)
  else next r s.

(** The redirect target [handlePasswordLogin] keeps. *)
Definition passwordRedirect (redirect : string) : string :=
  if String.eqb redirect "" || negb (strings.HasPrefix redirect "/")
     || strings.HasPrefix redirect "//"
  then "/" else redirect.

(** [handlePasswordLogin] processes password authentication *)
Definition handlePasswordLogin (a : App.t) (r : http.Request) (src : rand.Source)
  : http.Response * rand.Source :=
  match http.Form r with
  | Err _ => (http.respond (http.Error "invalid form" http.StatusBadRequest), src)
  | Ok _ =>
      let password := http.FormValue r "password" in
      let redirect := http.FormValue r "redirect" in
      let redirect := passwordRedirect redirect in
      if String.eqb password (AuthConfig.Password (App.AuthConfig a)) then
        match setSessionCookie a "password" src with
        | (Err _, src') =>
            (http.respond (http.Error "failed to create session"
                             http.StatusInternalServerError), src')
        | (Ok c, src') =>
            ({| http.SetCookies := [c];
                http.reply := http.Redirect redirect http.StatusSeeOther |}, src')
        end
      else
        (http.respond (http.Redirect ("/login?error=invalid&redirect=" +:+ redirect)
                         http.StatusSeeOther), src)
  end.

(** [handleLogin] shows the login page or processes login *)
Definition handleLogin (a : App.t) (r : http.Request) (src : rand.Source)
  : http.Response * rand.Source :=
  if negb (hasAuthConfigured a) then
    (http.respond (http.Redirect "/" http.StatusSeeOther), src)
  else if isAuthenticated a r then
    let redirect := http.Get (http.URLQuery r) "redirect" in
    let redirect := if String.eqb redirect "" then "/" else redirect in
    (http.respond (http.Redirect redirect http.StatusSeeOther), src)
  else if String.eqb (http.Method r) http.MethodPost then
    handlePasswordLogin a r src
  else
    let data :=
      [ ("Error", http.VStr (http.Get (http.URLQuery r) "error"));
        ("Redirect", http.VStr (http.Get (http.URLQuery r) "redirect"));
        ("HasGoogle", http.VBool (nonempty (AuthConfig.GoogleClientID (App.AuthConfig a))));
        ("HasMicrosoft", http.VBool (nonempty (AuthConfig.MicrosoftClientID (App.AuthConfig a))));
        ("HasGitHub", http.VBool (nonempty (AuthConfig.GitHubClientID (App.AuthConfig a))));
        ("HasPassword", http.VBool (nonempty (AuthConfig.Password (App.AuthConfig a)))) ] in
    match App.Tmpl a "login.html" with
    | Some e => (http.respond (http.Error e http.StatusInternalServerError), src)
    | None => (http.respond (http.ExecuteTemplate "login.html" data), src)
    end.

(** [handleLogout] clears the session and redirects to login *)
Definition handleLogout : http.Response :=
  {| http.SetCookies := [clearSessionCookie];
     http.reply := http.Redirect "/login" http.StatusSeeOther |}.

(* ----------------------------------------------------------------- *)
(** ** Delegated identity (OAuth) *)

(** [getOAuthConfig] returns OAuth2 config for the specified provider;
    [None] is the nil pointer. *)
Definition getOAuthConfig (a : App.t) (provider : string) : option oauth2.Config :=
  let redirectURL := App.PublicBaseURL a +:+ "/auth/callback/" +:+ provider in
  let c := App.AuthConfig a in
  if String.eqb provider "google" then
    if String.eqb (AuthConfig.GoogleClientID c) "" then None
    else Some {| oauth2.ClientID := AuthConfig.GoogleClientID c;
                 oauth2.ClientSecret := AuthConfig.GoogleClientSecret c;
                 oauth2.RedirectURL := redirectURL;
                 oauth2.Scopes := ["https://www.googleapis.com/auth/userinfo.email"];
                 oauth2.Endpoint_ := oauth2.GoogleEndpoint |}
  else if String.eqb provider "microsoft" then
    if String.eqb (AuthConfig.MicrosoftClientID c) "" then None
    else Some {| oauth2.ClientID := AuthConfig.MicrosoftClientID c;
                 oauth2.ClientSecret := AuthConfig.MicrosoftSecret c;
                 oauth2.RedirectURL := redirectURL;
                 oauth2.Scopes := ["User.Read"];
                 oauth2.Endpoint_ := oauth2.AzureADEndpoint "common" |}
  else if String.eqb provider "github" then
    if String.eqb (AuthConfig.GitHubClientID c) "" then None
    else Some {| oauth2.ClientID := AuthConfig.GitHubClientID c;
                 oauth2.ClientSecret := AuthConfig.GitHubSecret c;
                 oauth2.RedirectURL := redirectURL;
                 oauth2.Scopes := ["user:email"];
                 oauth2.Endpoint_ := oauth2.GitHubEndpoint |}
  else None.

(** A cookie set with only name, value, path and max age given. *)
Definition plainCookie (name value : string) (maxAge : Z) (httpOnly : bool) : http.Cookie :=
  {| http.Name := name; http.Value := value; http.Path := "/";
     http.MaxAge := maxAge; http.HttpOnly := httpOnly; http.Secure := false;
     http.SameSite_ := http.SameSiteDefaultMode |}.

(** [handleOAuthLogin] redirects to OAuth provider.  The error of
    [generateSessionToken] is assigned to the blank identifier: on
    failure [state] is the empty string that comes with the error. *)
Definition handleOAuthLogin (p : oauth2.Provider) (a : App.t) (r : http.Request)
    (src : rand.Source) : http.Response * rand.Source :=
  let provider := strings.TrimPrefix (http.URLPath r) "/auth/login/" in
  match getOAuthConfig a provider with
  | None =>
      (http.respond (http.Error "OAuth provider not configured" http.StatusBadRequest), src)
  | Some config =>
      let redirect := http.Get (http.URLQuery r) "redirect" in
      let redirect := if String.eqb redirect "" then "/" else redirect in
      let c1 := plainCookie "oauth_redirect" redirect 300 true in
      let '(res, src') := generateSessionToken src in
      let state := match res with Ok state => state | Err _ => "" end in
      let c2 := plainCookie "oauth_state" state 300 true in
      let url := oauth2.AuthCodeURL p config state in
      ({| http.SetCookies := [c1; c2];
          http.reply := http.Redirect url http.StatusTemporaryRedirect |}, src')
  end.

(** The redirect target [handleOAuthCallback] uses, from the outcome of
    [r.Cookie("oauth_redirect")]. *)
Definition callbackRedirect (cookie : result string) : string :=
  match cookie with
  | Ok value =>
      if strings.HasPrefix value "/" && negb (strings.HasPrefix value "//")
      then value else "/"
  | Err _ => "/"
  end.

(** What one run of [handleOAuthCallback] did: the authorization-code
    exchanges it made with the provider, in order, and its response. *)
Record CallbackRun := {
  exchanges : list (oauth2.Config * string);
  response : http.Response
}.

(** [handleOAuthCallback] processes OAuth callback *)
Definition handleOAuthCallback (p : oauth2.Provider) (a : App.t) (r : http.Request)
    (src : rand.Source) : CallbackRun * rand.Source :=
  let provider := strings.TrimPrefix (http.URLPath r) "/auth/callback/" in
  let invalid_state :=
    ({| exchanges := [];
        response := http.respond (http.Error "invalid state" http.StatusBadRequest) |}, src) in
  match http.Cookie_ r "oauth_state" with
  | Err _ => invalid_state
  | Ok stateCookie =>
      if negb (String.eqb stateCookie (http.Get (http.URLQuery r) "state"))
      then invalid_state
      else
        match getOAuthConfig a provider with
        | None =>
            ({| exchanges := [];
                response := http.respond (http.Error "OAuth provider not configured"
                                            http.StatusBadRequest) |}, src)
        | Some config =>
            let code := http.Get (http.URLQuery r) "code" in
            let called := [(config, code)] in
            match oauth2.Exchange p config code with
            | Err _ =>
                ({| exchanges := called;
                    response := http.respond (http.Error "failed to exchange token"
                                                http.StatusInternalServerError) |}, src)
            | Ok token =>
                if negb (oauth2.Valid token) then
                  ({| exchanges := called;
                      response := http.respond (http.Error "invalid token"
                                                  http.StatusInternalServerError) |}, src)
                else
                  match setSessionCookie a provider src with
                  | (Err _, src') =>
                      ({| exchanges := called;
                          response := http.respond (http.Error "failed to create session"
                                                      http.StatusInternalServerError) |}, src')
                  | (Ok c, src') =>
                      let redirect := callbackRedirect (http.Cookie_ r "oauth_redirect") in
                      ({| exchanges := called;
                          response :=
                            {| http.SetCookies :=
                                 [c; plainCookie "oauth_state" "" (-1) false;
                                     plainCookie "oauth_redirect" "" (-1) false];
                               http.reply := http.Redirect redirect http.StatusSeeOther |} |},
                       src')
                  end
            end
        end
  end.

(* ----------------------------------------------------------------- *)
(** ** Media store *)

(** [trimTrailingSlash] removes trailing slashes from a URL string *)
Fixpoint trimTrailingSlash (s : string) : string :=
  match s with
  | EmptyString => EmptyString
  | String c s' =>
      match trimTrailingSlash s' with
      | EmptyString => if Ascii.eqb c "/" then EmptyString else String c EmptyString
      | t => String c t
      end
  end.

(** [generateSecureToken] generates a cryptographically secure random
    token *)
Definition generateSecureToken (length : nat) (src : rand.Source)
  : result string * rand.Source :=
  match rand.Read length src with
  | (Err e, src') => (Err e, src')
  | (Ok b, src') => (Ok (hex.EncodeToString b), src')
  end.

(** What the store operations run in: the map is in [App.t]; the clock,
    the entropy source and the file system are outside it. *)
Record World := {
  now : time.Time;
  entropy : rand.Source;
  disk : os.FS
}.

Definition with_entropy (w : World) (src : rand.Source) : World :=
  {| now := now w; entropy := src; disk := disk w |}.

Definition with_disk (w : World) (fs : os.FS) : World :=
  {| now := now w; entropy := entropy w; disk := fs |}.

(** [storeFileInMemory] stores the uploaded file in memory with an
    unguessable token *)
Definition storeFileInMemory (a : App.t) (w : World)
    (file : multipart.File) (fileHeader : multipart.FileHeader)
  : result string * App.t * World :=
  match multipart.read_err file with
  | Some e => (Err (wrap "failed to buffer uploaded file" e), a, w)
  | None =>
      let buf := multipart.content file in
      match generateSecureToken 32 (entropy w) with
      | (Err e, src') =>
          (Err (wrap "failed to generate secure token" e), a, with_entropy w src')
      | (Ok token, src') =>
          let ctype := multipart.ContentType fileHeader in
          let ctype := if String.eqb ctype "" then "application/octet-stream" else ctype in
          let entry := {| Data := buf; Type_ := ctype;
                          ExpiresAt := time.Add (now w) (30 * time.Minute) |} in
          let a' := App.with_uploadedFiles a (<[token := entry]> (App.uploadedFiles a)) in
          let uploadedURL := trimTrailingSlash (App.PublicBaseURL a) +:+ "/media/" +:+ token in
          (Ok uploadedURL, a', with_entropy w src')
      end
  end.

(** The extension [storeFileToDisk] gives the stored file. *)
Definition diskExt (fileHeader : multipart.FileHeader) : string :=
  let ext := filepath.Ext (multipart.Filename fileHeader) in
  if String.eqb ext "" then
    let ctype := multipart.ContentType fileHeader in
    if String.eqb ctype "application/pdf" then ".pdf"
    else if String.eqb ctype "image/tiff" then ".tiff"
    else ext
  else ext.

(** [storeFileToDisk] stores the uploaded file to disk with an
    unguessable token filename *)
Definition storeFileToDisk (a : App.t) (w : World)
    (file : multipart.File) (fileHeader : multipart.FileHeader)
  : result string * App.t * World :=
  match os.MkdirAll (App.UploadDir a) (disk w) with
  | (Err e, fs1) => (Err (wrap "failed to prepare upload storage" e), a, with_disk w fs1)
  | (Ok _, fs1) =>
      let w1 := with_disk w fs1 in
      match generateSecureToken 32 (entropy w1) with
      | (Err e, src') =>
          (Err (wrap "failed to generate secure token" e), a, with_entropy w1 src')
      | (Ok token, src') =>
          let w2 := with_entropy w1 src' in
          let ext := diskExt fileHeader in
          let filename := token +:+ ext in
          let destPath := filepath.Join [App.UploadDir a; filename] in
          match os.Create destPath (disk w2) with
          | (Err e, fs2) =>
              (Err (wrap "failed to store uploaded file" e), a, with_disk w2 fs2)
          | (Ok _, fs2) =>
              (* io.Copy(out, file): what was read is written, then the
                 first error, of the writer or of the reader, ends it *)
              match os.Write destPath (multipart.content file) fs2 with
              | (Err e, fs3) =>
                  (Err (wrap "failed to save uploaded file" e), a, with_disk w2 fs3)
              | (Ok _, fs3) =>
                  match multipart.read_err file with
                  | Some e =>
                      (Err (wrap "failed to save uploaded file" e), a, with_disk w2 fs3)
                  | None =>
                      let uploadedURL :=
                        trimTrailingSlash (App.PublicBaseURL a) +:+ "/media/" +:+ filename in
                      (Ok uploadedURL, a, with_disk w2 fs3)
                  end
              end
          end
      end
  end.

(** [handleFileUpload] processes file uploads from the multipart form.
    Returns the URL where the uploaded file can be accessed, or empty
    string if no file was uploaded. *)
Definition handleFileUpload (a : App.t) (w : World) (r : http.Request)
  : result string * App.t * World :=
  match http.MultipartForm r with
  | None => (Ok "", a, w)
  | Some form =>
      match multipart.File_ form with
      | None => (Ok "", a, w)
      | Some fileMap =>
          match default [] (fileMap !! "media_file") with
          | [] => (Ok "", a, w)
          | fileHeader :: _ =>
              match multipart.Open fileHeader with
              | Err e => (Err (wrap "failed to read uploaded file" e), a, w)
              | Ok file =>
                  if App.Hipaa a || String.eqb (App.UploadDir a) ""
                  then storeFileInMemory a w file fileHeader
                  else storeFileToDisk a w file fileHeader
              end
          end
      end
  end.

(** One iteration of the loop of [cleanupExpiredFiles] on the entry
    [(token, file)]: the map and the log lines so far, or [None] once
    the slice expression [token[:8]] has panicked. *)
Definition cleanupEntry (now : time.Time)
    (acc : option (gmap string uploadedFile * list string))
    (entry : string * uploadedFile) : option (gmap string uploadedFile * list string) :=
  match acc with
  | None => None
  | Some (m, log) =>
      let '(token, file) := entry in
      if time.After now (ExpiresAt file) then
        if (String.length token <? 8)%nat then None
        else Some (delete token m,
                   log ++ ["Cleaned up expired file: " +:+ slice_to token 8 +:+ "..."])
      else Some (m, log)
  end.

(** [cleanupExpiredFiles] removes files that have passed their
    expiration time.  Go ranges over the map in an unspecified order;
    the order of [map_to_list] stands for it. *)
Definition cleanupExpiredFiles (a : App.t) (now : time.Time)
  : option (App.t * list string) :=
  match foldl (cleanupEntry now) (Some (App.uploadedFiles a, []))
              (map_to_list (App.uploadedFiles a)) with
  | None => None
  | Some (m, log) => Some (App.with_uploadedFiles a m, log)
  end.

(** The token [handleMediaServe] extracts from the path. *)
Definition mediaToken (r : http.Request) : string :=
  strings.TrimSpace (strings.TrimPrefix (http.URLPath r) "/media/").

(** [handleMediaServe] serves uploaded files for Telnyx to fetch. *)
Definition handleMediaServe (a : App.t) (now : time.Time) (r : http.Request)
  : http.Reply * App.t :=
  if negb (String.eqb (http.Method r) http.MethodGet) then
    (http.Error "method not allowed" http.StatusMethodNotAllowed, a)
  else
    let token := mediaToken r in
    if String.eqb token "" then (http.NotFound, a)
    else if negb (App.Hipaa a) && nonempty (App.UploadDir a) then
      let filePath := filepath.Join [App.UploadDir a; filepath.Clean token] in
      if negb (strings.HasPrefix filePath
                 (filepath.Clean (App.UploadDir a) +:+ String filepath.Separator ""))
      then (http.NotFound, a)
      else (http.ServeFile filePath, a)
    else
      match App.uploadedFiles a !! token with
      | None => (http.NotFound, a)
      | Some file =>
          if time.After now (ExpiresAt file) then
            (http.NotFound, App.with_uploadedFiles a (delete token (App.uploadedFiles a)))
          else
            (http.ServeContent
               (if nonempty (Type_ file) then Some (Type_ file) else None)
               token (Data file), a)
      end.

(* ----------------------------------------------------------------- *)
(** ** Configuration and start-up *)

(** [firstNonEmpty] returns the first non-empty string from the
    provided values *)
Fixpoint firstNonEmpty (values : list string) : string :=
  match values with
  | [] => ""
  | v :: values' =>
      if nonempty (strings.TrimSpace v) then v else firstNonEmpty values'
  end.

(** The process environment; [os.Getenv] gives the empty string for a
    variable that is not set. *)
Definition Getenv (env : gmap string string) (key : string) : string :=
  default "" (env !! key).

(** The command-line flags after [flag.Parse()]. *)
Record Flags := {
  fax_app_id : string;
  from : string;
  connection_id : string;
  hipaa : bool;
  public_base_url : string;
  upload_dir : string
}.

Definition warnHippa : string :=
  "Warning: HIPPA_MODE is deprecated, use HIPAA_MODE instead".
Definition warnSessionSecret : string :=
  "Warning: SESSION_SECRET not set, using auto-generated value. Set SESSION_SECRET for production.".

(** [LoadConfig] loads configuration from environment variables and
    command-line flags: the configuration and the lines logged. *)
Definition LoadConfig (env : gmap string string) (flags : Flags)
  : Config.t * list string :=
  let apiKey := Getenv env "TELNYX_API_KEY" in
  let defaultFromEnv := firstNonEmpty [Getenv env "FAX_FROM_DEFAULT"; Getenv env "FROM_NUMBER"] in
  let defaultConnEnv :=
    firstNonEmpty [Getenv env "FAX_CONNECTION_ID"; Getenv env "TELNYX_CONNECTION_ID"] in
  let faxAppEnv := Getenv env "FAX_APPLICATION_ID" in
  let hipaaEnv := Getenv env "HIPAA_MODE" in
  let typo := String.eqb hipaaEnv "" && nonempty (Getenv env "HIPPA_MODE") in
  let log1 := if typo then [warnHippa] else [] in
  let hipaaEnv := if typo then Getenv env "HIPPA_MODE" else hipaaEnv in
  let publicBaseURL := Getenv env "PUBLIC_BASE_URL" in
  let authPassword := Getenv env "AUTH_PASSWORD" in
  let sessionSecret := Getenv env "SESSION_SECRET" in
  let derive := String.eqb sessionSecret "" && nonempty authPassword in
  let log2 := if derive then [warnSessionSecret] else [] in
  let sessionSecret :=
    if derive
    then "change-me-" +:+ slice_to authPassword (Nat.min (String.length authPassword) 10)
    else sessionSecret in
  let defaultFrom := firstNonEmpty [from flags; defaultFromEnv] in
  let defaultConn := firstNonEmpty [connection_id flags; defaultConnEnv] in
  let faxAppID := firstNonEmpty [fax_app_id flags; faxAppEnv] in
  let hipaa := hipaa flags || strings.EqualFold hipaaEnv "true" || String.eqb hipaaEnv "1" in
  let uploadDir := firstNonEmpty [upload_dir flags; Getenv env "UPLOAD_DIR"] in
  let publicBaseURL :=
    if nonempty (public_base_url flags) then public_base_url flags else publicBaseURL in
  let port := Getenv env "PORT" in
  let port := if String.eqb port "" then "8080" else port in
  ({| Config.APIKey := apiKey;
      Config.DefaultFrom := defaultFrom;
      Config.DefaultConn := defaultConn;
      Config.FaxAppID := faxAppID;
      Config.Hipaa := hipaa;
      Config.PublicBaseURL := publicBaseURL;
      Config.UploadDir := uploadDir;
      Config.Port := port;
      Config.AuthConfig :=
        {| AuthConfig.Password := authPassword;
           AuthConfig.SessionSecret := sessionSecret;
           AuthConfig.GoogleClientID := Getenv env "GOOGLE_CLIENT_ID";
           AuthConfig.GoogleClientSecret := Getenv env "GOOGLE_CLIENT_SECRET";
           AuthConfig.MicrosoftClientID := Getenv env "MICROSOFT_CLIENT_ID";
           AuthConfig.MicrosoftSecret := Getenv env "MICROSOFT_CLIENT_SECRET";
           AuthConfig.GitHubClientID := Getenv env "GITHUB_CLIENT_ID";
           AuthConfig.GitHubSecret := Getenv env "GITHUB_CLIENT_SECRET";
           AuthConfig.BaseURL := "" |} |},
   log1 ++ log2).

(** What [NewApp] finds outside the process: the outcome of
    [template.ParseGlob] on a pattern, the variable [NGROK_API_URL],
    the answer of [detectNgrokPublicURL] (an HTTP request to ngrok) and
    the id the fax API returns for a fax application. *)
Record Outside := {
  ParseGlob : string -> result (string -> option string);
  ngrokAPIURL : string;
  detectNgrokPublicURL : string -> string;
  FaxApplicationsGet : string -> result string
}.

Definition templatePaths : list string :=
  ["web/templates/*.html"; "app/web/templates/*.html"; "../web/templates/*.html"].

(** The template loop of [NewApp]: the first pattern that parses, or
    the error of the last one tried. *)
Fixpoint loadTemplates (parse : string -> result (string -> option string))
    (paths : list string) (last : string)
  : result ((string -> option string) * string) :=
  match paths with
  | [] => Err last
  | path :: paths' =>
      match parse path with
      | Ok tmpl => Ok (tmpl, path)
      | Err e => loadTemplates parse paths' e
      end
  end.

(** A started application: the [App], the interval of the background
    sweep when [startFileCleanup] was called, and the lines logged. *)
Record Started := {
  startedApp : App.t;
  cleanupInterval : option time.Duration;
  startLog : list string
}.

(** [NewApp] creates and initializes a new App instance with the given
    configuration *)
Definition NewApp (out : Outside) (cfg : Config.t) : result Started :=
  match loadTemplates (ParseGlob out) templatePaths "%!w(<nil>)" with
  | Err e => Err (wrap "failed to parse templates from any location" e)
  | Ok (tmpl, path) =>
      let log1 := ["Loaded templates from: " +:+ path] in
      let publicBaseURL := Config.PublicBaseURL cfg in
      let publicBaseURL :=
        if String.eqb publicBaseURL "" then "http://localhost:" +:+ Config.Port cfg
        else publicBaseURL in
      let publicBaseURL :=
        if nonempty (strings.TrimSpace (ngrokAPIURL out)) then
          let pub := detectNgrokPublicURL out (ngrokAPIURL out) in
          if nonempty pub then pub else publicBaseURL
        else publicBaseURL in
      let defaultConn := Config.DefaultConn cfg in
      let '(defaultConn, log2) :=
        if nonempty (Config.FaxAppID cfg) && String.eqb defaultConn "" then
          match FaxApplicationsGet out (Config.FaxAppID cfg) with
          | Ok id =>
              if nonempty id
              then (id, ["Using fax application ID as connection ID: " +:+ id])
              else (defaultConn, [])
          | Err e =>
              (defaultConn, ["Warning: Could not fetch fax application details: " +:+ e])
          end
        else (defaultConn, []) in
      let app :=
        {| App.Tmpl := tmpl;
           App.DefaultFrom := Config.DefaultFrom cfg;
           App.DefaultConnectionID := defaultConn;
           App.FaxApplicationID := Config.FaxAppID cfg;
           App.Hipaa := Config.Hipaa cfg;
           App.PublicBaseURL := publicBaseURL;
           App.UploadDir := Config.UploadDir cfg;
           App.uploadedFiles := ∅;
           App.AuthConfig := Config.AuthConfig cfg |} in
      let cleanup :=
        if Config.Hipaa cfg || String.eqb (Config.UploadDir cfg) ""
        then Some (5 * time.Minute) else None in
      let app :=
        if String.eqb (AuthConfig.BaseURL (App.AuthConfig app)) ""
        then App.with_AuthConfig app
               (AuthConfig.with_BaseURL (App.AuthConfig app) publicBaseURL)
        else app in
      Ok {| startedApp := app; cleanupInterval := cleanup; startLog := log1 ++ log2 |}
  end.

(* ----------------------------------------------------------------- *)
(** ** The running server *)

(** One step of the running server on the application state: an
    upload, a media request, or a sweep of the background task. *)
Inductive Step : App.t -> App.t -> Prop :=
| step_upload a w r res a' w' :
    handleFileUpload a w r = (res, a', w') -> Step a a'
| step_media a now r rep a' :
    handleMediaServe a now r = (rep, a') -> Step a a'
| step_sweep a now a' log :
    cleanupExpiredFiles a now = Some (a', log) -> Step a a'.

(** The states the server can be in: the one [NewApp] returns and the
    ones steps lead to. *)
Inductive Reachable : App.t -> Prop :=
| reach_start out cfg st :
    NewApp out cfg = Ok st -> Reachable (startedApp st)
| reach_step a a' :
    Reachable a -> Step a a' -> Reachable a'.

(** Any number of sweeps of the background task, at any times. *)
Inductive Sweeps : App.t -> App.t -> Prop :=
| sweeps_none a : Sweeps a a
| sweeps_more a a1 a2 now log :
    Sweeps a a1 -> cleanupExpiredFiles a1 now = Some (a2, log) -> Sweeps a a2.

(* ----------------------------------------------------------------- *)
(** ** Notions the properties are stated with *)

(** The memory backend is in effect: compliance mode, or no upload
    directory. *)
Definition memoryMode (a : App.t) : bool :=
  App.Hipaa a || String.eqb (App.UploadDir a) "".

Definition is_hex_digit (c : ascii) : bool :=
  let n := nat_of_ascii c in
  (((48 <=? n) && (n <=? 57)) || ((97 <=? n) && (n <=? 102)))%nat.

Fixpoint all_chars (P : ascii -> bool) (s : string) : bool :=
  match s with
  | EmptyString => true
  | String c s' => P c && all_chars P s'
  end.

Definition is_hex_byte (b : byte) : bool := is_hex_digit (ascii_of_byte b).

(** A media token: 64 lower-case hexadecimal digits. *)
Definition is_token (s : string) : bool :=
  (String.length s =? 64)%nat && all_chars is_hex_digit s.

(** What holds of the map in every state of the server: its keys are
    media tokens, and it is empty unless the memory backend is in
    effect. *)
Definition Inv (a : App.t) : Prop :=
  forall k f, App.uploadedFiles a !! k = Some f ->
              is_token k = true /\ memoryMode a = true.

(** Whether the sweep at [now] removes the entry [f]. *)
Definition expired (now : time.Time) (f : uploadedFile) : bool :=
  time.After now (ExpiresAt f).

(** The first part uploaded under [media_file], if any. *)
Definition uploadedPart (r : http.Request) : option multipart.FileHeader :=
  match http.MultipartForm r with
  | Some form =>
      match multipart.File_ form with
      | Some fileMap => head (default [] (fileMap !! "media_file"))
      | None => None
      end
  | None => None
  end.

(** No character of [s] is [sep]. *)
Definition free_of (sep : ascii) (s : string) : bool :=
  all_chars (fun c => negb (Ascii.eqb c sep)) s.

(** A redirect target begins with a single slash: with ['/'], and not
    with ['//']. *)
Definition begins_with_single_slash (target : string) : bool :=
  match target with
  | String "/" EmptyString => true
  | String "/" (String c _) => negb (Ascii.eqb c "/")
  | _ => false
  end.

(** The target that is honoured for a requested one. *)
Definition honoured (target : string) : string :=
  if begins_with_single_slash target then target else "/".

(** [c] with bit [k] flipped, for [k < 8]. *)
Definition flip_ascii (k : nat) (c : ascii) : ascii :=
  let 'Ascii b0 b1 b2 b3 b4 b5 b6 b7 := c in
  match k with
  | 0 => Ascii (negb b0) b1 b2 b3 b4 b5 b6 b7
  | 1 => Ascii b0 (negb b1) b2 b3 b4 b5 b6 b7
  | 2 => Ascii b0 b1 (negb b2) b3 b4 b5 b6 b7
  | 3 => Ascii b0 b1 b2 (negb b3) b4 b5 b6 b7
  | 4 => Ascii b0 b1 b2 b3 (negb b4) b5 b6 b7
  | 5 => Ascii b0 b1 b2 b3 b4 (negb b5) b6 b7
  | 6 => Ascii b0 b1 b2 b3 b4 b5 (negb b6) b7
  | 7 => Ascii b0 b1 b2 b3 b4 b5 b6 (negb b7)
  | _ => c
  end%nat.

(** [s] with its bit number [i] flipped: bit [i mod 8] of the byte at
    index [i / 8]. *)
Fixpoint flip_bit (i : nat) (s : string) : string :=
  match s with
  | EmptyString => EmptyString
  | String c s' =>
      if (i <? 8)%nat then String (flip_ascii i c) s'
      else String c (flip_bit (i - 8) s')
  end.

(** The place a path names, as the names from the root down to it, for
    a process whose working directory is [cwd]: an empty element and
    [.] stay in place, [..] goes to the parent (the root is its own
    parent), a name goes down. *)
Fixpoint walk (at_ : list string) (elems : list string) : list string :=
  match elems with
  | [] => at_
  | e :: elems' =>
      if String.eqb e "" || String.eqb e "." then walk at_ elems'
      else if String.eqb e ".." then walk (tail at_) elems'
      else walk (e :: at_) elems'
  end.

Definition resolve (cwd : list string) (path : string) : list string :=
  rev (walk (if strings.HasPrefix path "/" then [] else rev cwd)
            (filepath.elements path)).

Fixpoint is_prefix (l1 l2 : list string) : bool :=
  match l1, l2 with
  | [], _ => true
  | x :: l1', y :: l2' => String.eqb x y && is_prefix l1' l2'
  | _ :: _, [] => false
  end.

(** [path] names a place strictly below the directory [dir]. *)
Definition inside (cwd : list string) (dir path : string) : bool :=
  let d := resolve cwd dir in
  let p := resolve cwd path in
  is_prefix d p && (length d <? length p)%nat.

(** An element without separator. *)
Definition sep_free (e : string) : bool := negb (filepath.has_separator e).

(** A name: an element that is not empty, [.] or [..]. *)
Definition is_name (e : string) : bool :=
  negb (String.eqb e "") && negb (String.eqb e ".") && negb (String.eqb e "..").

(** The cleaned directory ends with [..]: it names an ancestor of the
    working directory. *)
Definition climbs (dir : string) : bool :=
  match last (filepath.elements (filepath.Clean dir)) with
  | Some e => String.eqb e ".."
  | None => false
  end.

(** Elements written by [Clean], last one first: names on top of a run
    of [..]. *)
Inductive Shape : list string -> Prop :=
| shape_dots dd : Forall (fun e => e = "..") dd -> Shape dd
| shape_name e out : is_name e = true -> Shape out -> Shape (e :: out).

(** The elements [Clean] writes for [path], first one first. *)
Definition cleaned (path : string) : list string :=
  rev (filepath.clean_elements (strings.HasPrefix path "/") [] (filepath.elements path)).

(** The entry [storeFileInMemory] makes for a part read in full. *)
Definition memoryEntry (w : World) (file : multipart.File)
    (fileHeader : multipart.FileHeader) : uploadedFile :=
  {| Data := multipart.content file;
     Type_ := if String.eqb (multipart.ContentType fileHeader) ""
              then "application/octet-stream"
              else multipart.ContentType fileHeader;
     ExpiresAt := time.Add (now w) (30 * time.Minute) |}.

(* ----------------------------------------------------------------- *)
(** ** A deployment to run the definitions on *)

(** Compliance mode together with an upload directory, a password and
    no session secret, one identity provider. *)
Definition demoEnv : gmap string string :=
  list_to_map
    [("PUBLIC_BASE_URL", "https://host/"); ("HIPAA_MODE", "True");
     ("UPLOAD_DIR", "/data"); ("AUTH_PASSWORD", "correct horse battery");
     ("GOOGLE_CLIENT_ID", "client-1"); ("GOOGLE_CLIENT_SECRET", "hush")].

Definition demoFlags : Flags :=
  {| fax_app_id := ""; from := ""; connection_id := ""; hipaa := false;
     public_base_url := ""; upload_dir := "" |}.

Definition demoTmpl : string -> option string := fun _ => None.

Definition demoOutside : Outside :=
  {| ParseGlob := fun _ => Ok demoTmpl;
     ngrokAPIURL := "";
     detectNgrokPublicURL := fun _ => "";
     FaxApplicationsGet := fun _ => Err "unreachable" |}.

Definition demoAuth : AuthConfig.t :=
  {| AuthConfig.Password := "correct horse battery";
     AuthConfig.SessionSecret := "change-me-correct ho";
     AuthConfig.GoogleClientID := "client-1";
     AuthConfig.GoogleClientSecret := "hush";
     AuthConfig.MicrosoftClientID := "";
     AuthConfig.MicrosoftSecret := "";
     AuthConfig.GitHubClientID := "";
     AuthConfig.GitHubSecret := "";
     AuthConfig.BaseURL := "https://host/" |}.

(** The application [NewApp] starts from [demoEnv]. *)
Definition demoApp : App.t :=
  {| App.Tmpl := demoTmpl;
     App.DefaultFrom := "";
     App.DefaultConnectionID := "";
     App.FaxApplicationID := "";
     App.Hipaa := true;
     App.PublicBaseURL := "https://host/";
     App.UploadDir := "/data";
     App.uploadedFiles := ∅;
     App.AuthConfig := demoAuth |}.

Definition demoSource : rand.Source :=
  {| rand.fails := fun _ => None;
     rand.pool := fun k i => sha256.byte_of_Z (Z.of_nat (7 * i + 13 * k + 1));
     rand.calls := 0 |}.


Definition demoFS : os.FS :=
  {| os.dirs := ∅; os.files := ∅;
     os.mkdir_err := None; os.create_err := None; os.write_err := None |}.

Definition demoWorld : World :=
  {| now := 1000; entropy := demoSource; disk := demoFS |}.

Definition demoFile : multipart.File :=
  {| multipart.content := list_byte_of_string "abc"; multipart.read_err := None |}.

Definition demoHeader : multipart.FileHeader :=
  {| multipart.Filename := "doc";
     multipart.ContentType := "text/plain";
     multipart.Open := Ok demoFile |}.

Definition demoUpload : http.Request :=
  {| http.Method := "POST"; http.URLPath := "/fax"; http.URLQuery := [];
     http.Form := Ok [];
     http.MultipartForm :=
       Some {| multipart.File_ := Some {[ "media_file" := [demoHeader] ]} |};
     http.Cookies := [] |}.

Definition demoToken : string :=
  "01080f161d242b323940474e555c636a71787f868d949ba2a9b0b7bec5ccd3da".

(** The application after the upload [demoUpload]. *)
Definition demoStored : App.t :=
  App.with_uploadedFiles demoApp
    {[ demoToken := memoryEntry demoWorld demoFile demoHeader ]}.

Definition mediaGet (path : string) : http.Request :=
  {| http.Method := "GET"; http.URLPath := path; http.URLQuery := [];
     http.Form := Ok []; http.MultipartForm := None; http.Cookies := [] |}.

(** A provider that accepts every code. *)
Definition demoProvider : oauth2.Provider :=
  {| oauth2.AuthCodeURL := fun config state =>
       "https://accounts.example/o/oauth2/auth?client_id=" +:+ oauth2.ClientID config
       +:+ "&state=" +:+ state;
     oauth2.Exchange := fun _ _ => Ok {| oauth2.Valid := true |} |}.

(** A deployment without compliance mode whose upload directory is
    the parent of the working directory. *)
Definition parentDirEnv : gmap string string :=
  list_to_map [("PUBLIC_BASE_URL", "https://host"); ("UPLOAD_DIR", "..")].

(** The application [NewApp] starts from [parentDirEnv]. *)
Definition parentDirApp : App.t :=
  {| App.Tmpl := demoTmpl;
     App.DefaultFrom := "";
     App.DefaultConnectionID := "";
     App.FaxApplicationID := "";
     App.Hipaa := false;
     App.PublicBaseURL := "https://host";
     App.UploadDir := "..";
     App.uploadedFiles := ∅;
     App.AuthConfig :=
       {| AuthConfig.Password := "";
          AuthConfig.SessionSecret := "";
          AuthConfig.GoogleClientID := "";
          AuthConfig.GoogleClientSecret := "";
          AuthConfig.MicrosoftClientID := "";
          AuthConfig.MicrosoftSecret := "";
          AuthConfig.GitHubClientID := "";
          AuthConfig.GitHubSecret := "";
          AuthConfig.BaseURL := "https://host" |} |}.

Definition parentDirStarted : Started :=
  {| startedApp := parentDirApp;
     cleanupInterval := None;
     startLog := ["Loaded templates from: web/templates/*.html"] |}.

Definition demoConfig : Config.t := (LoadConfig demoEnv demoFlags).1.

Definition demoStarted : Started :=
  {| startedApp := demoApp;
     cleanupInterval := Some (5 * time.Minute);
     startLog := ["Loaded templates from: web/templates/*.html"] |}.

(** The world after one read of the entropy source. *)
Definition demoWorld' : World :=
  with_entropy demoWorld (rand.Read 32 demoSource).2.

(** The entry of [demoStored] expires at this time. *)
Definition demoExpiry : time.Time := 1800000001000.

(** The same deployment with compliance mode off. *)
Definition diskApp : App.t :=
  {| App.Tmpl := demoTmpl;
     App.DefaultFrom := "";
     App.DefaultConnectionID := "";
     App.FaxApplicationID := "";
     App.Hipaa := false;
     App.PublicBaseURL := "https://host/";
     App.UploadDir := "/data";
     App.uploadedFiles := ∅;
     App.AuthConfig := demoAuth |}.

(** The session cookie issued to a password login from [demoSource]. *)
Definition demoCookie : http.Cookie :=
  {| http.Name := "fax_ui_session";
     http.Value :=
       "AQgPFh0kKzI5QEdOVVxjanF4f4aNlJuiqbC3vsXM09o=.KQdREob0RjkKEWLxHnUpbcjKnRa7jqsG2n_BwefsCNw=.password";
     http.Path := "/";
     http.MaxAge := 86400;
     http.HttpOnly := true;
     http.Secure := true;
     http.SameSite_ := http.SameSiteLaxMode |}.

(** A password login that asks to be sent to another site. *)
Definition evilLogin : http.Request :=
  {| http.Method := "POST"; http.URLPath := "/login"; http.URLQuery := [];
     http.Form := Ok [("password", "correct horse battery");
                      ("redirect", "//evil.example/")];
     http.MultipartForm := None; http.Cookies := [] |}.

(** A callback with matching state whose stored target is another
    site. *)
Definition evilCallback : http.Request :=
  {| http.Method := "GET"; http.URLPath := "/auth/callback/google";
     http.URLQuery := [("state", "s1"); ("code", "good")];
     http.Form := Ok []; http.MultipartForm := None;
     http.Cookies := [("oauth_state", "s1"); ("oauth_redirect", "http://evil.example/")] |}.

(** A callback whose state is not the stored one. *)
Definition forgedCallback : http.Request :=
  {| http.Method := "GET"; http.URLPath := "/auth/callback/google";
     http.URLQuery := [("state", "s2"); ("code", "good")];
     http.Form := Ok []; http.MultipartForm := None;
     http.Cookies := [("oauth_state", "s1"); ("oauth_redirect", "/faxes")] |}.

Definition oauthLoginRequest : http.Request :=
  {| http.Method := "GET"; http.URLPath := "/auth/login/google";
     http.URLQuery := [("redirect", "/faxes")];
     http.Form := Ok []; http.MultipartForm := None; http.Cookies := [] |}.

(* ----------------------------------------------------------------- *)
(** ** More of the standard library *)

(** [strings.Contains(s, substr)] *)
Fixpoint Contains (s substr : string) : bool :=
  strings.HasPrefix s substr
  || match s with
     | EmptyString => false
     | String _ s' => Contains s' substr
     end.

(** [validCookieValueByte] of [net/http] *)
Definition validCookieValueByte (c : ascii) : bool :=
  let n := nat_of_ascii c in
  ((32 <=? n) && (n <? 127) && negb (n =? 34) && negb (n =? 59) && negb (n =? 92))%nat.

(** [sanitizeCookieValue] of [net/http], which [http.SetCookie]
    applies to the value of the cookie it writes: the bytes that are
    not valid in a cookie value are dropped.  (A value with a space or
    a comma is written between double quotes, which [r.Cookie] takes
    off again; so this is the value a client that kept the cookie
    comes back with.) *)
Fixpoint sanitizeCookieValue (v : string) : string :=
  match v with
  | EmptyString => EmptyString
  | String c v' =>
      if validCookieValueByte c then String c (sanitizeCookieValue v')
      else sanitizeCookieValue v'
  end.

(** Package [strconv] *)
Module strconv.

Definition is_digit (c : ascii) : bool :=
  let n := nat_of_ascii c in ((48 <=? n) && (n <=? 57))%nat.

(** The value of a string of decimal digits read after [acc]; [None]
    for the empty string and when a character is not a digit. *)
Fixpoint digits_value (s : string) (acc : Z) : option Z :=
  match s with
  | EmptyString => None
  | String c s' =>
      if is_digit c then
        let acc' := 10 * acc + Z.of_nat (nat_of_ascii c - 48) in
        match s' with
        | EmptyString => Some acc'
        | _ => digits_value s' acc'
        end
      else None
  end.

(** [strconv.ParseInt(s, 10, 64)]: an optional sign and decimal
    digits; [None] stands for a non-nil error, of syntax or of range
    (a value outside of [int64]). *)
Definition ParseInt (s : string) : option Z :=
  let '(neg, body) :=
    match s with
    | String "+" s' => (false, s')
    | String "-" s' => (true, s')
    | _ => (false, s)
    end in
  match digits_value body 0 with
  | None => None
  | Some v =>
      let n := if neg then - v else v in
      if (- 2 ^ 63 <=? n) && (n <=? 2 ^ 63 - 1) then Some n else None
  end.

End strconv.

(* ----------------------------------------------------------------- *)
(** ** Phone numbers *)

(** [regexp.MustCompile(`\D`).ReplaceAllString(phone, "")]: the
    decimal digits of [phone]; every other rune, of one byte or more,
    is removed. *)
Fixpoint digitsOf (phone : string) : string :=
  match phone with
  | EmptyString => EmptyString
  | String c phone' =>
      if strconv.is_digit c then String c (digitsOf phone') else digitsOf phone'
  end.

(** [strings.HasPrefix(strings.ToLower(phone), "sip:")]: the runes
    that [unicode.ToLower] sends to [s], [i], [p] and [:] are those
    letters, their capitals, and U+0130 (bytes C4 B0) for [i]. *)
Definition lowerHasSIP (phone : string) : bool :=
  match list_byte_of_string phone with
  | (x73 | x53) :: (x69 | x49) :: (x70 | x50) :: x3a :: _ => true
  | (x73 | x53) :: xc4 :: xb0 :: (x70 | x50) :: x3a :: _ => true
  | _ => false
  end.

(** [normalizePhoneNumber] converts a phone number to E.164 format.
    Assumes US/Canada (country code 1) if no country code is provided. *)
Definition normalizePhoneNumber (phone : string) : string :=
  let phone := strings.TrimSpace phone in
  if String.eqb phone "" then ""
  else if lowerHasSIP phone then phone
  else
    let hasPlus := strings.HasPrefix phone "+" in
    let digits := digitsOf phone in
    if hasPlus && (10 <=? String.length digits)%nat then "+" +:+ digits
    else
      let n := String.length digits in
      if (n =? 10)%nat then "+1" +:+ digits
      else if (n =? 11)%nat then
        if strings.HasPrefix digits "1" then "+" +:+ digits else "+1" +:+ digits
      else if ((12 <=? n) && (n <=? 15))%nat then "+" +:+ digits
      else if (0 <? n)%nat then "+" +:+ digits
      else phone.

(* ----------------------------------------------------------------- *)
(** ** File names *)

(** [strings.ReplaceAll(s, "..", ".")]: the occurrences are replaced
    from the left, without overlap, in one pass. *)
Fixpoint replaceDotDot (s : string) : string :=
  match s with
  | EmptyString => EmptyString
  | String c s' =>
      match s' with
      | EmptyString => String c EmptyString
      | String c' s'' =>
          if Ascii.eqb c "." && Ascii.eqb c' "." then String "." (replaceDotDot s'')
          else String c (replaceDotDot s')
      end
  end.

(** [strings.ReplaceAll(s, " ", "_")] *)
Fixpoint replaceSpace (s : string) : string :=
  match s with
  | EmptyString => EmptyString
  | String c s' => String (if Ascii.eqb c " " then "_"%char else c) (replaceSpace s')
  end.

(** The runes [sanitizeFilename] keeps: ASCII letters and digits, and
    ['.'], ['_'], ['-']. *)
Definition is_safe (c : ascii) : bool :=
  let n := nat_of_ascii c in
  (((97 <=? n) && (n <=? 122)) || ((65 <=? n) && (n <=? 90))
   || ((48 <=? n) && (n <=? 57)) || (n =? 46) || (n =? 95) || (n =? 45))%nat.

(** The loop over the runes of [name]: a rune of more than one byte,
    and a byte that is not valid UTF-8, is none of those kept. *)
Fixpoint keepSafe (name : string) : string :=
  match name with
  | EmptyString => EmptyString
  | String c name' =>
      if is_safe c then String c (keepSafe name') else keepSafe name'
  end.

(** [sanitizeFilename] removes potentially dangerous characters from
    filenames *)
Definition sanitizeFilename (name : string) : string :=
  let name := strings.TrimSpace name in
  let name := replaceDotDot name in
  let name := replaceSpace name in
  let b := keepSafe name in
  if (String.length b =? 0)%nat then "file" else b.

(* ----------------------------------------------------------------- *)
(** ** The fax API and the fax handlers *)

Module telnyx.

(** [telnyx.FaxNewParams]; an optional field that is not set is
    [None]. *)
Record FaxNewParams := {
  ConnectionID : string;
  From_ : string;
  To : string;
  MediaURL : option string;
  WebhookURL : option string;
  StorePreview : option bool;
  StoreMedia : option bool;
  Quality : option string
}.

(** A fax as the API returns it. *)
Definition Fax := string.

(** The remote API as the handlers reach it: the answers of
    [Faxes.New], [Faxes.Get] and [Faxes.List] (page number, page
    size). *)
Record Client := {
  FaxesNew : FaxNewParams -> result Fax;
  FaxesGet : string -> result Fax;
  FaxesList : Z -> Z -> result (list Fax)
}.

Inductive Call :=
| CallNew (params : FaxNewParams)
| CallGet (id : string)
| CallList (pageNumber pageSize : Z).

End telnyx.

Definition StatusBadGateway : Z := 502.

(** A value of the data handed to a page template. *)
Inductive Datum :=
| DString (s : string)
| DInt (n : Z)
| DFax (fax : telnyx.Fax)
| DFaxes (faxes : list telnyx.Fax).

(** What a fax handler writes: a reply of [net/http], or the template
    [name] run on [data]. *)
Inductive Output :=
| Replied (r : http.Reply)
| Rendered (name : string) (data : list (string * Datum)).

(** What one run of a fax handler did: its calls of the API, in
    order, and what it wrote. *)
Record FaxRun := {
  apiCalls : list telnyx.Call;
  output : Output
}.

Definition noCall (r : http.Reply) : FaxRun :=
  {| apiCalls := []; output := Replied r |}.

(** [a.Tmpl.ExecuteTemplate(w, name, data)] and the reply to its
    error. *)
Definition render (a : App.t) (name : string) (data : list (string * Datum)) : Output :=
  match App.Tmpl a name with
  | Some e => Replied (http.Error e http.StatusInternalServerError)
  | None => Rendered name data
  end.

(** The request as a handler sees it that did not parse a multipart
    body: [r.MultipartForm] is nil. *)
Definition withoutMultipart (r : http.Request) : http.Request :=
  {| http.Method := http.Method r; http.URLPath := http.URLPath r;
     http.URLQuery := http.URLQuery r; http.Form := http.Form r;
     http.MultipartForm := None; http.Cookies := http.Cookies r |}.

Definition qualities : list string :=
  ["normal"; "high"; "very_high"; "ultra_light"; "ultra_dark"].

(** The file parts of the parsed form.  Under one name they are in
    the order of the body; the order of the names in the body is not
    part of the parsed form, and the order of [map_to_list] stands for
    it. *)
Definition fileParts (r : http.Request) : list multipart.FileHeader :=
  match http.MultipartForm r with
  | Some form =>
      match multipart.File_ form with
      | Some fileMap => flat_map snd (map_to_list fileMap)
      | None => []
      end
  | None => []
  end.

(** The bytes of a file part: those a reader of the part gets. *)
Definition partBytes (fh : multipart.FileHeader) : bytes :=
  match multipart.Open fh with
  | Ok file => multipart.content file
  | Err _ => []
  end.

(** The parts [mime/multipart] does not keep in memory when it reads
    a form with [maxMemory] bytes for the file parts: a part stays in
    memory when its bytes fit into what the parts kept before it have
    left of [budget]; a part that does not fit goes to the temporary
    file, whole.  A part in memory opens without error, so a part
    that does not open is one of the temporary file. *)
Fixpoint spooled (budget : Z) (parts : list multipart.FileHeader)
  : list multipart.FileHeader :=
  match parts with
  | [] => []
  | fh :: parts' =>
      match multipart.Open fh with
      | Err _ => fh :: spooled budget parts'
      | Ok file =>
          let n := Z.of_nat (length (multipart.content file)) in
          if budget <? n then fh :: spooled budget parts'
          else spooled (budget - n) parts'
      end
  end.

(** [r.ParseForm()]: its error; [http.Form r] holds the outcome. *)
Definition ParseForm (r : http.Request) : result unit :=
  match http.Form r with
  | Ok _ => Ok tt
  | Err e => Err e
  end.

(** [r.ParseMultipartForm(maxMemory)], for a request whose parse
    [http.Form r] and [http.MultipartForm r] hold: its error, and the
    file system it leaves.  The parts that are not kept in memory are
    written, one after the other, to one file that [os.CreateTemp]
    creates in the directory for temporary files under a name that is
    not in use, [tmp].  When the file cannot be created or written the
    parse fails and removes it.  Otherwise the file is there while the
    handler runs (the server removes it once the handler has
    returned), also when the parse returns the error of [ParseForm],
    which it keeps for the end. *)
Definition ParseMultipartForm (maxMemory : Z) (tmp : string) (r : http.Request)
    (fs : os.FS) : result unit * os.FS :=
  match spooled maxMemory (fileParts r) with
  | [] => (ParseForm r, fs)
  | parts =>
      match os.Create tmp fs with
      | (Err e, _) => (Err e, fs)
      | (Ok _, fs1) =>
          match os.Write tmp (concat (map partBytes parts)) fs1 with
          | (Err e, _) => (Err e, fs)
          | (Ok _, fs2) => (ParseForm r, fs2)
          end
      end
  end.

(** The parse [handleSendFax] begins with, of the multipart form when
    the content type says so ([multipart]): its error and the world it
    leaves. *)
Definition parseFaxForm (multipart : bool) (tmp : string) (r : http.Request)
    (w : World) : result unit * World :=
  if multipart then
    let '(res, fs) := ParseMultipartForm (Z.shiftl 25 20) tmp r (disk w) in
    (res, with_disk w fs)
  else (ParseForm r, w).

(** [handleSendFax] processes the fax send form and sends a fax via
    Telnyx API.  [contentType] is [r.Header.Get("Content-Type")];
    [http.Form r] is the outcome of the parse the handler chooses, and
    [tmp] the name of the temporary file of that parse. *)
Definition handleSendFax (c : telnyx.Client) (a : App.t) (w : World)
    (contentType tmp : string) (r : http.Request) : FaxRun * App.t * World :=
  let multipart := Contains contentType "multipart/form-data" in
  let '(parsed, w) := parseFaxForm multipart tmp r w in
  match parsed with
  | Err _ =>
      (noCall (http.Error (if multipart then "invalid multipart form" else "invalid form")
                 http.StatusBadRequest), a, w)
  | Ok _ =>
      let r := if multipart then r else withoutMultipart r in
      let connectionID := http.FormValue r "connection_id" in
      let connectionID :=
        if String.eqb connectionID "" then App.DefaultConnectionID a else connectionID in
      let from := normalizePhoneNumber (http.FormValue r "from") in
      let from := if String.eqb from "" then App.DefaultFrom a else from in
      let to := normalizePhoneNumber (http.FormValue r "to") in
      let mediaURL := http.FormValue r "media_url" in
      let webhookURL := http.FormValue r "webhook_url" in
      let storePreview := String.eqb (http.FormValue r "store_preview") "on" in
      let storeMedia := String.eqb (http.FormValue r "store_media") "on" in
      let quality := http.FormValue r "quality" in
      if String.eqb connectionID "" || String.eqb from "" || String.eqb to "" then
        (noCall (http.Error "connection_id, from and to are required"
                   http.StatusBadRequest), a, w)
      else
        match handleFileUpload a w r with
        | (Err e, a', w') =>
            (noCall (http.Error e http.StatusInternalServerError), a', w')
        | (Ok uploadedURL, a', w') =>
            let hipaaDefault := if App.Hipaa a then Some false else None in
            let media :=
              if nonempty uploadedURL then Some uploadedURL
              else if nonempty mediaURL then Some mediaURL
              else None in
            match media with
            | None =>
                (noCall (http.Error "media_url or media_file is required"
                           http.StatusBadRequest), a', w')
            | Some _ =>
                let params :=
                  {| telnyx.ConnectionID := connectionID;
                     telnyx.From_ := from;
                     telnyx.To := to;
                     telnyx.MediaURL := media;
                     telnyx.WebhookURL :=
                       if nonempty webhookURL then Some webhookURL else None;
                     telnyx.StorePreview :=
                       if storePreview && negb (App.Hipaa a) then Some true
                       else hipaaDefault;
                     telnyx.StoreMedia :=
                       if storeMedia && negb (App.Hipaa a) then Some true
                       else hipaaDefault;
                     telnyx.Quality :=
                       if existsb (String.eqb quality) qualities then Some quality
                       else None |} in
                match telnyx.FaxesNew c params with
                | Err e =>
                    ({| apiCalls := [telnyx.CallNew params];
                        output := Replied (http.Error e StatusBadGateway) |}, a', w')
                | Ok fax =>
                    ({| apiCalls := [telnyx.CallNew params];
                        output := render a "fax_show.html" [("Fax", DFax fax)] |}, a', w')
                end
            end
        end
  end.

(** [handleShowFax] retrieves and displays details for a specific fax
    by ID *)
Definition handleShowFax (c : telnyx.Client) (a : App.t) (r : http.Request) : FaxRun :=
  let id := http.Get (http.URLQuery r) "id" in
  if String.eqb id "" then noCall (http.Error "missing id" http.StatusBadRequest)
  else
    match telnyx.FaxesGet c id with
    | Err e =>
        {| apiCalls := [telnyx.CallGet id];
           output := Replied (http.Error e StatusBadGateway) |}
    | Ok fax =>
        {| apiCalls := [telnyx.CallGet id];
           output := render a "fax_show.html" [("Fax", DFax fax)] |}
    end.

(** [handleFax] routes POST requests to send a fax and GET requests to
    show fax details *)
Definition handleFax (c : telnyx.Client) (a : App.t) (w : World)
    (contentType tmp : string) (r : http.Request) : FaxRun * App.t * World :=
  if String.eqb (http.Method r) http.MethodPost then handleSendFax c a w contentType tmp r
  else if String.eqb (http.Method r) http.MethodGet then (handleShowFax c a r, a, w)
  else (noCall (http.Error "method not allowed" http.StatusMethodNotAllowed), a, w).

(** The page parameter [handleFaxes] uses for the value [v] of the
    query: what parses as a positive integer, else [dflt]. *)
Definition pageParam (v : string) (dflt : Z) : Z :=
  if String.eqb v "" then dflt
  else match strconv.ParseInt v with
       | Some n => if 0 <? n then n else dflt
       | None => dflt
       end.

(** [handleFaxes] lists all faxes with pagination support *)
Definition handleFaxes (c : telnyx.Client) (a : App.t) (r : http.Request) : FaxRun :=
  if negb (String.eqb (http.Method r) http.MethodGet) then
    noCall (http.Error "method not allowed" http.StatusMethodNotAllowed)
  else
    let size := pageParam (http.Get (http.URLQuery r) "page_size") 10 in
    let number := pageParam (http.Get (http.URLQuery r) "page_number") 1 in
    match telnyx.FaxesList c number size with
    | Err e =>
        {| apiCalls := [telnyx.CallList number size];
           output := Replied (http.Error e StatusBadGateway) |}
    | Ok faxes =>
        {| apiCalls := [telnyx.CallList number size];
           output := render a "faxes.html"
                       [("Faxes", DFaxes faxes); ("PageSize", DInt size);
                        ("PageNumber", DInt number)] |}
    end.

(* ----------------------------------------------------------------- *)
(** ** More notions the properties are stated with *)

(** The number of occurrences of the byte [c] in [s]. *)
Fixpoint count_char (c : ascii) (s : string) : nat :=
  match s with
  | EmptyString => O
  | String x s' => ((if Ascii.eqb x c then 1 else 0) + count_char c s')%nat
  end.

(** A string that [strings.TrimSpace] empties. *)
Definition blank (s : string) : Prop := strings.TrimSpace s = "".


(** A printable ASCII character that is not the space. *)
Definition is_graphic (c : ascii) : bool :=
  let n := nat_of_ascii c in ((33 <=? n) && (n <=? 126))%nat.

(** [n] dots. *)
Fixpoint dots (n : nat) : string :=
  match n with
  | O => EmptyString
  | S n' => String "." (dots n')
  end.

(** [n] slashes. *)
Fixpoint slashes (n : nat) : string :=
  match n with
  | O => EmptyString
  | S n' => String "/" (slashes n')
  end.

(** The last byte of [s] is a slash. *)
Fixpoint ends_with_slash (s : string) : bool :=
  match s with
  | EmptyString => false
  | String c s' =>
      match s' with
      | EmptyString => Ascii.eqb c "/"
      | _ => ends_with_slash s'
      end
  end.

(* ----------------------------------------------------------------- *)
(** ** More of the deployment *)

(** A request that comes with a session cookie of two parts. *)
Definition staleRequest : http.Request :=
  {| http.Method := "GET"; http.URLPath := "/faxes"; http.URLQuery := [];
     http.Form := Ok []; http.MultipartForm := None;
     http.Cookies := [("fax_ui_session", "abc.def")] |}.

(** A deployment with an identity provider, and neither a password
    nor a session secret. *)
Definition oauthOnlyEnv : gmap string string :=
  list_to_map
    [("PUBLIC_BASE_URL", "https://host"); ("GOOGLE_CLIENT_ID", "client-1");
     ("GOOGLE_CLIENT_SECRET", "hush")].

(** The application [NewApp] starts from [oauthOnlyEnv]. *)
Definition oauthOnlyApp : App.t :=
  {| App.Tmpl := demoTmpl;
     App.DefaultFrom := "";
     App.DefaultConnectionID := "";
     App.FaxApplicationID := "";
     App.Hipaa := false;
     App.PublicBaseURL := "https://host";
     App.UploadDir := "";
     App.uploadedFiles := ∅;
     App.AuthConfig :=
       {| AuthConfig.Password := "";
          AuthConfig.SessionSecret := "";
          AuthConfig.GoogleClientID := "client-1";
          AuthConfig.GoogleClientSecret := "hush";
          AuthConfig.MicrosoftClientID := "";
          AuthConfig.MicrosoftSecret := "";
          AuthConfig.GitHubClientID := "";
          AuthConfig.GitHubSecret := "";
          AuthConfig.BaseURL := "https://host" |} |}.

Definition oauthOnlyStarted : Started :=
  {| startedApp := oauthOnlyApp;
     cleanupInterval := Some (5 * time.Minute);
     startLog := ["Loaded templates from: web/templates/*.html"] |}.

(** A login form that was sent empty. *)
Definition emptyLogin : http.Request :=
  {| http.Method := "POST"; http.URLPath := "/login"; http.URLQuery := [];
     http.Form := Ok []; http.MultipartForm := None; http.Cookies := [] |}.

(** A request whose session cookie was made without the server: the
    token [x] and its signature under the empty key. *)
Definition forgedSession : http.Request :=
  {| http.Method := "GET"; http.URLPath := "/faxes"; http.URLQuery := [];
     http.Form := Ok []; http.MultipartForm := None;
     http.Cookies :=
       [(sessionCookieName, "x" +:+ "." +:+ signSessionToken "x" "" +:+ "." +:+ "forged")] |}.

(** The state [handleOAuthLogin] draws from [demoSource]. *)
Definition demoState : string := "AQgPFh0kKzI5QEdOVVxjanF4f4aNlJuiqbC3vsXM09o=".

(** The callback that follows [oauthLoginRequest]. *)
Definition goodCallback : http.Request :=
  {| http.Method := "GET"; http.URLPath := "/auth/callback/google";
     http.URLQuery := [("state", demoState); ("code", "good")];
     http.Form := Ok []; http.MultipartForm := None;
     http.Cookies := [("oauth_redirect", "/faxes"); ("oauth_state", demoState)] |}.

(** A part whose reading breaks off after two bytes. *)
Definition truncatedFile : multipart.File :=
  {| multipart.content := list_byte_of_string "ab";
     multipart.read_err := Some "unexpected EOF" |}.

(** The world after the upload [demoUpload] to the disk backend. *)
Definition diskWorld' : World :=
  {| now := 1000;
     entropy := (rand.Read 32 demoSource).2;
     disk := {| os.dirs := {["/data"]};
                os.files := {[ "/data/" +:+ demoToken := list_byte_of_string "abc" ]};
                os.mkdir_err := None; os.create_err := None; os.write_err := None |} |}.

(** A part of 27 MiB. *)
Definition bigFile : multipart.File :=
  {| multipart.content := repeat x00 (Z.to_nat (27 * 2 ^ 20));
     multipart.read_err := None |}.

Definition bigHeader : multipart.FileHeader :=
  {| multipart.Filename := "scan.pdf";
     multipart.ContentType := "application/pdf";
     multipart.Open := Ok bigFile |}.

(** A fax form with that part. *)
Definition bigUpload : http.Request :=
  {| http.Method := "POST"; http.URLPath := "/fax"; http.URLQuery := [];
     http.Form := Ok [("connection_id", "conn-1"); ("from", "+15551230000");
                      ("to", "+15551234567")];
     http.MultipartForm :=
       Some {| multipart.File_ := Some {[ "media_file" := [bigHeader] ]} |};
     http.Cookies := [] |}.

(** A login that asks to be sent to a target with a semicolon. *)
Definition semicolonLogin : http.Request :=
  {| http.Method := "GET"; http.URLPath := "/auth/login/google";
     http.URLQuery := [("redirect", "/;/evil.example")];
     http.Form := Ok []; http.MultipartForm := None; http.Cookies := [] |}.

(** The callback that follows it: the cookies are as [http.SetCookie]
    wrote them. *)
Definition semicolonCallback : http.Request :=
  {| http.Method := "GET"; http.URLPath := "/auth/callback/google";
     http.URLQuery := [("state", demoState); ("code", "good")];
     http.Form := Ok []; http.MultipartForm := None;
     http.Cookies := [("oauth_redirect", "//evil.example"); ("oauth_state", demoState)] |}.

(** An API that accepts every fax. *)
Definition demoClient : telnyx.Client :=
  {| telnyx.FaxesNew := fun _ => Ok "fax-1";
     telnyx.FaxesGet := fun id => Ok id;
     telnyx.FaxesList := fun _ _ => Ok [] |}.

(** A fax form with a part and, besides, a media URL. *)
Definition faxUpload : http.Request :=
  {| http.Method := "POST"; http.URLPath := "/fax"; http.URLQuery := [];
     http.Form := Ok [("connection_id", "conn-1"); ("from", "+15551230000");
                      ("to", "(555) 123-4567");
                      ("media_url", "https://elsewhere.example/doc.pdf");
                      ("store_media", "on")];
     http.MultipartForm :=
       Some {| multipart.File_ := Some {[ "media_file" := [demoHeader] ]} |};
     http.Cookies := [] |}.

(** The fax the API is asked for on [faxUpload]. *)
Definition faxParams : telnyx.FaxNewParams :=
  {| telnyx.ConnectionID := "conn-1";
     telnyx.From_ := "+15551230000";
     telnyx.To := "+15551234567";
     telnyx.MediaURL := Some ("https://host/media/" +:+ demoToken);
     telnyx.WebhookURL := None;
     telnyx.StorePreview := Some false;
     telnyx.StoreMedia := Some false;
     telnyx.Quality := None |}.

(* ================================================================= *)
(** * Part II: properties *)
(* ================================================================= *)

(** ** Strings *)

Lemma HasPrefix_app (p s : string) : strings.HasPrefix (p +:+ s) p = true.
Proof.
  induction p as [|c p IH]; simpl; [by destruct s|].
  by rewrite Ascii.eqb_refl.
Qed.

Lemma skip_app (p s : string) : strings.skip (p +:+ s) p = s.
Proof.
  induction p as [|c p IH]; simpl; [by destruct s|exact IH].
Qed.

Lemma TrimPrefix_app (p s : string) : strings.TrimPrefix (p +:+ s) p = s.
Proof.
  unfold strings.TrimPrefix. by rewrite HasPrefix_app, skip_app.
Qed.

Lemma length_app_string (s t : string) :
  String.length (s +:+ t) = (String.length s + String.length t)%nat.
Proof. induction s; simpl; [done|]. by rewrite IHs. Qed.

Lemma trim_while_stop width fuel s :
  width s = 0%nat -> strings.trim_while width fuel s = s.
Proof. intros H. destruct fuel; simpl; [done|]. by rewrite H. Qed.

Lemma space_width_hex b l :
  is_hex_byte b = true -> strings.space_width (b :: l) = 0%nat.
Proof. destruct b; try discriminate; reflexivity. Qed.

Lemma space_width_rev_hex b l :
  is_hex_byte b = true -> strings.space_width_rev (b :: l) = 0%nat.
Proof. destruct b; try discriminate; reflexivity. Qed.

Lemma all_chars_bytes s :
  all_chars is_hex_digit s = true ->
  Forall (fun b => is_hex_byte b = true) (list_byte_of_string s).
Proof.
  induction s as [|c s IH]; simpl; intros H; [constructor|].
  apply andb_true_iff in H as [Hc Hs].
  constructor; [|by apply IH].
  unfold is_hex_byte. by rewrite ascii_of_byte_of_ascii.
Qed.

Lemma TrimLeftSpace_hex l :
  Forall (fun b => is_hex_byte b = true) l -> strings.TrimLeftSpace l = l.
Proof.
  intros H. unfold strings.TrimLeftSpace. apply trim_while_stop.
  destruct H; [done|]. by apply space_width_hex.
Qed.

Lemma TrimRightSpace_hex l :
  Forall (fun b => is_hex_byte b = true) l -> strings.TrimRightSpace l = l.
Proof.
  intros H. unfold strings.TrimRightSpace.
  rewrite trim_while_stop; [apply rev_involutive|].
  apply Forall_rev in H. destruct H; [done|]. by apply space_width_rev_hex.
Qed.

Lemma TrimSpace_hex s :
  all_chars is_hex_digit s = true -> strings.TrimSpace s = s.
Proof.
  intros H. apply all_chars_bytes in H. unfold strings.TrimSpace.
  rewrite TrimLeftSpace_hex, TrimRightSpace_hex by done.
  apply string_of_list_byte_of_string.
Qed.

(** ** Hexadecimal tokens *)

Lemma hex_length b : String.length (hex.EncodeToString b) = (2 * length b)%nat.
Proof. induction b as [|v b IH]; simpl; [done|]. rewrite IH. lia. Qed.

Lemma hex_digits b : all_chars is_hex_digit (hex.EncodeToString b) = true.
Proof.
  induction b as [|v b IH]; [done|].
  cbn [hex.EncodeToString all_chars]. rewrite IH, !andb_true_r.
  destruct v; reflexivity.
Qed.

Lemma rand_Read_length n src b src' :
  rand.Read n src = (Ok b, src') -> length b = n.
Proof.
  unfold rand.Read. destruct (rand.fails src (rand.calls src)); [done|].
  intros [= <- _]. by rewrite length_map, length_seq.
Qed.

Lemma generateSecureToken_is_token src token src' :
  generateSecureToken 32 src = (Ok token, src') -> is_token token = true.
Proof.
  unfold generateSecureToken.
  destruct (rand.Read 32 src) as [[b|e] s] eqn:E; [|done].
  intros [= <- _]. apply rand_Read_length in E.
  unfold is_token. rewrite hex_length, E, hex_digits. reflexivity.
Qed.

Lemma is_token_nonempty s : is_token s = true -> s <> "".
Proof. by intros H ->. Qed.

Lemma is_token_length s : is_token s = true -> String.length s = 64%nat.
Proof.
  unfold is_token. intros H. apply andb_true_iff in H as [H _].
  by apply Nat.eqb_eq in H.
Qed.

Lemma mediaToken_of_token token r :
  is_token token = true -> http.URLPath r = "/media/" +:+ token ->
  mediaToken r = token.
Proof.
  intros Ht Hp. unfold mediaToken. rewrite Hp, TrimPrefix_app.
  apply TrimSpace_hex. unfold is_token in Ht.
  by apply andb_true_iff in Ht as [_ Ht].
Qed.

(** ** The sweep *)

Lemma cleanup_fold_None now l : foldl (cleanupEntry now) None l = None.
Proof. induction l as [|kv l IH]; simpl; [done|]. exact IH. Qed.

(** The map after the loop, entry by entry. *)
Lemma cleanup_fold_lookup now l :
  forall m log m' log',
    foldl (cleanupEntry now) (Some (m, log)) l = Some (m', log') ->
    forall k,
      m' !! k =
      if existsb (fun kv => String.eqb kv.1 k && expired now kv.2) l
      then None else m !! k.
Proof.
  induction l as [|[k0 f0] l IH]; intros m log m' log' H k.
  - simpl in H. by injection H as <- <-.
  - cbn [foldl cleanupEntry] in H. cbn [existsb fst snd].
    unfold expired at 1.
    destruct (time.After now (ExpiresAt f0)) eqn:Ex.
    + destruct (String.length k0 <? 8)%nat.
      * by rewrite cleanup_fold_None in H.
      * rewrite (IH _ _ _ _ H k). rewrite andb_true_r.
        destruct (String.eqb_spec k0 k) as [->|Hne]; cbn [orb].
        -- rewrite lookup_delete_eq. by destruct (existsb _ l).
        -- by rewrite lookup_delete_ne.
    + rewrite andb_false_r. cbn [orb]. exact (IH _ _ _ _ H k).
Qed.

(** The loop runs to its end when every token has eight bytes. *)
Lemma cleanup_fold_total now l :
  (forall k f, (k, f) ∈ l -> (8 <= String.length k)%nat) ->
  forall m log, is_Some (foldl (cleanupEntry now) (Some (m, log)) l).
Proof.
  induction l as [|[k0 f0] l IH]; intros Hl m log; [by eexists|].
  cbn [foldl cleanupEntry].
  assert (Hk : (8 <= String.length k0)%nat) by (apply (Hl k0 f0); left).
  assert (Hl' : forall k f, (k, f) ∈ l -> (8 <= String.length k)%nat)
    by (intros k f ?; apply (Hl k f); by right).
  destruct (time.After now (ExpiresAt f0)); [|by apply IH].
  destruct (Nat.ltb_spec (String.length k0) 8); [lia|by apply IH].
Qed.

Lemma cleanup_existsb now (m : gmap string uploadedFile) k :
  existsb (fun kv => String.eqb kv.1 k && expired now kv.2) (map_to_list m)
  = match m !! k with Some f => expired now f | None => false end.
Proof.
  destruct (existsb _ _) eqn:E.
  - apply existsb_exists in E as [[k0 f0] [Hin E]].
    apply andb_true_iff in E as [Ek Ef]. cbn in Ek, Ef.
    apply String.eqb_eq in Ek as ->.
    apply list_elem_of_In, elem_of_map_to_list in Hin. by rewrite Hin.
  - destruct (m !! k) as [f|] eqn:Hk; [|done].
    destruct (expired now f) eqn:Ef; [|done].
    rewrite <- E. apply existsb_exists. exists (k, f). split.
    + by apply list_elem_of_In, elem_of_map_to_list.
    + cbn. by rewrite String.eqb_refl.
Qed.

(** A sweep that ends removes the expired entries and keeps the
    others as they are. *)
Lemma cleanup_lookup a now a' log :
  cleanupExpiredFiles a now = Some (a', log) ->
  forall k,
    App.uploadedFiles a' !! k =
    match App.uploadedFiles a !! k with
    | Some f => if expired now f then None else Some f
    | None => None
    end.
Proof.
  unfold cleanupExpiredFiles.
  destruct (foldl _ _ _) as [[m' log']|] eqn:E; [|done].
  intros [= <- <-] k. cbn.
  rewrite (cleanup_fold_lookup _ _ _ _ _ _ E k), cleanup_existsb.
  destruct (App.uploadedFiles a !! k) as [f|]; [|done].
  by destruct (expired now f).
Qed.

Lemma cleanup_frame a now a' log :
  cleanupExpiredFiles a now = Some (a', log) ->
  a' = App.with_uploadedFiles a (App.uploadedFiles a').
Proof.
  unfold cleanupExpiredFiles.
  destruct (foldl _ _ _) as [[m' log']|]; [|done]. by intros [= <- <-].
Qed.

Lemma cleanup_total a now :
  (forall k f, App.uploadedFiles a !! k = Some f -> is_token k = true) ->
  is_Some (cleanupExpiredFiles a now).
Proof.
  intros H. unfold cleanupExpiredFiles.
  destruct (cleanup_fold_total now (map_to_list (App.uploadedFiles a)))
    with (m := App.uploadedFiles a) (log := @nil string) as [[m' log'] E].
  - intros k f Hin. apply elem_of_map_to_list in Hin.
    apply H in Hin. apply is_token_length in Hin. lia.
  - rewrite E. by eexists.
Qed.

(** ** The store operations *)

Lemma storeFileInMemory_Ok a w file fh url a' w' :
  storeFileInMemory a w file fh = (Ok url, a', w') ->
  exists token,
    is_token token = true /\
    url = trimTrailingSlash (App.PublicBaseURL a) +:+ "/media/" +:+ token /\
    a' = App.with_uploadedFiles a
           (<[token := memoryEntry w file fh]> (App.uploadedFiles a)).
Proof.
  unfold storeFileInMemory.
  destruct (multipart.read_err file); [done|].
  destruct (generateSecureToken 32 (entropy w)) as [[token|e] src'] eqn:E; [|done].
  intros [= <- <- <-]. exists token. split; [|done].
  by eapply generateSecureToken_is_token.
Qed.

Lemma storeFileInMemory_Err a w file fh e a' w' :
  storeFileInMemory a w file fh = (Err e, a', w') -> a' = a.
Proof.
  unfold storeFileInMemory.
  destruct (multipart.read_err file); [by intros [= _ <- _]|].
  destruct (generateSecureToken 32 (entropy w)) as [[token|e'] src']; [done|].
  by intros [= _ <- _].
Qed.

Lemma storeFileInMemory_disk a w file fh :
  disk (storeFileInMemory a w file fh).2 = disk w.
Proof.
  unfold storeFileInMemory.
  destruct (multipart.read_err file); [done|].
  by destruct (generateSecureToken 32 (entropy w)) as [[token|e'] src'].
Qed.

Lemma storeFileToDisk_app a w file fh :
  (storeFileToDisk a w file fh).1.2 = a.
Proof.
  unfold storeFileToDisk.
  destruct (os.MkdirAll _ _) as [[[]|?] ?]; [|done].
  destruct (generateSecureToken _ _) as [[?|?] ?]; [|done].
  destruct (os.Create _ _) as [[[]|?] ?]; [|done].
  destruct (os.Write _ _ _) as [[[]|?] ?]; [|done].
  by destruct (multipart.read_err file).
Qed.

(** The three ways [handleFileUpload] ends: nothing to store, a part
    that cannot be opened, or the store of the backend in effect. *)
Lemma handleFileUpload_cases a w r :
  match uploadedPart r with
  | None => handleFileUpload a w r = (Ok "", a, w)
  | Some fh =>
      match multipart.Open fh with
      | Err e => handleFileUpload a w r = (Err (wrap "failed to read uploaded file" e), a, w)
      | Ok file =>
          handleFileUpload a w r =
          if memoryMode a then storeFileInMemory a w file fh
          else storeFileToDisk a w file fh
      end
  end.
Proof.
  unfold handleFileUpload, uploadedPart, memoryMode.
  destruct (http.MultipartForm r) as [form|]; [|done].
  destruct (multipart.File_ form) as [fm|]; [|done].
  destruct (default [] (fm !! "media_file")) as [|fh rest]; [done|].
  cbn [head]. by destruct (multipart.Open fh).
Qed.

(** ** The invariant of the server *)

Lemma memoryMode_with_uploadedFiles a m :
  memoryMode (App.with_uploadedFiles a m) = memoryMode a.
Proof. done. Qed.

Lemma Inv_insert a token f :
  Inv a -> is_token token = true -> memoryMode a = true ->
  Inv (App.with_uploadedFiles a (<[token := f]> (App.uploadedFiles a))).
Proof.
  intros HI Ht Hm k f'. cbn.
  destruct (decide (token = k)) as [->|Hne].
  - by rewrite lookup_insert_eq.
  - rewrite lookup_insert_ne by done. apply HI.
Qed.

Lemma Inv_delete a token :
  Inv a -> Inv (App.with_uploadedFiles a (delete token (App.uploadedFiles a))).
Proof.
  intros HI k f'. cbn.
  destruct (decide (token = k)) as [->|Hne].
  - by rewrite lookup_delete_eq.
  - rewrite lookup_delete_ne by done. apply HI.
Qed.

Lemma handleFileUpload_Inv a w r res a' w' :
  handleFileUpload a w r = (res, a', w') -> Inv a -> Inv a'.
Proof.
  intros H HI. pose proof (handleFileUpload_cases a w r) as C.
  destruct (uploadedPart r) as [fh|]; [|by rewrite C in H; injection H as _ <- _].
  destruct (multipart.Open fh) as [file|e];
    [|by rewrite C in H; injection H as _ <- _].
  rewrite C in H. destruct (memoryMode a) eqn:Hm.
  - destruct res as [url|e].
    + apply storeFileInMemory_Ok in H as (token & Ht & _ & ->).
      by apply Inv_insert.
    + by apply storeFileInMemory_Err in H as ->.
  - pose proof (storeFileToDisk_app a w file fh) as D.
    rewrite H in D. cbn in D. by subst a'.
Qed.

Lemma handleMediaServe_app a now r :
  (handleMediaServe a now r).2 = a \/
  (handleMediaServe a now r).2 =
    App.with_uploadedFiles a (delete (mediaToken r) (App.uploadedFiles a)).
Proof.
  unfold handleMediaServe.
  destruct (negb (String.eqb (http.Method r) http.MethodGet)); [by left|].
  destruct (String.eqb (mediaToken r) ""); [by left|].
  destruct (negb (App.Hipaa a) && nonempty (App.UploadDir a)).
  - destruct (negb (strings.HasPrefix _ _)); by left.
  - destruct (App.uploadedFiles a !! mediaToken r) as [f|]; [|by left].
    destruct (time.After now (ExpiresAt f)); [by right|by left].
Qed.

Lemma handleMediaServe_Inv a now r rep a' :
  handleMediaServe a now r = (rep, a') -> Inv a -> Inv a'.
Proof.
  intros H HI. destruct (handleMediaServe_app a now r) as [E|E];
    rewrite H in E; cbn in E; subst a'; [done|by apply Inv_delete].
Qed.

Lemma cleanup_Inv a now a' log :
  cleanupExpiredFiles a now = Some (a', log) -> Inv a -> Inv a'.
Proof.
  intros H HI k f Hk. rewrite (cleanup_lookup _ _ _ _ H k) in Hk.
  rewrite (cleanup_frame _ _ _ _ H), memoryMode_with_uploadedFiles.
  destruct (App.uploadedFiles a !! k) as [f0|] eqn:E; [|done].
  by apply (HI k f0).
Qed.

Lemma NewApp_Inv out cfg st : NewApp out cfg = Ok st -> Inv (startedApp st).
Proof.
  unfold NewApp. destruct (loadTemplates _ _ _) as [[tmpl path]|e]; [|done].
  match goal with
  | |- context [if ?c then (match ?g with _ => _ end) else _] =>
      destruct (if c then (match g with Ok id => _ | Err e => _ end) else _) as [dc lg]
  end.
  intros [= <-]. cbn [startedApp].
  intros k f. by destruct (String.eqb _ ""); cbn; rewrite lookup_empty.
Qed.

Lemma Step_Inv a a' : Step a a' -> Inv a -> Inv a'.
Proof.
  intros [a0 w r res a1 w' H|a0 now r rep a1 H|a0 now a1 log H].
  - by eapply handleFileUpload_Inv.
  - by eapply handleMediaServe_Inv.
  - by eapply cleanup_Inv.
Qed.

Lemma Reachable_Inv a : Reachable a -> Inv a.
Proof.
  induction 1 as [out cfg st H|a a' _ IH HS].
  - by eapply NewApp_Inv.
  - by eapply Step_Inv.
Qed.

(** ** Storing and retrieving in memory *)

Lemma memoryMode_disk_check a :
  memoryMode a = true -> negb (App.Hipaa a) && nonempty (App.UploadDir a) = false.
Proof.
  unfold memoryMode, nonempty.
  destruct (App.Hipaa a); [done|]. cbn. by intros ->.
Qed.

(** A media request for a token of the map, in memory mode. *)
Lemma handleMediaServe_memory a t r token :
  memoryMode a = true -> is_token token = true ->
  http.Method r = http.MethodGet -> http.URLPath r = "/media/" +:+ token ->
  handleMediaServe a t r =
  match App.uploadedFiles a !! token with
  | None => (http.NotFound, a)
  | Some file =>
      if time.After t (ExpiresAt file)
      then (http.NotFound, App.with_uploadedFiles a (delete token (App.uploadedFiles a)))
      else (http.ServeContent (if nonempty (Type_ file) then Some (Type_ file) else None)
              token (Data file), a)
  end.
Proof.
  intros Hm Ht HG HP. unfold handleMediaServe.
  rewrite HG, String.eqb_refl, (mediaToken_of_token token r Ht HP). cbn [negb].
  destruct (String.eqb_spec token "") as [->|_]; [done|].
  by rewrite (memoryMode_disk_check a Hm).
Qed.

(** An entry of the map that has not expired is served as stored. *)
Lemma handleMediaServe_live a t r token entry :
  memoryMode a = true -> is_token token = true ->
  App.uploadedFiles a !! token = Some entry ->
  Type_ entry <> "" ->
  t <= ExpiresAt entry ->
  http.Method r = http.MethodGet -> http.URLPath r = "/media/" +:+ token ->
  handleMediaServe a t r =
  (http.ServeContent (Some (Type_ entry)) token (Data entry), a).
Proof.
  intros Hm Ht He Hty Hle HG HP.
  rewrite (handleMediaServe_memory a t r token) by done.
  rewrite He. unfold time.After.
  destruct (Z.ltb_spec (ExpiresAt entry) t); [lia|].
  unfold nonempty. by destruct (String.eqb_spec (Type_ entry) "").
Qed.

Lemma memoryEntry_Type w file fh : Type_ (memoryEntry w file fh) <> "".
Proof.
  cbn. by destruct (String.eqb_spec (multipart.ContentType fh) "").
Qed.

(** C1. A payload stored by the memory backend is served back as it
    was stored: when [storeFileInMemory] succeeds, the URL it returns
    ends in [/media/<token>], and a GET for that token at any time up to
    the entry's [ExpiresAt] hands to [http.ServeContent] the bytes that
    were stored, with the part's content type in the [Content-Type]
    header, [application/octet-stream] when the part had none. *)
Theorem memory_store_retrieve_roundtrip a w file fh url a' w' :
  memoryMode a = true ->
  storeFileInMemory a w file fh = (Ok url, a', w') ->
  exists token,
    url = trimTrailingSlash (App.PublicBaseURL a) +:+ "/media/" +:+ token /\
    is_token token = true /\
    (exists entry, App.uploadedFiles a' !! token = Some entry /\
                   ExpiresAt entry = time.Add (now w) (30 * time.Minute)) /\
    forall t r,
      http.Method r = http.MethodGet ->
      http.URLPath r = "/media/" +:+ token ->
      t <= time.Add (now w) (30 * time.Minute) ->
      handleMediaServe a' t r =
      (http.ServeContent
         (Some (if String.eqb (multipart.ContentType fh) ""
                then "application/octet-stream" else multipart.ContentType fh))
         token (multipart.content file), a').
Proof.
  intros Hm H. apply storeFileInMemory_Ok in H as (token & Ht & -> & ->).
  exists token. split; [done|]. split; [done|]. split.
  - exists (memoryEntry w file fh). cbn. by rewrite lookup_insert_eq.
  - intros t r HG HP Hle.
    apply (handleMediaServe_live _ t r token (memoryEntry w file fh));
      try done; [apply lookup_insert_eq|apply memoryEntry_Type].
Qed.

(** ** Lazy expiry *)

Lemma Sweeps_lookup a a1 :
  Sweeps a a1 ->
  memoryMode a1 = memoryMode a /\
  forall k, App.uploadedFiles a1 !! k = None \/
            App.uploadedFiles a1 !! k = App.uploadedFiles a !! k.
Proof.
  induction 1 as [a|a a1 a2 now log _ [IHm IH] H].
  - split; [done|]. by right.
  - split.
    + by rewrite (cleanup_frame _ _ _ _ H), memoryMode_with_uploadedFiles.
    + intros k. rewrite (cleanup_lookup _ _ _ _ H k).
      destruct (IH k) as [E|E].
      * left. by rewrite E.
      * destruct (App.uploadedFiles a1 !! k) as [f|] eqn:E1; [|by left].
        destruct (expired now f); [by left|by right].
Qed.

(** C2. Once the time is past the [ExpiresAt] of an entry of the map,
    a GET for its token is answered "not found" and leaves the map
    without that entry, whether or not sweeps of the background task
    have run since; the other entries are left as they are. *)
Theorem expired_token_not_found a a1 token f t r :
  Reachable a ->
  App.uploadedFiles a !! token = Some f ->
  Sweeps a a1 ->
  ExpiresAt f < t ->
  http.Method r = http.MethodGet ->
  http.URLPath r = "/media/" +:+ token ->
  exists a2,
    handleMediaServe a1 t r = (http.NotFound, a2) /\
    App.uploadedFiles a2 !! token = None /\
    forall k, k <> token -> App.uploadedFiles a2 !! k = App.uploadedFiles a1 !! k.
Proof.
  intros HR Hf HS Hlt HG HP.
  destruct (Reachable_Inv a HR token f Hf) as [Ht Hm].
  destruct (Sweeps_lookup a a1 HS) as [Hm1 Hl].
  rewrite (handleMediaServe_memory a1 t r token) by congruence.
  destruct (Hl token) as [E|E].
  - rewrite E. by exists a1.
  - rewrite E, Hf. unfold time.After.
    destruct (Z.ltb_spec (ExpiresAt f) t); [|lia].
    eexists. split; [done|]. cbn. split; [apply lookup_delete_eq|].
    intros k Hk. by rewrite lookup_delete_ne.
Qed.

(** ** The sweep, on the states of the server *)

(** C10. A sweep at time [T] ends, changes nothing but the map, removes
    the entries whose [ExpiresAt] is before [T], and leaves every other
    entry in the map as it was. *)
Theorem cleanup_removes_exactly_expired a T :
  Reachable a ->
  exists a' log,
    cleanupExpiredFiles a T = Some (a', log) /\
    a' = App.with_uploadedFiles a (App.uploadedFiles a') /\
    (forall token f, App.uploadedFiles a !! token = Some f -> ExpiresAt f < T ->
                     App.uploadedFiles a' !! token = None) /\
    (forall token f, App.uploadedFiles a !! token = Some f -> T <= ExpiresAt f ->
                     App.uploadedFiles a' !! token = Some f) /\
    (forall token, App.uploadedFiles a !! token = None ->
                   App.uploadedFiles a' !! token = None).
Proof.
  intros HR. pose proof (Reachable_Inv a HR) as HI.
  destruct (cleanup_total a T) as [[a' log] H].
  { intros k f Hk. by destruct (HI k f Hk). }
  exists a', log. split; [done|]. split; [by eapply cleanup_frame|].
  repeat split; intros token.
  - intros f Hf Hlt. rewrite (cleanup_lookup _ _ _ _ H token), Hf.
    unfold expired, time.After. by destruct (Z.ltb_spec (ExpiresAt f) T); [|lia].
  - intros f Hf Hle. rewrite (cleanup_lookup _ _ _ _ H token), Hf.
    unfold expired, time.After. by destruct (Z.ltb_spec (ExpiresAt f) T); [lia|].
  - intros Hn. by rewrite (cleanup_lookup _ _ _ _ H token), Hn.
Qed.

(** ** Session cookies *)

Lemma sextet_not_dot n : base64.sextet n <> "."%char.
Proof.
  unfold base64.sextet.
  assert (H : (N.to_nat (N.land n 63) < 64)%nat).
  { assert (N.land n 63 < 64)%N; [|lia].
    change 63%N with (N.ones 6). rewrite N.land_ones.
    apply N.mod_upper_bound. discriminate. }
  revert H. generalize (N.to_nat (N.land n 63)) as k. intros k H.
  do 64 (destruct k as [|k]; [discriminate|]). lia.
Qed.

Lemma sextet_free n s :
  free_of "." (String (base64.sextet n) s) = free_of "." s.
Proof.
  unfold free_of. cbn [all_chars].
  destruct (Ascii.eqb_spec (base64.sextet n) "."); [|done].
  by destruct (sextet_not_dot n).
Qed.

(** The characters of a base64 encoding are not dots. *)
Lemma base64_free_of_dot b : free_of "." (base64.EncodeToString b) = true.
Proof.
  assert (H : forall n b, (length b < n)%nat ->
                          free_of "." (base64.EncodeToString b) = true).
  { clear b. induction n as [|n IH]; intros b Hn; [lia|].
    destruct b as [|x [|y [|z b]]]; cbn [base64.EncodeToString];
      rewrite ?sextet_free; try reflexivity.
    apply IH. cbn [length] in Hn. lia. }
  apply (H (S (length b))). lia.
Qed.

Lemma cut_app sep s rest :
  free_of sep s = true ->
  strings.cut (s +:+ String sep rest) sep = Some (s, rest).
Proof.
  unfold free_of.
  induction s as [|c s IH]; simpl; intros H.
  - by rewrite Ascii.eqb_refl.
  - apply andb_true_iff in H as [Hc Hs].
    destruct (Ascii.eqb c sep); [done|]. by rewrite IH.
Qed.

(** Cutting [x ++ sep ++ y] gives a prefix of [x], all of [x] only
    when [x] is free of [sep]. *)
Lemma cut_before sep x y :
  exists before after,
    strings.cut (x +:+ String sep y) sep = Some (before, after) /\
    (String.length before <= String.length x)%nat /\
    (String.length before = String.length x -> before = x).
Proof.
  induction x as [|c x (before & after & E & Hle & Heq)]; simpl.
  - rewrite Ascii.eqb_refl. by exists "", y.
  - destruct (Ascii.eqb c sep).
    + exists "", (x +:+ String sep y). simpl.
      split; [done|]. split; [lia|done].
    + rewrite E. exists (String c before), after. simpl.
      split; [done|]. split; [lia|]. intros [= H]. by rewrite Heq.
Qed.

Lemma SplitN_cookie token signature label :
  free_of "." token = true -> free_of "." signature = true ->
  strings.SplitN (token +:+ "." +:+ signature +:+ "." +:+ label) "." 3
  = [token; signature; label].
Proof.
  intros Ht Hs. cbn [strings.SplitN].
  change ("." +:+ ?x) with (String "." x).
  rewrite (cut_app "." token _ Ht).
  change ("." +:+ label) with (String "." label).
  by rewrite (cut_app "." signature _ Hs).
Qed.

Lemma flip_ascii_neq k c : (k < 8)%nat -> flip_ascii k c <> c.
Proof.
  intros Hk. destruct c as [b0 b1 b2 b3 b4 b5 b6 b7].
  do 8 (destruct k as [|k];
        [cbn; intros [= H]; by (destruct b0, b1, b2, b3, b4, b5, b6, b7)|]).
  lia.
Qed.

Lemma flip_bit_length i s : String.length (flip_bit i s) = String.length s.
Proof.
  revert i. induction s as [|c s IH]; intros i; cbn [flip_bit String.length]; [done|].
  destruct (i <? 8)%nat; cbn [String.length]; [done|]. by rewrite IH.
Qed.

Lemma flip_bit_neq i s : (i < 8 * String.length s)%nat -> flip_bit i s <> s.
Proof.
  revert i. induction s as [|c s IH]; intros i; cbn [String.length flip_bit]; [lia|].
  intros Hi. destruct (Nat.ltb_spec i 8) as [Hlt|Hge].
  - intros [= E]. by apply (flip_ascii_neq i c).
  - intros [= E]. apply (IH (i - 8)%nat); [lia|done].
Qed.

(** What [isAuthenticated] reads in a cookie whose token is free of
    dots: the token, and the second part up to its first dot. *)
Lemma verifyCookieValue_parts token sig label secret :
  free_of "." token = true ->
  exists before,
    verifyCookieValue (token +:+ "." +:+ sig +:+ "." +:+ label) secret
    = verifySessionToken token before secret /\
    (String.length before <= String.length sig)%nat /\
    (String.length before = String.length sig -> before = sig).
Proof.
  intros Ht. unfold verifyCookieValue. cbn [strings.SplitN].
  change ("." +:+ ?x) with (String "." x).
  rewrite (cut_app "." token _ Ht).
  destruct (cut_before "." sig label) as (before & after & E & Hle & Heq).
  change ("." +:+ label) with (String "." label).
  rewrite E. by exists before.
Qed.

Lemma setSessionCookie_Ok a label src c src' :
  setSessionCookie a label src = (Ok c, src') ->
  exists token,
    free_of "." token = true /\
    http.Value c =
      token +:+ "." +:+
      signSessionToken token (AuthConfig.SessionSecret (App.AuthConfig a))
      +:+ "." +:+ label /\
    http.Name c = sessionCookieName.
Proof.
  unfold setSessionCookie, generateSessionToken.
  destruct (rand.Read 32 src) as [[b|e] s]; [|done].
  intros [= <- _]. exists (base64.EncodeToString b).
  split; [apply base64_free_of_dot|done].
Qed.

Lemma verifySessionToken_iff token signature secret :
  verifySessionToken token signature secret = true <->
  signature = signSessionToken token secret.
Proof. unfold verifySessionToken, hmac.Equal. apply String.eqb_eq. Qed.

(** C5. The cookie [setSessionCookie] issues for a label is
    [token.signature.label] and passes the check of [isAuthenticated]
    under the same secret; with any one bit of the signature flipped,
    the cookie fails it. *)
Theorem issued_cookie_verifies_and_bit_flip_fails a label src c src' :
  setSessionCookie a label src = (Ok c, src') ->
  exists token signature,
    signature = signSessionToken token (AuthConfig.SessionSecret (App.AuthConfig a)) /\
    http.Value c = token +:+ "." +:+ signature +:+ "." +:+ label /\
    verifyCookieValue (http.Value c) (AuthConfig.SessionSecret (App.AuthConfig a)) = true /\
    (forall r, http.Cookie_ r sessionCookieName = Ok (http.Value c) ->
               isAuthenticated a r = true) /\
    forall i tampered,
      (i < 8 * String.length signature)%nat ->
      tampered = token +:+ "." +:+ flip_bit i signature +:+ "." +:+ label ->
      verifyCookieValue tampered (AuthConfig.SessionSecret (App.AuthConfig a)) = false /\
      (forall r, hasAuthConfigured a = true ->
                 http.Cookie_ r sessionCookieName = Ok tampered ->
                 isAuthenticated a r = false).
Proof.
  intros H. apply setSessionCookie_Ok in H as (token & Ht & Hv & _).
  set (secret := AuthConfig.SessionSecret (App.AuthConfig a)) in *.
  exists token, (signSessionToken token secret).
  assert (Hok : verifyCookieValue (http.Value c) secret = true).
  { rewrite Hv. unfold verifyCookieValue.
    rewrite SplitN_cookie by (try done; apply base64_free_of_dot).
    by apply verifySessionToken_iff. }
  split; [done|]. split; [done|]. split; [done|]. split.
  - intros r Hr. unfold isAuthenticated. rewrite Hr.
    fold secret. rewrite Hok. by destruct (negb _).
  - intros i tampered Hi ->.
    assert (Hbad : verifyCookieValue
                     (token +:+ "." +:+ flip_bit i (signSessionToken token secret)
                      +:+ "." +:+ label) secret = false).
    { destruct (verifyCookieValue_parts token
                  (flip_bit i (signSessionToken token secret)) label secret Ht)
        as (before & -> & Hle & Heq).
      apply not_true_is_false. intros Hverify.
      apply verifySessionToken_iff in Hverify.
      apply (flip_bit_neq i (signSessionToken token secret) Hi).
      rewrite <- Hverify at 2. symmetry. apply Heq.
      by rewrite Hverify, flip_bit_length. }
    split; [done|]. intros r Hc Hr. unfold isAuthenticated.
    rewrite Hc, Hr. cbn [negb]. exact Hbad.
Qed.

(** ** Redirect targets *)

Lemma HasPrefix_slash s :
  strings.HasPrefix s "/" = match s with String "/" _ => true | _ => false end.
Proof.
  destruct s as [|c s]; [done|].
  destruct c as [[] [] [] [] [] [] [] []]; destruct s; reflexivity.
Qed.

Lemma HasPrefix_slash_slash s :
  strings.HasPrefix s "//" =
  match s with String "/" (String "/" _) => true | _ => false end.
Proof.
  destruct s as [|c s]; [done|].
  destruct c as [[] [] [] [] [] [] [] []]; try (destruct s; reflexivity).
  destruct s as [|d s]; [done|].
  destruct d as [[] [] [] [] [] [] [] []]; destruct s; reflexivity.
Qed.

(** The check of [handlePasswordLogin] keeps exactly the targets that
    begin with a single slash. *)
Lemma passwordRedirect_honoured target : passwordRedirect target = honoured target.
Proof.
  unfold passwordRedirect, honoured, begins_with_single_slash.
  rewrite HasPrefix_slash, HasPrefix_slash_slash.
  destruct target as [|c s]; [done|].
  destruct c as [[] [] [] [] [] [] [] []]; try done.
  destruct s as [|d s]; [done|].
  destruct d as [[] [] [] [] [] [] [] []]; done.
Qed.

(** So does the check of [handleOAuthCallback]. *)
Lemma callbackRedirect_honoured value : callbackRedirect (Ok value) = honoured value.
Proof.
  unfold callbackRedirect, honoured, begins_with_single_slash.
  rewrite HasPrefix_slash, HasPrefix_slash_slash.
  destruct value as [|c s]; [done|].
  destruct c as [[] [] [] [] [] [] [] []]; try done.
  destruct s as [|d s]; [done|].
  destruct d as [[] [] [] [] [] [] [] []]; done.
Qed.

(** C7. Whenever password login or the OAuth callback redirects, the
    requested target is used only if it begins with a single slash
    (with ['/'] and not with ['//']); any other target is replaced by
    ['/'].  Password login redirects to that target on success and
    carries it in the login URL on failure; the callback redirects to
    it, and to ['/'] when no target was stored. *)
Theorem redirect_targets_validated p a r src url code :
  (http.reply (handlePasswordLogin a r src).1 = http.Redirect url code ->
   url = (if String.eqb (http.FormValue r "password")
                        (AuthConfig.Password (App.AuthConfig a))
          then honoured (http.FormValue r "redirect")
          else "/login?error=invalid&redirect=" +:+ honoured (http.FormValue r "redirect")))
  /\
  (http.reply (response (handleOAuthCallback p a r src).1) = http.Redirect url code ->
   url = match http.Cookie_ r "oauth_redirect" with
         | Ok target => honoured target
         | Err _ => "/"
         end).
Proof.
  split.
  - unfold handlePasswordLogin. destruct (http.Form r) as [vals|e] eqn:EF; [|done].
    rewrite passwordRedirect_honoured.
    destruct (String.eqb _ (AuthConfig.Password _)).
    + destruct (setSessionCookie a "password" src) as [[c|e] src']; [|done].
      by intros [= <- _].
    + by intros [= <- _].
  - unfold handleOAuthCallback.
    destruct (http.Cookie_ r "oauth_state") as [st|e]; [|done].
    destruct (negb _); [done|].
    destruct (getOAuthConfig a _) as [config|]; [|done].
    destruct (oauth2.Exchange p config _) as [token|e]; [|done].
    destruct (negb (oauth2.Valid token)); [done|].
    destruct (setSessionCookie a _ src) as [[c|e] src']; [|done].
    cbn. intros [= <- _].
    destruct (http.Cookie_ r "oauth_redirect") as [target|e]; [|done].
    apply callbackRedirect_honoured.
Qed.

(** The branch of [handleLogin] for a request that is already
    authenticated is not a password login: it redirects to the target
    of the query as it is. *)
Lemma handleLogin_authenticated a r src :
  hasAuthConfigured a = true -> isAuthenticated a r = true ->
  (handleLogin a r src).1 =
  http.respond
    (http.Redirect
       (if String.eqb (http.Get (http.URLQuery r) "redirect") "" then "/"
        else http.Get (http.URLQuery r) "redirect")
       http.StatusSeeOther).
Proof. intros H1 H2. unfold handleLogin. by rewrite H1, H2. Qed.

(** ** The anti-forgery state *)

(** C8. A callback whose [state] parameter is not the value of the
    [oauth_state] cookie, or that comes without that cookie, is
    answered "invalid state" and no authorization code is exchanged,
    whatever the provider would have answered for the code. *)
Theorem callback_rejects_state_mismatch p a r src :
  http.Cookie_ r "oauth_state" <> Ok (http.Get (http.URLQuery r) "state") ->
  handleOAuthCallback p a r src =
  ({| exchanges := [];
      response := http.respond (http.Error "invalid state" http.StatusBadRequest) |}, src).
Proof.
  intros H. unfold handleOAuthCallback.
  destruct (http.Cookie_ r "oauth_state") as [st|e]; [|done].
  destruct (String.eqb_spec st (http.Get (http.URLQuery r) "state")) as [->|Hne]; [|done].
  by destruct H.
Qed.

(** ** The derived session secret *)

(** C9. With a password and no session secret in the environment,
    [LoadConfig] logs its warning and takes as secret ["change-me-"]
    followed by the first ten bytes of the password: a value that
    depends on nothing but the password, so that a later start with the
    same environment, whatever its flags, signs with the same secret. *)
Theorem session_secret_derived_from_password env flags :
  Getenv env "AUTH_PASSWORD" <> "" ->
  Getenv env "SESSION_SECRET" = "" ->
  let password := Getenv env "AUTH_PASSWORD" in
  let secret := AuthConfig.SessionSecret (Config.AuthConfig (LoadConfig env flags).1) in
  secret = "change-me-" +:+ slice_to password (Nat.min (String.length password) 10) /\
  warnSessionSecret ∈ (LoadConfig env flags).2 /\
  forall env' flags',
    Getenv env' "AUTH_PASSWORD" = Getenv env "AUTH_PASSWORD" ->
    Getenv env' "SESSION_SECRET" = Getenv env "SESSION_SECRET" ->
    AuthConfig.SessionSecret (Config.AuthConfig (LoadConfig env' flags').1) = secret.
Proof.
  intros Hp Hs password secret. subst password secret.
  unfold LoadConfig. cbn [fst snd Config.AuthConfig AuthConfig.SessionSecret].
  rewrite Hs. unfold nonempty.
  destruct (String.eqb_spec (Getenv env "AUTH_PASSWORD") "") as [E|_]; [done|].
  cbn [String.eqb andb negb]. split; [done|]. split.
  - apply elem_of_app. right. by left.
  - intros env' flags' -> ->.
    destruct (String.eqb_spec (Getenv env "AUTH_PASSWORD") "") as [E|_]; done.
Qed.

(** ** The choice of the backend *)

Lemma memoryMode_false a :
  memoryMode a = false -> App.Hipaa a = false /\ App.UploadDir a <> "".
Proof.
  unfold memoryMode. destruct (App.Hipaa a); [done|]. cbn.
  by destruct (String.eqb_spec (App.UploadDir a) "").
Qed.

Lemma handleFileUpload_memory_disk a w r :
  memoryMode a = true -> disk (handleFileUpload a w r).2 = disk w.
Proof.
  intros Hm. pose proof (handleFileUpload_cases a w r) as C.
  destruct (uploadedPart r) as [fh|]; [|by rewrite C].
  destruct (multipart.Open fh) as [file|e]; [|by rewrite C].
  rewrite C, Hm. apply storeFileInMemory_disk.
Qed.

Lemma handleMediaServe_ServeFile a t r name :
  (handleMediaServe a t r).1 = http.ServeFile name -> memoryMode a = false.
Proof.
  unfold handleMediaServe.
  destruct (negb (String.eqb (http.Method r) http.MethodGet)); [done|].
  destruct (String.eqb (mediaToken r) ""); [done|].
  destruct (memoryMode a) eqn:Hm; [|done].
  rewrite (memoryMode_disk_check a Hm).
  destruct (App.uploadedFiles a !! mediaToken r) as [f|]; [|done].
  by destruct (time.After t (ExpiresAt f)).
Qed.

Lemma NewApp_cleanup out cfg st :
  NewApp out cfg = Ok st ->
  App.Hipaa (startedApp st) = Config.Hipaa cfg /\
  App.UploadDir (startedApp st) = Config.UploadDir cfg /\
  cleanupInterval st =
    if memoryMode (startedApp st) then Some (5 * time.Minute) else None.
Proof.
  unfold NewApp. destruct (loadTemplates _ _ _) as [[tmpl path]|e]; [|done].
  match goal with
  | |- context [if ?c then (match ?g with _ => _ end) else _] =>
      destruct (if c then (match g with Ok id => _ | Err e => _ end) else _) as [dc lg]
  end.
  intros [= <-]. cbn [startedApp cleanupInterval].
  by destruct (String.eqb _ "").
Qed.

(** The backend that [handleFileUpload] chooses.  In compliance mode
    it is the memory backend even when an upload directory is
    configured: [handleFileUpload] leaves the file system as it found
    it, a stored file is an entry of the map and is served from the
    map, and no media request is answered from a file; [NewApp] starts
    the sweep.  [handleFileUpload] changes the file system, and a media
    request is answered from a file, only with compliance mode off and
    an upload directory configured. *)
Lemma compliance_mode_selects_memory a w r out cfg st :
  (App.Hipaa a = true ->
   disk (handleFileUpload a w r).2 = disk w /\
   (forall fh file url a' w',
      uploadedPart r = Some fh -> multipart.Open fh = Ok file ->
      handleFileUpload a w r = (Ok url, a', w') ->
      exists token,
        url = trimTrailingSlash (App.PublicBaseURL a) +:+ "/media/" +:+ token /\
        App.uploadedFiles a' !! token = Some (memoryEntry w file fh) /\
        forall t rq,
          http.Method rq = http.MethodGet ->
          http.URLPath rq = "/media/" +:+ token ->
          t <= ExpiresAt (memoryEntry w file fh) ->
          handleMediaServe a' t rq =
          (http.ServeContent (Some (Type_ (memoryEntry w file fh))) token
             (multipart.content file), a')) /\
   (forall t rq name, (handleMediaServe a t rq).1 <> http.ServeFile name))
  /\
  (Config.Hipaa cfg = true -> NewApp out cfg = Ok st ->
   App.Hipaa (startedApp st) = true /\ cleanupInterval st = Some (5 * time.Minute))
  /\
  (disk (handleFileUpload a w r).2 <> disk w ->
   App.Hipaa a = false /\ App.UploadDir a <> "")
  /\
  (forall t rq name,
     (handleMediaServe a t rq).1 = http.ServeFile name ->
     App.Hipaa a = false /\ App.UploadDir a <> "").
Proof.
  split; [|split; [|split]].
  - intros HH. assert (Hm : memoryMode a = true) by (unfold memoryMode; by rewrite HH).
    split; [by apply handleFileUpload_memory_disk|]. split.
    + intros fh file url a' w' Hp Ho H.
      pose proof (handleFileUpload_cases a w r) as C. rewrite Hp, Ho, Hm in C.
      rewrite C in H. apply storeFileInMemory_Ok in H as (token & Ht & -> & ->).
      exists token. split; [done|]. split; [apply lookup_insert_eq|].
      intros t rq HG HP Hle.
      apply (handleMediaServe_live _ t rq token (memoryEntry w file fh));
        try done; [apply lookup_insert_eq|apply memoryEntry_Type].
    + intros t rq name E. apply handleMediaServe_ServeFile in E. congruence.
  - intros HH H. apply NewApp_cleanup in H as (Hh & _ & ->).
    rewrite Hh, HH. split; [done|]. unfold memoryMode. by rewrite Hh, HH.
  - intros Hd. apply memoryMode_false.
    destruct (memoryMode a) eqn:Hm; [|done].
    by destruct Hd; apply handleFileUpload_memory_disk.
  - intros t rq name E. apply memoryMode_false.
    by eapply handleMediaServe_ServeFile.
Qed.

(** ** Compliance mode and the parse of the form *)

Lemma spooled_single budget fh file :
  multipart.Open fh = Ok file ->
  budget < Z.of_nat (length (multipart.content file)) -> spooled budget [fh] = [fh].
Proof.
  intros Ho H. cbn [spooled]. rewrite Ho.
  by destruct (Z.ltb_spec budget (Z.of_nat (length (multipart.content file)))); [|lia].
Qed.

(** In memory mode the file system after a fax request is the one the
    parse of the form left: with a part beyond the 25 MiB that
    [handleSendFax] lets the parse keep in memory, it holds the
    temporary file with the bytes of the part, compliance mode or
    not. *)
Lemma large_part_is_spooled c a w contentType tmp r vals fh file :
  memoryMode a = true ->
  Contains contentType "multipart/form-data" = true ->
  http.Form r = Ok vals ->
  fileParts r = [fh] -> multipart.Open fh = Ok file ->
  Z.shiftl 25 20 < Z.of_nat (length (multipart.content file)) ->
  os.create_err (disk w) = None -> os.write_err (disk w) = None ->
  os.files (disk (handleSendFax c a w contentType tmp r).2)
  = <[tmp := multipart.content file]> (os.files (disk w)).
Proof.
  intros Hm Hct Hf Hparts Ho Hbig EC EW.
  assert (Hb : partBytes fh = multipart.content file).
  { unfold partBytes. by rewrite Ho. }
  assert (EP : parseFaxForm true tmp r w =
               (Ok tt, with_disk w
                  {| os.dirs := os.dirs (disk w);
                     os.files := <[tmp := multipart.content file]> (os.files (disk w));
                     os.mkdir_err := os.mkdir_err (disk w);
                     os.create_err := os.create_err (disk w);
                     os.write_err := os.write_err (disk w) |})).
  { unfold parseFaxForm, ParseMultipartForm, ParseForm. rewrite Hf, Hparts.
    rewrite (spooled_single _ fh file Ho Hbig).
    unfold os.Create. rewrite EC. unfold os.Write. cbn [os.write_err os.files].
    rewrite EW. cbn [map concat]. rewrite Hb, app_nil_r, lookup_insert_eq.
    cbn [default app]. by rewrite insert_insert_eq. }
  unfold handleSendFax. rewrite Hct, EP.
  set (w0 := with_disk w _).
  destruct (_ || _); [done|].
  pose proof (handleFileUpload_memory_disk a w0 r Hm) as D.
  destruct (handleFileUpload a w0 r) as [[[url|e] a1] w1]; cbn [snd] in D.
  - destruct (if nonempty url then _ else _); [|cbn [snd]; by rewrite D].
    destruct (telnyx.FaxesNew c _); cbn [snd]; by rewrite D.
  - cbn [snd]. by rewrite D.
Qed.

Lemma bigUpload_parts : fileParts bigUpload = [bigHeader].
Proof.
  unfold fileParts. cbn [bigUpload http.MultipartForm multipart.File_].
  by rewrite map_to_list_singleton.
Qed.

Lemma bigFile_length : Z.of_nat (length (multipart.content bigFile)) = 27 * 2 ^ 20.
Proof. cbn [bigFile multipart.content]. rewrite repeat_length, Z2Nat.id; lia. Qed.

(** C4, where the parse of the form departs from it.  In compliance
    mode the part of an upload is stored in the map, but before that
    [handleSendFax] has parsed the form with 25 MiB of memory for the
    file parts, compliance mode or not: a part of 27 MiB is written
    to a temporary file, whole. *)
Theorem compliance_mode_spools_large_upload :
  App.Hipaa demoApp = true /\
  Z.of_nat (length (multipart.content bigFile)) = 27 * 2 ^ 20 /\
  os.files (disk demoWorld) !! "/tmp/multipart-1" = None /\
  os.files
    (disk (handleSendFax demoClient demoApp demoWorld
             "multipart/form-data; boundary=x" "/tmp/multipart-1" bigUpload).2)
  !! "/tmp/multipart-1" = Some (multipart.content bigFile).
Proof.
  split; [reflexivity|]. split; [exact bigFile_length|]. split; [reflexivity|].
  rewrite (large_part_is_spooled demoClient demoApp demoWorld
             "multipart/form-data; boundary=x" "/tmp/multipart-1" bigUpload
             _ bigHeader bigFile eq_refl eq_refl eq_refl bigUpload_parts eq_refl).
  - apply lookup_insert_eq.
  - rewrite bigFile_length. reflexivity.
  - reflexivity.
  - reflexivity.
Qed.

(** ** The error branches of the callers of the token generators *)

(** These are the branches for an error of [rand.Read], as they are
    written.  With Go 1.24 no run enters them. *)

Lemma generateSessionToken_fails src e :
  rand.fails src (rand.calls src) = Some e ->
  (generateSessionToken src).1 = Err e.
Proof. intros H. unfold generateSessionToken, rand.Read. by rewrite H. Qed.

Lemma generateSecureToken_fails n src e :
  rand.fails src (rand.calls src) = Some e ->
  (generateSecureToken n src).1 = Err e.
Proof. intros H. unfold generateSecureToken, rand.Read. by rewrite H. Qed.

(** Issuing a session fails with the error of the source. *)
Lemma setSessionCookie_fails a label src e :
  rand.fails src (rand.calls src) = Some e ->
  (setSessionCookie a label src).1 = Err e.
Proof.
  intros H. unfold setSessionCookie.
  pose proof (generateSessionToken_fails src e H) as G.
  by destruct (generateSessionToken src) as [[token|e'] src']; cbn in G; simplify_eq.
Qed.

(** Password login answers 500 and sets no cookie. *)
Lemma handlePasswordLogin_fails a r src e vals :
  rand.fails src (rand.calls src) = Some e ->
  http.Form r = Ok vals ->
  http.FormValue r "password" = AuthConfig.Password (App.AuthConfig a) ->
  (handlePasswordLogin a r src).1 =
  http.respond (http.Error "failed to create session" http.StatusInternalServerError).
Proof.
  intros H HF HP. unfold handlePasswordLogin. rewrite HF, HP, String.eqb_refl.
  pose proof (setSessionCookie_fails a "password" src e H) as G.
  by destruct (setSessionCookie a "password" src) as [[c|e'] src'].
Qed.

(** The memory store fails and stores nothing. *)
Lemma storeFileInMemory_fails a w file fh e :
  rand.fails (entropy w) (rand.calls (entropy w)) = Some e ->
  multipart.read_err file = None ->
  (storeFileInMemory a w file fh).1 =
  (Err (wrap "failed to generate secure token" e), a).
Proof.
  intros H HR. unfold storeFileInMemory. rewrite HR.
  pose proof (generateSecureToken_fails 32 (entropy w) e H) as G.
  by destruct (generateSecureToken 32 (entropy w)) as [[token|e'] src'];
    cbn in G; simplify_eq.
Qed.

(** The disk store fails and writes no file. *)
Lemma storeFileToDisk_fails a w file fh e :
  rand.fails (entropy w) (rand.calls (entropy w)) = Some e ->
  os.mkdir_err (disk w) = None ->
  (storeFileToDisk a w file fh).1 =
  (Err (wrap "failed to generate secure token" e), a) /\
  os.files (disk (storeFileToDisk a w file fh).2) = os.files (disk w).
Proof.
  intros H HM. unfold storeFileToDisk, os.MkdirAll. rewrite HM.
  cbn [with_disk entropy].
  pose proof (generateSecureToken_fails 32 (entropy w) e H) as G.
  by destruct (generateSecureToken 32 (entropy w)) as [[token|e'] src'];
    cbn in G; simplify_eq.
Qed.

(** The OAuth callback answers 500 and sets no cookie. *)
Lemma handleOAuthCallback_fails p a r src e config token :
  rand.fails src (rand.calls src) = Some e ->
  http.Cookie_ r "oauth_state" = Ok (http.Get (http.URLQuery r) "state") ->
  getOAuthConfig a (strings.TrimPrefix (http.URLPath r) "/auth/callback/") = Some config ->
  oauth2.Exchange p config (http.Get (http.URLQuery r) "code") = Ok token ->
  oauth2.Valid token = true ->
  response (handleOAuthCallback p a r src).1 =
  http.respond (http.Error "failed to create session" http.StatusInternalServerError).
Proof.
  intros H HS HC HE HV. unfold handleOAuthCallback.
  rewrite HS, String.eqb_refl, HC, HE, HV. cbn [negb].
  pose proof (setSessionCookie_fails a
                (strings.TrimPrefix (http.URLPath r) "/auth/callback/") src e H) as G.
  by destruct (setSessionCookie a _ src) as [[c|e'] src'].
Qed.

(** [handleOAuthLogin] goes on: the state it stores and sends to the
    provider is the empty string. *)
Lemma handleOAuthLogin_fails p a r src e config :
  rand.fails src (rand.calls src) = Some e ->
  getOAuthConfig a (strings.TrimPrefix (http.URLPath r) "/auth/login/") = Some config ->
  (handleOAuthLogin p a r src).1 =
  {| http.SetCookies :=
       [plainCookie "oauth_redirect"
          (if String.eqb (http.Get (http.URLQuery r) "redirect") "" then "/"
           else http.Get (http.URLQuery r) "redirect") 300 true;
        plainCookie "oauth_state" "" 300 true];
     http.reply :=
       http.Redirect (oauth2.AuthCodeURL p config "") http.StatusTemporaryRedirect |}.
Proof.
  intros H HC. unfold handleOAuthLogin. rewrite HC.
  pose proof (generateSessionToken_fails src e H) as G.
  by destruct (generateSessionToken src) as [[state|e'] src']; cbn in G; simplify_eq.
Qed.

(** ** Failure of the entropy source, with Go 1.24 *)
















(** ** Paths *)

Lemma elements_sep_free s : Forall (fun e => sep_free e = true) (filepath.elements s).
Proof.
  induction s as [|c s IH]; cbn [filepath.elements]; [by repeat constructor|].
  destruct (Ascii.eqb_spec c filepath.Separator) as [->|Hc].
  - constructor; [done|exact IH].
  - assert (Hs : forall e, sep_free e = true -> sep_free (String c e) = true).
    { intros e He. unfold sep_free in *. cbn [filepath.has_separator].
      by destruct (Ascii.eqb_spec c filepath.Separator). }
    destruct (filepath.elements s) as [|e es].
    + constructor; [by apply Hs|constructor].
    + inversion IH as [|? ? He Hes]; subst. constructor; [by apply Hs|done].
Qed.

Lemma elements_app_sep x rest :
  sep_free x = true ->
  filepath.elements (x +:+ String "/" rest) = x :: filepath.elements rest.
Proof.
  unfold sep_free. induction x as [|c x IH]; simpl; intros H; [done|].
  destruct (Ascii.eqb c filepath.Separator); [done|]. by rewrite IH.
Qed.

Lemma elements_single x : sep_free x = true -> filepath.elements x = [x].
Proof.
  unfold sep_free. induction x as [|c x IH]; simpl; intros H; [done|].
  destruct (Ascii.eqb c filepath.Separator); [done|]. by rewrite IH.
Qed.

Lemma elements_concat L :
  L <> [] -> Forall (fun e => sep_free e = true) L ->
  filepath.elements (String.concat "/" L) = L.
Proof.
  induction L as [|x L IH]; [done|]. intros _ H.
  inversion H as [|? ? Hx HL]; subst.
  destruct L as [|y L]; [by apply elements_single|].
  change (String.concat "/" (x :: y :: L))
    with (x +:+ String "/" (String.concat "/" (y :: L))).
  rewrite elements_app_sep by done. by rewrite IH.
Qed.

Lemma walk_app base l1 l2 : walk base (l1 ++ l2) = walk (walk base l1) l2.
Proof.
  revert base. induction l1 as [|e l1 IH]; intros base; [done|].
  cbn [app walk]. destruct (_ || _); [apply IH|].
  destruct (String.eqb e ".."); apply IH.
Qed.

Lemma walk_names base L :
  Forall (fun e => is_name e = true) L -> walk base L = rev L ++ base.
Proof.
  revert base. induction L as [|e L IH]; intros base H; [done|].
  inversion H as [|? ? He HL]; subst. cbn [walk rev].
  unfold is_name in He.
  destruct (String.eqb e ""), (String.eqb e "."), (String.eqb e ".."); try done.
  cbn [orb]. rewrite IH by done. by rewrite <- app_assoc.
Qed.

Lemma Shape_dotdot out : Shape (".." :: out) -> Forall (fun e => e = "..") out.
Proof.
  intros H. inversion H as [dd Hd|e o He Ho]; subst; [|done].
  by inversion Hd.
Qed.

Lemma Shape_tail e out : Shape (e :: out) -> Shape out.
Proof.
  inversion 1 as [dd Hd|? ? He Ho]; subst; [|done].
  inversion Hd; subst. by constructor.
Qed.

Lemma Shape_elements out :
  Shape out -> Forall (fun e => e = ".." \/ is_name e = true) out.
Proof.
  induction 1 as [dd Hd|e out He Ho IH].
  - eapply Forall_impl; [exact Hd|]. intros e ->. by left.
  - constructor; [by right|done].
Qed.

(** Above a name there are only names. *)
Lemma Shape_above xs e tl :
  Shape (xs ++ e :: tl) -> is_name e = true -> Forall (fun x => is_name x = true) xs.
Proof.
  induction xs as [|x xs IH]; intros H He; [constructor|].
  inversion H as [dd Hd|? ? Hx Ho]; subst.
  - exfalso. apply Forall_app in Hd as [_ Hd]. inversion Hd as [|? ? E _].
    by rewrite E in He.
  - constructor; [done|by apply IH].
Qed.

Lemma clean_elements_Shape rooted l :
  forall out, Shape out -> Shape (filepath.clean_elements rooted out l).
Proof.
  induction l as [|e l IH]; intros out H; [done|].
  cbn [filepath.clean_elements].
  destruct (String.eqb e "" || String.eqb e ".") eqn:E1; [by apply IH|].
  destruct (String.eqb_spec e "..") as [->|E2].
  - destruct out as [|top out].
    + destruct rooted; apply IH; apply shape_dots; repeat constructor.
    + destruct (String.eqb_spec top "..") as [->|Ht].
      * apply IH. apply shape_dots. constructor; [done|].
        constructor; [done|]. by apply Shape_dotdot.
      * apply IH. by eapply Shape_tail.
  - apply IH. apply shape_name; [|done].
    apply orb_false_iff in E1 as [Ea Eb]. unfold is_name.
    rewrite Ea, Eb. by destruct (String.eqb_spec e "..").
Qed.

(** Walking the cleaned elements leads where walking the elements
    leads. *)
Lemma clean_elements_walk rooted base l :
  (rooted = true -> base = []) ->
  forall out, Shape out ->
    walk base (rev (filepath.clean_elements rooted out l))
    = walk (walk base (rev out)) l.
Proof.
  intros Hr. induction l as [|e l IH]; intros out H; [done|].
  cbn [filepath.clean_elements walk].
  destruct (String.eqb e "" || String.eqb e ".") eqn:E1; [by apply IH|].
  destruct (String.eqb_spec e "..") as [->|E2].
  - destruct out as [|top out].
    + destruct rooted.
      * rewrite IH by done. cbn. by rewrite (Hr eq_refl).
      * rewrite IH by (apply shape_dots; by repeat constructor). done.
    + destruct (String.eqb_spec top "..") as [->|Ht].
      * rewrite IH.
        -- cbn [rev]. by rewrite !walk_app.
        -- apply shape_dots. constructor; [done|]. constructor; [done|].
           by apply Shape_dotdot.
      * rewrite IH by (by eapply Shape_tail). cbn [rev]. rewrite walk_app.
        assert (Hn : is_name top = true).
        { apply Shape_elements in H. inversion H as [|? ? [?|?] _]; by subst. }
        by rewrite (walk_names _ [top]) by (by constructor).
  - assert (Hn : is_name e = true).
    { apply orb_false_iff in E1 as [Ea Eb]. unfold is_name.
      rewrite Ea, Eb. by destruct (String.eqb_spec e ".."). }
    rewrite IH by (by apply shape_name). cbn [rev]. rewrite walk_app.
    by rewrite (walk_names _ [e]) by (by constructor).
Qed.

Lemma clean_elements_sep_free rooted l :
  Forall (fun e => sep_free e = true) l ->
  forall out, Forall (fun e => sep_free e = true) out ->
    Forall (fun e => sep_free e = true) (filepath.clean_elements rooted out l).
Proof.
  induction l as [|e l IH]; intros Hl out H; [done|].
  inversion Hl as [|? ? He Hl']; subst.
  cbn [filepath.clean_elements].
  destruct (String.eqb e "" || String.eqb e "."); [by apply IH|].
  destruct (String.eqb e "..").
  - destruct out as [|top out].
    + destruct rooted; apply IH; try done. by constructor.
    + inversion H; subst. destruct (String.eqb top ".."); apply IH; try done.
      by constructor.
  - apply IH; [done|]. by constructor.
Qed.

Lemma append_cons c (a b : string) : String c a +:+ b = String c (a +:+ b).
Proof. reflexivity. Qed.

Lemma append_assoc_string (a b c : string) : (a +:+ b) +:+ c = a +:+ (b +:+ c).
Proof. induction a as [|x a IH]; [done|]. by rewrite !append_cons, IH. Qed.

Lemma append_empty_r (a : string) : a +:+ "" = a.
Proof. induction a as [|x a IH]; [done|]. by rewrite append_cons, IH. Qed.

Lemma sep_free_cons c a :
  sep_free (String c a) = true -> c <> "/"%char /\ sep_free a = true.
Proof.
  unfold sep_free. cbn [filepath.has_separator].
  destruct (Ascii.eqb_spec c filepath.Separator) as [->|Hc]; [done|].
  intros H. by split.
Qed.

Lemma HasPrefix_cons c s p pre :
  strings.HasPrefix (String c s) (String p pre)
  = if Ascii.eqb c p then strings.HasPrefix s pre else false.
Proof. reflexivity. Qed.

Lemma HasPrefix_empty p pre : strings.HasPrefix "" (String p pre) = false.
Proof. reflexivity. Qed.

(** A prefix that ends an element with a separator cuts the string at
    the end of an element. *)
Lemma HasPrefix_element a :
  forall b s1 s2,
    sep_free a = true -> sep_free b = true ->
    (s2 = "" \/ exists s2', s2 = String "/" s2') ->
    strings.HasPrefix (b +:+ s2) (a +:+ String "/" s1) = true ->
    a = b /\ exists s2', s2 = String "/" s2' /\ strings.HasPrefix s2' s1 = true.
Proof.
  induction a as [|c a IH]; intros b s1 s2 Ha Hb Hs H.
  - change ("" +:+ String "/" s1) with (String "/" s1) in H.
    destruct b as [|c' b].
    + change ("" +:+ s2) with s2 in H.
      destruct Hs as [->|[s2' ->]]; [done|].
      rewrite HasPrefix_cons, Ascii.eqb_refl in H.
      split; [done|]. exists s2'. by split.
    + apply sep_free_cons in Hb as [Hc' _].
      rewrite append_cons, HasPrefix_cons in H.
      by destruct (Ascii.eqb_spec c' "/").
  - apply sep_free_cons in Ha as [Hc Ha]. rewrite append_cons in H.
    destruct b as [|c' b].
    + change ("" +:+ s2) with s2 in H.
      destruct Hs as [->|[s2' ->]]; [done|].
      rewrite HasPrefix_cons in H.
      destruct (Ascii.eqb_spec "/" c) as [E|_]; [by destruct Hc|done].
    + apply sep_free_cons in Hb as [_ Hb].
      rewrite append_cons, HasPrefix_cons in H.
      destruct (Ascii.eqb_spec c' c) as [->|_]; [|done].
      destruct (IH b s1 s2 Ha Hb Hs H) as [-> R]. by split.
Qed.

Lemma concat_cons x L :
  String.concat "/" (x :: L)
  = x +:+ match L with [] => "" | _ => String "/" (String.concat "/" L) end.
Proof. destruct L; [by rewrite append_empty_r|done]. Qed.

Lemma is_prefix_refl_cons a L1 L2 :
  is_prefix L1 L2 = true -> is_prefix (a :: L1) (a :: L2) = true.
Proof. intros H. cbn. by rewrite String.eqb_refl. Qed.

(** The prefix test of the handler, on the elements. *)
Lemma HasPrefix_concat L1 :
  forall L2,
    Forall (fun e => sep_free e = true) L1 ->
    Forall (fun e => sep_free e = true) L2 ->
    strings.HasPrefix (String.concat "/" L2) (String.concat "/" L1 +:+ "/") = true ->
    is_prefix L1 L2 = true /\ (length L1 < length L2)%nat.
Proof.
  induction L1 as [|a L1 IH]; intros L2 H1 H2 H.
  - split; [done|]. destruct L2; [done|]. cbn. lia.
  - inversion H1 as [|? ? Ha H1']; subst.
    assert (E : String.concat "/" (a :: L1) +:+ "/"
                = a +:+ String "/" (match L1 with
                                    | [] => ""
                                    | _ => String.concat "/" L1 +:+ "/"
                                    end)).
    { rewrite concat_cons, append_assoc_string. by destruct L1. }
    rewrite E in H. clear E.
    destruct L2 as [|b L2].
    + change (String.concat "/" []) with ("" +:+ "") in H.
      apply HasPrefix_element in H as [_ (s & Hs & _)]; try done. by left.
    + inversion H2 as [|? ? Hb H2']; subst.
      rewrite concat_cons in H.
      apply HasPrefix_element in H as [-> (s & Hs & Hp)]; try done;
        [|destruct L2; [by left|right; by eexists]].
      destruct L2 as [|b' L2]; [done|]. injection Hs as <-.
      destruct L1 as [|a' L1].
      * split; [by apply is_prefix_refl_cons|]. cbn. lia.
      * destruct (IH (b' :: L2) H1' H2' Hp) as [P Q].
        split; [by apply is_prefix_refl_cons|]. cbn in *. lia.
Qed.

Lemma is_prefix_split L1 :
  forall L2, is_prefix L1 L2 = true -> exists rest, L2 = L1 ++ rest.
Proof.
  induction L1 as [|a L1 IH]; intros L2 H; [by exists L2|].
  destruct L2 as [|b L2]; [done|]. cbn in H.
  apply andb_true_iff in H as [E H]. apply String.eqb_eq in E as ->.
  destruct (IH L2 H) as [rest ->]. by exists rest.
Qed.

Lemma is_prefix_app L rest : is_prefix L (L ++ rest) = true.
Proof.
  induction L as [|a L IH]; [done|]. cbn. by rewrite String.eqb_refl.
Qed.

Lemma Clean_cleaned path :
  filepath.Clean path =
  if strings.HasPrefix path "/" then "/" +:+ String.concat "/" (cleaned path)
  else if String.eqb (String.concat "/" (cleaned path)) "" then "."
       else String.concat "/" (cleaned path).
Proof. reflexivity. Qed.

Lemma cleaned_sep_free path : Forall (fun e => sep_free e = true) (cleaned path).
Proof.
  apply Forall_rev, clean_elements_sep_free; [apply elements_sep_free|constructor].
Qed.

Lemma cleaned_Shape path : Shape (rev (cleaned path)).
Proof.
  unfold cleaned. rewrite rev_involutive. apply clean_elements_Shape.
  apply shape_dots. constructor.
Qed.

Lemma cleaned_elements path :
  Forall (fun e => e = ".." \/ is_name e = true) (cleaned path).
Proof.
  rewrite <- (rev_involutive (cleaned path)).
  apply Forall_rev, Shape_elements, cleaned_Shape.
Qed.

Lemma clean_elements_rooted_names l :
  forall out, Forall (fun e => is_name e = true) out ->
    Forall (fun e => is_name e = true) (filepath.clean_elements true out l).
Proof.
  induction l as [|e l IH]; intros out H; [done|].
  cbn [filepath.clean_elements].
  destruct (String.eqb e "" || String.eqb e ".") eqn:E1; [by apply IH|].
  destruct (String.eqb_spec e "..") as [->|E2].
  - destruct out as [|top out]; [by apply IH|].
    inversion H as [|? ? Ht Ho]; subst.
    destruct (String.eqb_spec top "..") as [->|_]; [done|by apply IH].
  - apply IH. constructor; [|done].
    apply orb_false_iff in E1 as [Ea Eb]. unfold is_name.
    rewrite Ea, Eb. by destruct (String.eqb_spec e "..").
Qed.

Lemma cleaned_rooted_names path :
  strings.HasPrefix path "/" = true ->
  Forall (fun e => is_name e = true) (cleaned path).
Proof.
  intros H. unfold cleaned. rewrite H.
  apply Forall_rev, clean_elements_rooted_names. constructor.
Qed.

Lemma name_nonempty e : e = ".." \/ is_name e = true -> e <> "".
Proof. intros [->|H]; [done|]. by intros ->. Qed.

Lemma concat_nonempty L :
  L <> [] -> Forall (fun e => e = ".." \/ is_name e = true) L ->
  String.concat "/" L <> "".
Proof.
  destruct L as [|x L]; [done|]. intros _ H.
  inversion H as [|? ? Hx _]; subst. apply name_nonempty in Hx.
  rewrite concat_cons. by destruct x.
Qed.

Lemma HasPrefix_nil s : strings.HasPrefix s "" = true.
Proof. by destruct s. Qed.

Lemma concat_not_rooted L :
  Forall (fun e => sep_free e = true) L ->
  Forall (fun e => e = ".." \/ is_name e = true) L ->
  strings.HasPrefix (String.concat "/" L) "/" = false.
Proof.
  destruct L as [|x L]; [done|]. intros H1 H2.
  inversion H1 as [|? ? Hs _]; inversion H2 as [|? ? Hx _]; subst.
  apply name_nonempty in Hx. rewrite concat_cons.
  destruct x as [|c x]; [done|]. apply sep_free_cons in Hs as [Hc _].
  rewrite append_cons, HasPrefix_cons. by destruct (Ascii.eqb_spec c "/").
Qed.

Lemma Clean_rooted path :
  strings.HasPrefix (filepath.Clean path) "/" = strings.HasPrefix path "/".
Proof.
  rewrite Clean_cleaned. destruct (strings.HasPrefix path "/") eqn:E.
  - rewrite append_cons, HasPrefix_cons. apply HasPrefix_nil.
  - destruct (String.eqb _ ""); [done|].
    apply concat_not_rooted; [apply cleaned_sep_free|apply cleaned_elements].
Qed.

Lemma elements_Clean_walk path base :
  walk base (filepath.elements (filepath.Clean path)) = walk base (cleaned path).
Proof.
  rewrite Clean_cleaned.
  pose proof (cleaned_sep_free path) as Hs.
  pose proof (cleaned_elements path) as He.
  destruct (strings.HasPrefix path "/").
  - change ("/" +:+ ?x) with (String "/" x). cbn [filepath.elements].
    rewrite Ascii.eqb_refl. destruct (cleaned path) as [|x L] eqn:E; [done|].
    by rewrite elements_concat.
  - destruct (String.eqb_spec (String.concat "/" (cleaned path)) "") as [E|E].
    + destruct (cleaned path) as [|x L] eqn:E'; [done|].
      by destruct (concat_nonempty (x :: L)).
    + destruct (cleaned path) as [|x L] eqn:E'; [done|].
      by rewrite elements_concat.
Qed.

(** Where a path leads, from its cleaned elements. *)
Lemma resolve_cleaned cwd path :
  resolve cwd path
  = rev (walk (if strings.HasPrefix path "/" then [] else rev cwd) (cleaned path)).
Proof.
  unfold resolve, cleaned. f_equal. symmetry.
  rewrite clean_elements_walk; [done| |apply shape_dots; constructor].
  intros E. by rewrite E.
Qed.

(** Cleaning a path does not change where it leads. *)
Lemma resolve_Clean cwd path : resolve cwd (filepath.Clean path) = resolve cwd path.
Proof.
  rewrite (resolve_cleaned cwd path). unfold resolve.
  by rewrite Clean_rooted, elements_Clean_walk.
Qed.

(** ** Path traversal *)

Lemma rooted_join d c :
  d <> "" -> strings.HasPrefix (d +:+ "/" +:+ c) "/" = strings.HasPrefix d "/".
Proof.
  destruct d as [|ch d]; [done|]. intros _.
  by rewrite append_cons, !HasPrefix_cons, !HasPrefix_nil.
Qed.

(** What the prefix test of [handleMediaServe] says of the elements of
    the joined path: they are those of the cleaned upload directory
    followed by at least one name. *)
Lemma check_elements d y :
  strings.HasPrefix y "/" = strings.HasPrefix d "/" ->
  climbs d = false ->
  strings.HasPrefix (filepath.Clean y) (filepath.Clean d +:+ "/") = true ->
  exists rest,
    cleaned y = cleaned d ++ rest /\ rest <> [] /\
    Forall (fun e => is_name e = true) rest.
Proof.
  intros Hr Hc H.
  pose proof (cleaned_sep_free d) as Sd. pose proof (cleaned_sep_free y) as Sy.
  pose proof (cleaned_elements d) as Ed. pose proof (cleaned_elements y) as Ey.
  assert (Hsplit : strings.HasPrefix (String.concat "/" (cleaned y))
                     (String.concat "/" (cleaned d) +:+ "/") = true ->
                   exists rest, cleaned y = cleaned d ++ rest /\ rest <> []).
  { intros P. apply HasPrefix_concat in P as [P Q]; try done.
    apply is_prefix_split in P as [rest E]. exists rest. split; [done|].
    intros ->. rewrite E, app_nil_r in Q. lia. }
  unfold climbs in Hc. rewrite !Clean_cleaned, Hr in H. rewrite Clean_cleaned in Hc.
  destruct (strings.HasPrefix d "/") eqn:Rd.
  - rewrite !append_cons, HasPrefix_cons, Ascii.eqb_refl in H.
    change ("" +:+ ?x) with x in H.
    destruct (Hsplit H) as (rest & E & Hne). exists rest. split; [done|]. split; [done|].
    pose proof (cleaned_rooted_names y) as N. rewrite Hr in N. specialize (N eq_refl).
    rewrite E in N. by apply Forall_app in N as [_ N].
  - destruct (String.eqb_spec (String.concat "/" (cleaned y)) "") as [Ey0|Ey0].
    { exfalso. destruct (String.eqb_spec (String.concat "/" (cleaned d)) "") as [Ed0|Ed0];
        [done|].
      destruct (String.concat "/" (cleaned d)) as [|ch body]; [done|].
      rewrite append_cons, HasPrefix_cons in H.
      destruct (Ascii.eqb "." ch); [|done]. by destruct body. }
    destruct (String.eqb_spec (String.concat "/" (cleaned d)) "") as [Ed0|Ed0].
    { exfalso. destruct (cleaned y) as [|b L] eqn:Ecy; [done|].
      rewrite concat_cons in H. change ("." +:+ "/") with ("." +:+ String "/" "") in H.
      inversion Sy as [|? ? Sb _]; inversion Ey as [|? ? Eb _]; subst.
      apply HasPrefix_element in H as [<- _]; try done; [by destruct Eb|].
      destruct L; [by left|right; by eexists]. }
    destruct (Hsplit H) as (rest & E & Hne). exists rest. split; [done|]. split; [done|].
    assert (Hd : cleaned d <> []) by (intros E0; by rewrite E0 in Ed0).
    destruct (exists_last Hd) as (init & e & El).
    rewrite elements_concat, El, last_snoc in Hc by done.
    assert (Hn : is_name e = true).
    { rewrite El in Ed. apply Forall_app in Ed as [_ Ed].
      inversion Ed as [|? ? [->|Hn] _]; by subst. }
    pose proof (cleaned_Shape y) as Sh.
    rewrite E, El, !rev_app_distr in Sh. cbn [rev app] in Sh.
    apply Shape_above in Sh; [|done].
    rewrite <- (rev_involutive rest). by apply Forall_rev.
Qed.

(** A joined path that passes the prefix test names a place below the
    upload directory, when the cleaned directory does not end with
    [..]. *)
Lemma check_inside cwd d c :
  d <> "" -> climbs d = false ->
  strings.HasPrefix (filepath.Join [d; c]) (filepath.Clean d +:+ "/") = true ->
  inside cwd d (filepath.Join [d; c]) = true.
Proof.
  intros Hd Hc H.
  assert (EJ : filepath.Join [d; c] = filepath.Clean (d +:+ "/" +:+ c)).
  { cbn [filepath.Join]. by destruct (String.eqb_spec d ""). }
  rewrite EJ in *. pose proof (rooted_join d c Hd) as Hr.
  destruct (check_elements d _ Hr Hc H) as (rest & E & Hne & Hn).
  unfold inside. rewrite resolve_Clean, !resolve_cleaned, Hr, E.
  rewrite walk_app, (walk_names _ rest Hn), rev_app_distr, rev_involutive.
  rewrite is_prefix_app, length_app. cbn [andb].
  apply Nat.ltb_lt. destruct rest; [done|]. cbn [length]. lia.
Qed.

Lemma handleMediaServe_file a t r name :
  (handleMediaServe a t r).1 = http.ServeFile name ->
  App.UploadDir a <> "" /\
  name = filepath.Join [App.UploadDir a; filepath.Clean (mediaToken r)] /\
  strings.HasPrefix name (filepath.Clean (App.UploadDir a) +:+ "/") = true.
Proof.
  unfold handleMediaServe.
  destruct (negb (String.eqb (http.Method r) http.MethodGet)); [done|].
  destruct (String.eqb (mediaToken r) ""); [done|].
  destruct (negb (App.Hipaa a) && nonempty (App.UploadDir a)) eqn:E.
  - destruct (strings.HasPrefix _ _) eqn:P; [|done]. cbn. intros [= <-].
    apply andb_true_iff in E as [_ E]. unfold nonempty in E.
    split; [|by split]. by destruct (String.eqb_spec (App.UploadDir a) "").
  - destruct (App.uploadedFiles a !! mediaToken r) as [f|]; [|done].
    by destruct (time.After t (ExpiresAt f)).
Qed.

(** The prefix test does its work for every upload directory whose
    cleaned form does not end with [..] (every absolute directory, and
    every relative one that ends with a name): whatever the token, a
    media request is answered from a file only below the upload
    directory, for every working directory of the process. *)
Theorem media_serve_stays_below_upload_dir a t r name cwd :
  climbs (App.UploadDir a) = false ->
  (handleMediaServe a t r).1 = http.ServeFile name ->
  inside cwd (App.UploadDir a) name = true.
Proof.
  intros Hc H. apply handleMediaServe_file in H as (Hd & -> & P).
  by apply check_inside.
Qed.

Lemma climbs_absolute d : strings.HasPrefix d "/" = true -> climbs d = false.
Proof.
  intros H. unfold climbs. rewrite Clean_cleaned, H.
  pose proof (cleaned_rooted_names d H) as N.
  pose proof (cleaned_sep_free d) as S.
  change ("/" +:+ ?x) with (String "/" x). cbn [filepath.elements].
  rewrite Ascii.eqb_refl.
  destruct (cleaned d) as [|x L] eqn:E; [done|].
  rewrite elements_concat by done.
  destruct (exists_last (l := x :: L)) as (init & e & El); [done|].
  rewrite El in *. rewrite app_comm_cons, last_snoc.
  apply Forall_app in N as [_ N]. inversion N as [|? ? Hn _]; subst.
  by destruct (String.eqb_spec e "..") as [->|].
Qed.

(** C3, where the prefix test departs from it.  With the upload
    directory [..], the token of the request [/media/ ../x] passes the
    test and the request is answered from [../../x]: for a process in
    [/srv/app] the upload directory is [/srv] and the file is [/x],
    outside of it. *)
Theorem media_serve_leaves_parent_upload_dir :
  NewApp demoOutside (LoadConfig parentDirEnv demoFlags).1 = Ok parentDirStarted /\
  handleMediaServe parentDirApp 0 (mediaGet "/media/ ../x")
  = (http.ServeFile "../../x", parentDirApp) /\
  inside ["srv"; "app"] (App.UploadDir parentDirApp) "../../x" = false /\
  resolve ["srv"; "app"] (App.UploadDir parentDirApp) = ["srv"] /\
  resolve ["srv"; "app"] "../../x" = ["x"].
Proof. repeat split; vm_compute; reflexivity. Qed.

(** ** The properties on the deployment of Part I *)

(** The payload ["abc"] of type [text/plain], uploaded in memory mode
    with the public base URL [https://host/], is served back. *)
Example demoStored_served :
  handleMediaServe demoStored 2000 (mediaGet ("/media/" +:+ demoToken))
  = (http.ServeContent (Some "text/plain") demoToken (list_byte_of_string "abc"),
     demoStored).
Proof. vm_compute. reflexivity. Qed.

(** With the upload directory [/data], tokens that lead elsewhere are
    answered "not found". *)
Example diskApp_traversal :
  (handleMediaServe diskApp 0 (mediaGet "/media/../../etc/passwd")).1 = http.NotFound /\
  (handleMediaServe diskApp 0 (mediaGet "/media/..")).1 = http.NotFound /\
  (handleMediaServe diskApp 0 (mediaGet "/media//etc/passwd")).1
  = http.ServeFile "/data/etc/passwd".
Proof. repeat split; vm_compute; reflexivity. Qed.

Lemma demoApp_started : NewApp demoOutside demoConfig = Ok demoStarted.
Proof. vm_compute. reflexivity. Qed.

Lemma demoUpload_stored :
  handleFileUpload demoApp demoWorld demoUpload
  = (Ok ("https://host/media/" +:+ demoToken), demoStored, demoWorld').
Proof. vm_compute. reflexivity. Qed.

Lemma demoStored_reachable : Reachable demoStored.
Proof.
  apply (reach_step demoApp).
  - exact (reach_start _ _ _ demoApp_started).
  - exact (step_upload _ _ _ _ _ _ demoUpload_stored).
Qed.

Lemma memory_store_retrieve_roundtrip_witness :
  memoryMode demoApp = true /\
  storeFileInMemory demoApp demoWorld demoFile demoHeader
  = (Ok ("https://host/media/" +:+ demoToken), demoStored, demoWorld') /\
  exists token,
    "https://host/media/" +:+ demoToken
    = trimTrailingSlash (App.PublicBaseURL demoApp) +:+ "/media/" +:+ token /\
    is_token token = true /\
    (exists entry, App.uploadedFiles demoStored !! token = Some entry /\
                   ExpiresAt entry = time.Add (now demoWorld) (30 * time.Minute)) /\
    forall t r,
      http.Method r = http.MethodGet ->
      http.URLPath r = "/media/" +:+ token ->
      t <= time.Add (now demoWorld) (30 * time.Minute) ->
      handleMediaServe demoStored t r =
      (http.ServeContent
         (Some (if String.eqb (multipart.ContentType demoHeader) ""
                then "application/octet-stream" else multipart.ContentType demoHeader))
         token (multipart.content demoFile), demoStored).
Proof.
  assert (H : storeFileInMemory demoApp demoWorld demoFile demoHeader
              = (Ok ("https://host/media/" +:+ demoToken), demoStored, demoWorld'))
    by (vm_compute; reflexivity).
  split; [reflexivity|]. split; [exact H|].
  exact (memory_store_retrieve_roundtrip demoApp demoWorld demoFile demoHeader
           _ _ _ eq_refl H).
Defined.

Lemma expired_token_not_found_witness :
  Reachable demoStored /\
  Sweeps demoStored demoStored /\
  exists a2,
    handleMediaServe demoStored (demoExpiry + 1) (mediaGet ("/media/" +:+ demoToken))
    = (http.NotFound, a2) /\
    App.uploadedFiles a2 !! demoToken = None /\
    forall k, k <> demoToken ->
              App.uploadedFiles a2 !! k = App.uploadedFiles demoStored !! k.
Proof.
  assert (HS : Sweeps demoStored demoStored).
  { apply (sweeps_more demoStored demoStored demoStored 2000 []); [constructor|].
    vm_compute. reflexivity. }
  split; [exact demoStored_reachable|]. split; [exact HS|].
  apply (expired_token_not_found demoStored demoStored demoToken
           (memoryEntry demoWorld demoFile demoHeader)).
  - exact demoStored_reachable.
  - vm_compute. reflexivity.
  - exact HS.
  - vm_compute. reflexivity.
  - reflexivity.
  - reflexivity.
Defined.

Lemma cleanup_removes_exactly_expired_witness :
  Reachable demoStored /\
  exists a' log,
    cleanupExpiredFiles demoStored (demoExpiry + 1) = Some (a', log) /\
    a' = App.with_uploadedFiles demoStored (App.uploadedFiles a') /\
    (forall token f, App.uploadedFiles demoStored !! token = Some f ->
                     ExpiresAt f < demoExpiry + 1 ->
                     App.uploadedFiles a' !! token = None) /\
    (forall token f, App.uploadedFiles demoStored !! token = Some f ->
                     demoExpiry + 1 <= ExpiresAt f ->
                     App.uploadedFiles a' !! token = Some f) /\
    (forall token, App.uploadedFiles demoStored !! token = None ->
                   App.uploadedFiles a' !! token = None).
Proof.
  split; [exact demoStored_reachable|].
  exact (cleanup_removes_exactly_expired demoStored (demoExpiry + 1) demoStored_reachable).
Defined.

Lemma diskUpload_writes :
  os.files (disk (handleFileUpload diskApp demoWorld demoUpload).2)
    !! ("/data/" +:+ demoToken)
  = Some (list_byte_of_string "abc").
Proof. vm_compute. reflexivity. Qed.

Lemma compliance_mode_selects_memory_witness :
  (App.Hipaa demoApp = true /\
   disk (handleFileUpload demoApp demoWorld demoUpload).2 = disk demoWorld /\
   (forall t rq name, (handleMediaServe demoApp t rq).1 <> http.ServeFile name)) /\
  (Config.Hipaa demoConfig = true /\ NewApp demoOutside demoConfig = Ok demoStarted /\
   App.Hipaa (startedApp demoStarted) = true /\
   cleanupInterval demoStarted = Some (5 * time.Minute)) /\
  (disk (handleFileUpload diskApp demoWorld demoUpload).2 <> disk demoWorld /\
   App.Hipaa diskApp = false /\ App.UploadDir diskApp <> "") /\
  ((handleMediaServe diskApp 0 (mediaGet ("/media/" +:+ demoToken))).1
   = http.ServeFile ("/data/" +:+ demoToken) /\
   App.Hipaa diskApp = false /\ App.UploadDir diskApp <> "").
Proof.
  pose proof (compliance_mode_selects_memory demoApp demoWorld demoUpload
                demoOutside demoConfig demoStarted) as (M1 & M2 & _ & _).
  pose proof (compliance_mode_selects_memory diskApp demoWorld demoUpload
                demoOutside demoConfig demoStarted) as (_ & _ & D3 & D4).
  assert (Hd : disk (handleFileUpload diskApp demoWorld demoUpload).2 <> disk demoWorld).
  { intros E. pose proof diskUpload_writes as W. rewrite E in W. vm_compute in W.
    discriminate W. }
  split; [|split; [|split]].
  - split; [reflexivity|]. destruct (M1 eq_refl) as (F1 & _ & F3). by split.
  - split; [reflexivity|]. split; [exact demoApp_started|].
    exact (M2 eq_refl demoApp_started).
  - split; [exact Hd|]. exact (D3 Hd).
  - split; [reflexivity|].
    exact (D4 0 (mediaGet ("/media/" +:+ demoToken)) ("/data/" +:+ demoToken) eq_refl).
Defined.

Lemma demoCookie_issued :
  setSessionCookie demoApp "password" demoSource
  = (Ok demoCookie, (rand.Read 32 demoSource).2).
Proof. vm_compute. reflexivity. Qed.

Lemma issued_cookie_verifies_and_bit_flip_fails_witness :
  setSessionCookie demoApp "password" demoSource
  = (Ok demoCookie, (rand.Read 32 demoSource).2) /\
  exists token signature,
    signature = signSessionToken token (AuthConfig.SessionSecret (App.AuthConfig demoApp)) /\
    http.Value demoCookie = token +:+ "." +:+ signature +:+ "." +:+ "password" /\
    verifyCookieValue (http.Value demoCookie)
      (AuthConfig.SessionSecret (App.AuthConfig demoApp)) = true /\
    (forall r, http.Cookie_ r sessionCookieName = Ok (http.Value demoCookie) ->
               isAuthenticated demoApp r = true) /\
    forall i tampered,
      (i < 8 * String.length signature)%nat ->
      tampered = token +:+ "." +:+ flip_bit i signature +:+ "." +:+ "password" ->
      verifyCookieValue tampered (AuthConfig.SessionSecret (App.AuthConfig demoApp)) = false /\
      (forall r, hasAuthConfigured demoApp = true ->
                 http.Cookie_ r sessionCookieName = Ok tampered ->
                 isAuthenticated demoApp r = false).
Proof.
  split; [exact demoCookie_issued|].
  exact (issued_cookie_verifies_and_bit_flip_fails demoApp "password" demoSource
           demoCookie _ demoCookie_issued).
Defined.

Lemma redirect_targets_validated_witness :
  (http.reply (handlePasswordLogin demoApp evilLogin demoSource).1
   = http.Redirect "/" http.StatusSeeOther /\
   "/" = (if String.eqb (http.FormValue evilLogin "password")
                        (AuthConfig.Password (App.AuthConfig demoApp))
          then honoured (http.FormValue evilLogin "redirect")
          else "/login?error=invalid&redirect="
               +:+ honoured (http.FormValue evilLogin "redirect"))) /\
  (http.reply (response (handleOAuthCallback demoProvider demoApp evilCallback demoSource).1)
   = http.Redirect "/" http.StatusSeeOther /\
   "/" = match http.Cookie_ evilCallback "oauth_redirect" with
         | Ok target => honoured target
         | Err _ => "/"
         end).
Proof.
  assert (H1 : http.reply (handlePasswordLogin demoApp evilLogin demoSource).1
               = http.Redirect "/" http.StatusSeeOther) by (vm_compute; reflexivity).
  assert (H2 : http.reply
                 (response (handleOAuthCallback demoProvider demoApp evilCallback demoSource).1)
               = http.Redirect "/" http.StatusSeeOther) by (vm_compute; reflexivity).
  split.
  - split; [exact H1|].
    exact (proj1 (redirect_targets_validated demoProvider demoApp evilLogin demoSource
                    "/" http.StatusSeeOther) H1).
  - split; [exact H2|].
    exact (proj2 (redirect_targets_validated demoProvider demoApp evilCallback demoSource
                    "/" http.StatusSeeOther) H2).
Defined.

Lemma callback_rejects_state_mismatch_witness :
  http.Cookie_ forgedCallback "oauth_state"
  <> Ok (http.Get (http.URLQuery forgedCallback) "state") /\
  oauth2.Exchange demoProvider
    {| oauth2.ClientID := "client-1"; oauth2.ClientSecret := "hush";
       oauth2.RedirectURL := "https://host//auth/callback/google";
       oauth2.Scopes := ["https://www.googleapis.com/auth/userinfo.email"];
       oauth2.Endpoint_ := oauth2.GoogleEndpoint |} "good"
  = Ok {| oauth2.Valid := true |} /\
  handleOAuthCallback demoProvider demoApp forgedCallback demoSource =
  ({| exchanges := [];
      response := http.respond (http.Error "invalid state" http.StatusBadRequest) |},
   demoSource).
Proof.
  assert (H : http.Cookie_ forgedCallback "oauth_state"
              <> Ok (http.Get (http.URLQuery forgedCallback) "state"))
    by (vm_compute; discriminate).
  split; [exact H|]. split; [reflexivity|].
  exact (callback_rejects_state_mismatch demoProvider demoApp forgedCallback demoSource H).
Defined.

Lemma session_secret_derived_from_password_witness :
  Getenv demoEnv "AUTH_PASSWORD" <> "" /\
  Getenv demoEnv "SESSION_SECRET" = "" /\
  AuthConfig.SessionSecret (Config.AuthConfig (LoadConfig demoEnv demoFlags).1)
  = "change-me-correct ho" /\
  warnSessionSecret ∈ (LoadConfig demoEnv demoFlags).2.
Proof.
  assert (H1 : Getenv demoEnv "AUTH_PASSWORD" <> "") by (vm_compute; discriminate).
  assert (H2 : Getenv demoEnv "SESSION_SECRET" = "") by (vm_compute; reflexivity).
  pose proof (session_secret_derived_from_password demoEnv demoFlags H1 H2) as (E & W & _).
  split; [exact H1|]. split; [exact H2|]. split; [|exact W].
  rewrite E. vm_compute. reflexivity.
Defined.

(* ================================================================= *)
(** * Part III: more properties of the code *)
(* ================================================================= *)

(** ** Media requests and uploads, on the map *)

Lemma with_uploadedFiles_same a : App.with_uploadedFiles a (App.uploadedFiles a) = a.
Proof. by destruct a. Qed.

(** X1. A media request changes nothing but the map, in the map nothing
    but the entry of the token it asks for, and that entry only to
    remove it once it has expired; a request that is not a GET is
    answered 405 and changes nothing. *)
Theorem handleMediaServe_frame a t r rep a' :
  handleMediaServe a t r = (rep, a') ->
  a' = App.with_uploadedFiles a (App.uploadedFiles a') /\
  (forall k, k <> mediaToken r ->
             App.uploadedFiles a' !! k = App.uploadedFiles a !! k) /\
  (App.uploadedFiles a' !! mediaToken r = App.uploadedFiles a !! mediaToken r \/
   App.uploadedFiles a' !! mediaToken r = None /\
   rep = http.NotFound /\ memoryMode a = true /\
   exists f, App.uploadedFiles a !! mediaToken r = Some f /\ ExpiresAt f < t) /\
  (http.Method r <> http.MethodGet ->
   rep = http.Error "method not allowed" http.StatusMethodNotAllowed /\ a' = a).
Proof.
  unfold handleMediaServe.
  destruct (String.eqb_spec (http.Method r) http.MethodGet) as [HG|HG]; cbn [negb].
  2:{ intros [= <- <-]. rewrite with_uploadedFiles_same. by repeat split; try left. }
  assert (Same : forall rep0, (rep0, a) = (rep, a') ->
    a' = App.with_uploadedFiles a (App.uploadedFiles a') /\
    (forall k, k <> mediaToken r ->
               App.uploadedFiles a' !! k = App.uploadedFiles a !! k) /\
    (App.uploadedFiles a' !! mediaToken r = App.uploadedFiles a !! mediaToken r \/
     App.uploadedFiles a' !! mediaToken r = None /\
     rep = http.NotFound /\ memoryMode a = true /\
     exists f, App.uploadedFiles a !! mediaToken r = Some f /\ ExpiresAt f < t) /\
    (http.Method r <> http.MethodGet ->
     rep = http.Error "method not allowed" http.StatusMethodNotAllowed /\ a' = a)).
  { intros rep0 [= <- <-]. rewrite with_uploadedFiles_same.
    repeat split; try done. by left. }
  destruct (String.eqb (mediaToken r) ""); [apply Same|].
  destruct (negb (App.Hipaa a) && nonempty (App.UploadDir a)) eqn:Hd.
  { destruct (negb (strings.HasPrefix _ _)); apply Same. }
  destruct (App.uploadedFiles a !! mediaToken r) as [f|] eqn:Hf; [|apply Same].
  destruct (time.After t (ExpiresAt f)) eqn:Hx; [|apply Same].
  intros [= <- <-]. cbn. split; [done|]. split.
  - intros k Hk. by rewrite lookup_delete_ne.
  - split; [|done]. right. rewrite lookup_delete_eq. split; [done|]. split; [done|].
    split.
    + unfold memoryMode. unfold nonempty in Hd.
      destruct (App.Hipaa a); [done|]. cbn in *.
      by destruct (String.eqb (App.UploadDir a) "").
    + exists f. split; [done|]. unfold time.After in Hx. by apply Z.ltb_lt.
Qed.

(** X2. An upload changes the application in one way only: the memory
    backend puts one entry into the map, under a token, and returns
    the URL of that token.  In disk mode, on an error, and without a
    part [media_file], the application is left as it was. *)
Theorem handleFileUpload_frame a w r res a' w' :
  handleFileUpload a w r = (res, a', w') ->
  a' = a \/
  memoryMode a = true /\
  exists token entry,
    is_token token = true /\
    res = Ok (trimTrailingSlash (App.PublicBaseURL a) +:+ "/media/" +:+ token) /\
    Data entry = match uploadedPart r with
                 | Some fh => match multipart.Open fh with
                              | Ok file => multipart.content file
                              | Err _ => []
                              end
                 | None => []
                 end /\
    a' = App.with_uploadedFiles a (<[token := entry]> (App.uploadedFiles a)).
Proof.
  intros H. pose proof (handleFileUpload_cases a w r) as C.
  destruct (uploadedPart r) as [fh|]; [|rewrite C in H; left; by injection H].
  destruct (multipart.Open fh) as [file|e]; [|rewrite C in H; left; by injection H].
  rewrite C in H. destruct (memoryMode a) eqn:Hm.
  - destruct res as [url|e].
    + apply storeFileInMemory_Ok in H as (token & Ht & -> & ->).
      right. split; [done|]. by exists token, (memoryEntry w file fh).
    + left. by eapply storeFileInMemory_Err.
  - left. pose proof (storeFileToDisk_app a w file fh) as D.
    rewrite H in D. by cbn in D.
Qed.

(** ** The sweep, again *)

Lemma cleanup_fold_quiet now l :
  (forall k f, (k, f) ∈ l -> expired now f = false) ->
  forall acc, foldl (cleanupEntry now) (Some acc) l = Some acc.
Proof.
  induction l as [|[k0 f0] l IH]; intros Hl acc; [done|].
  cbn [foldl cleanupEntry]. destruct acc as [m log].
  assert (E : expired now f0 = false) by (apply (Hl k0 f0); left).
  unfold expired in E. rewrite E. apply IH.
  intros k f Hin. apply (Hl k f). by right.
Qed.

(** X3. After a sweep at [T], a sweep at [T] or at an earlier time removes
    nothing and logs nothing. *)
Theorem cleanup_again a T a1 log1 T' :
  cleanupExpiredFiles a T = Some (a1, log1) ->
  T' <= T ->
  cleanupExpiredFiles a1 T' = Some (a1, []).
Proof.
  intros H Hle. unfold cleanupExpiredFiles.
  rewrite cleanup_fold_quiet; [by rewrite with_uploadedFiles_same|].
  intros k f Hin. apply elem_of_map_to_list in Hin.
  rewrite (cleanup_lookup _ _ _ _ H k) in Hin.
  destruct (App.uploadedFiles a !! k) as [f0|]; [|done].
  destruct (expired T f0) eqn:E; [done|]. injection Hin as <-.
  unfold expired, time.After in *. apply Z.ltb_ge in E. apply Z.ltb_ge. lia.
Qed.

(** The line the sweep logs for a token. *)
Lemma cleanup_fold_count now l :
  NoDup l.*1 ->
  forall m log m' log',
    (forall k f, (k, f) ∈ l -> is_Some (m !! k)) ->
    foldl (cleanupEntry now) (Some (m, log)) l = Some (m', log') ->
    (size m' + length log' = size m + length log)%nat /\
    exists lines,
      log' = log ++ lines /\
      Forall (fun line => exists k,
                (k, ()) ∈ (fun kv : string * uploadedFile => (kv.1, ())) <$> l /\
                line = "Cleaned up expired file: " +:+ slice_to k 8 +:+ "...") lines.
Proof.
  induction l as [|[k0 f0] l IH]; intros ND m log m' log' Hin H.
  - cbn in H. injection H as <- <-. split; [done|]. exists []. by rewrite app_nil_r.
  - cbn [foldl cleanupEntry] in H. cbn in ND. apply NoDup_cons in ND as [Hk0 ND].
    assert (Hin' : forall k f, (k, f) ∈ l -> is_Some (m !! k) /\ k <> k0).
    { intros k f Hkf. split; [apply (Hin k f); by right|].
      intros ->. apply Hk0. apply list_elem_of_fmap. by exists (k0, f). }
    destruct (time.After now (ExpiresAt f0)).
    + destruct (String.length k0 <? 8)%nat; [by rewrite cleanup_fold_None in H|].
      assert (Hpre : forall k f, (k, f) ∈ l -> is_Some (delete k0 m !! k)).
      { intros k f Hkf. destruct (Hin' k f Hkf) as [Hs Hne].
        by rewrite lookup_delete_ne. }
      destruct (IH ND _ _ _ _ Hpre H) as [Hs (lines & -> & Hl)].
      split.
      * rewrite !length_app in *. cbn [length] in *.
        destruct (Hin k0 f0) as [x Hx]; [by left|].
        pose proof (map_size_delete_Some k0 m (mk_is_Some _ _ Hx)) as Hd.
        assert (size m <> 0%nat).
        { intros E0. apply map_size_empty_inv in E0. by rewrite E0 in Hx. }
        lia.
      * eexists (_ :: lines). rewrite <- app_assoc. split; [done|].
        constructor.
        -- exists k0. split; [|done]. cbn. by left.
        -- eapply Forall_impl; [exact Hl|]. intros line (k & Hk & ->).
           exists k. split; [|done]. cbn. by right.
    + assert (Hpre : forall k f, (k, f) ∈ l -> is_Some (m !! k)).
      { intros k f Hkf. by destruct (Hin' k f Hkf). }
      destruct (IH ND _ _ _ _ Hpre H) as [Hs (lines & -> & Hl)].
      split; [done|]. exists lines. split; [done|].
      eapply Forall_impl; [exact Hl|]. intros line (k & Hk & ->).
      exists k. split; [|done]. cbn. by right.
Qed.

(** X4. The sweep logs one line for each entry it removes, and a line
    shows the first eight bytes of the token only. *)
Theorem cleanup_log a T a' log :
  cleanupExpiredFiles a T = Some (a', log) ->
  (size (App.uploadedFiles a') + length log = size (App.uploadedFiles a))%nat /\
  Forall (fun line => exists token,
            is_Some (App.uploadedFiles a !! token) /\
            line = "Cleaned up expired file: " +:+ slice_to token 8 +:+ "...") log.
Proof.
  unfold cleanupExpiredFiles.
  destruct (foldl _ _ _) as [[m' log']|] eqn:E; [|done].
  intros [= <- <-]. cbn [App.uploadedFiles App.with_uploadedFiles].
  apply cleanup_fold_count in E as [Hs (lines & -> & Hl)].
  - rewrite app_nil_l in *. cbn [length] in Hs.
    split; [lia|]. eapply Forall_impl; [exact Hl|].
    intros line (k & Hk & ->). exists k. split; [|done].
    apply list_elem_of_fmap in Hk as ([k1 f1] & [= ->] & Hin).
    apply elem_of_map_to_list in Hin. by eexists.
  - apply NoDup_fst_map_to_list.
  - intros k f Hin. apply elem_of_map_to_list in Hin. by eexists.
Qed.

(** ** Sessions, again *)

Lemma cut_Some s sep before after :
  strings.cut s sep = Some (before, after) ->
  s = before +:+ String sep after /\ free_of sep before = true.
Proof.
  revert before. induction s as [|c s IH]; intros before; [done|].
  cbn [strings.cut]. destruct (Ascii.eqb_spec c sep) as [->|Hc].
  - by intros [= <- <-].
  - destruct (strings.cut s sep) as [[b a]|]; [|done].
    intros [= <- <-]. destruct (IH b eq_refl) as [-> Hf].
    split; [done|]. unfold free_of in *. cbn [all_chars]. rewrite Hf.
    by destruct (Ascii.eqb_spec c sep).
Qed.

Lemma cut_count s sep :
  match strings.cut s sep with
  | Some (_, after) => count_char sep s = S (count_char sep after)
  | None => count_char sep s = 0%nat
  end.
Proof.
  induction s as [|c s IH]; [done|]. cbn [strings.cut count_char].
  destruct (Ascii.eqb c sep); [done|].
  by destruct (strings.cut s sep) as [[b a]|].
Qed.

Lemma signSessionToken_free token secret :
  free_of "." (signSessionToken token secret) = true.
Proof. apply base64_free_of_dot. Qed.

(** The cookie values [isAuthenticated] accepts. *)
Lemma verifyCookieValue_true value secret :
  verifyCookieValue value secret = true <->
  exists token rest,
    free_of "." token = true /\
    value = token +:+ "." +:+ signSessionToken token secret +:+ "." +:+ rest.
Proof.
  split.
  - unfold verifyCookieValue. cbn [strings.SplitN].
    destruct (strings.cut value ".") as [[token after]|] eqn:E1; [|done].
    destruct (strings.cut after ".") as [[sig rest]|] eqn:E2; [|done].
    intros H. apply verifySessionToken_iff in H as ->.
    apply cut_Some in E1 as [-> Ht]. apply cut_Some in E2 as [-> _].
    by exists token, rest.
  - intros (token & rest & Ht & ->). unfold verifyCookieValue.
    rewrite SplitN_cookie by (try done; apply signSessionToken_free).
    by apply verifySessionToken_iff.
Qed.

(** A cookie made of a token, its signature and a third part is
    accepted. *)
Lemma session_cookie_accepted a r token rest :
  free_of "." token = true ->
  http.Cookie_ r sessionCookieName
  = Ok (token +:+ "." +:+
        signSessionToken token (AuthConfig.SessionSecret (App.AuthConfig a))
        +:+ "." +:+ rest) ->
  isAuthenticated a r = true.
Proof.
  intros Ht Hc. unfold isAuthenticated. destruct (hasAuthConfigured a); [|done].
  cbn [negb]. rewrite Hc. apply verifyCookieValue_true. by exists token, rest.
Qed.

(** X5. A request is authenticated exactly when no authentication method
    is configured, or when its session cookie is a token without dot,
    the signature of that token under the server's secret, and a third
    part, whatever it is.  Nothing else is looked at: not the time, not
    the label, no record of the tokens issued. *)
Theorem isAuthenticated_iff a r :
  isAuthenticated a r = true <->
  hasAuthConfigured a = false \/
  exists token rest,
    free_of "." token = true /\
    http.Cookie_ r sessionCookieName
    = Ok (token +:+ "." +:+
          signSessionToken token (AuthConfig.SessionSecret (App.AuthConfig a))
          +:+ "." +:+ rest).
Proof.
  unfold isAuthenticated. destruct (hasAuthConfigured a); cbn [negb].
  - destruct (http.Cookie_ r sessionCookieName) as [value|e].
    + rewrite verifyCookieValue_true. split.
      * intros (token & rest & Ht & ->). right. by exists token, rest.
      * intros [|(token & rest & Ht & [= ->])]; [done|]. by exists token, rest.
    + split; [done|]. by intros [|(token & rest & _ & ?)].
  - split; [by left|done].
Qed.

(** X6. With an authentication method configured, a request without
    session cookie, or whose cookie has fewer than two dots, does not
    reach the handler behind [requireAuth]: it is redirected to the
    login page with its path as target, and the state is left as it
    was. *)
Theorem requireAuth_redirects {S : Type} a
    (next : http.Request -> S -> http.Response * S) r s :
  hasAuthConfigured a = true ->
  (forall value, http.Cookie_ r sessionCookieName = Ok value ->
                 (count_char "." value < 2)%nat) ->
  isAuthenticated a r = false /\
  requireAuth a next r s =
  (http.respond (http.Redirect ("/login?redirect=" +:+ http.URLPath r)
                   http.StatusSeeOther), s).
Proof.
  intros Hc Hv.
  assert (Hn : isAuthenticated a r = false).
  { unfold isAuthenticated. rewrite Hc. cbn [negb].
    destruct (http.Cookie_ r sessionCookieName) as [value|e]; [|done].
    specialize (Hv value eq_refl). unfold verifyCookieValue. cbn [strings.SplitN].
    pose proof (cut_count value ".") as C1.
    destruct (strings.cut value ".") as [[token after]|]; [|done].
    pose proof (cut_count after ".") as C2.
    destruct (strings.cut after ".") as [[sig rest]|]; [|done]. lia. }
  split; [done|]. unfold requireAuth. by rewrite Hn.
Qed.

(** X7. Password login sets a cookie only when the password of the form
    equals the configured one: then it is one session cookie, which
    [isAuthenticated] accepts.  A form with another password sets no
    cookie and reads no entropy. *)
Theorem password_login_session a r src :
  let resp := (handlePasswordLogin a r src).1 in
  (http.SetCookies resp = [] \/
   exists c,
     http.SetCookies resp = [c] /\
     http.FormValue r "password" = AuthConfig.Password (App.AuthConfig a) /\
     http.Name c = sessionCookieName /\
     forall r', http.Cookie_ r' sessionCookieName = Ok (http.Value c) ->
                isAuthenticated a r' = true) /\
  (http.FormValue r "password" <> AuthConfig.Password (App.AuthConfig a) ->
   http.SetCookies resp = [] /\ (handlePasswordLogin a r src).2 = src).
Proof.
  cbn zeta. unfold handlePasswordLogin.
  destruct (http.Form r) as [vals|e] eqn:EF; [|split; [by left|done]].
  destruct (String.eqb_spec (http.FormValue r "password")
              (AuthConfig.Password (App.AuthConfig a))) as [E|E].
  - split; [|done].
    destruct (setSessionCookie a "password" src) as [[c|e] src'] eqn:ES; [|by left].
    right. exists c. split; [done|]. split; [done|].
    apply setSessionCookie_Ok in ES as (token & Ht & Hv & Hn). split; [done|].
    intros r' Hr'. apply (session_cookie_accepted a r' token "password"); [done|].
    by rewrite Hr', Hv.
  - split; [by left|done].
Qed.

(** X8. The comparison is made also when no password is configured: with
    an identity provider configured and the password left empty, a
    login form without password is given a session. *)
Theorem empty_password_login a r src vals :
  hasAuthConfigured a = true ->
  AuthConfig.Password (App.AuthConfig a) = "" ->
  isAuthenticated a r = false ->
  http.Method r = http.MethodPost ->
  http.Form r = Ok vals ->
  http.Get vals "password" = "" ->
  rand.fails src (rand.calls src) = None ->
  exists c,
    (handleLogin a r src).1 =
    {| http.SetCookies := [c];
       http.reply := http.Redirect (honoured (http.Get vals "redirect"))
                       http.StatusSeeOther |} /\
    forall r', http.Cookie_ r' sessionCookieName = Ok (http.Value c) ->
               isAuthenticated a r' = true.
Proof.
  intros Hc Hp Hn Hm Hf Hpw Hr.
  unfold handleLogin. rewrite Hc, Hn, Hm. cbn [negb]. rewrite String.eqb_refl.
  unfold handlePasswordLogin, http.FormValue. rewrite Hf, Hpw, Hp, String.eqb_refl.
  rewrite passwordRedirect_honoured.
  destruct (setSessionCookie a "password" src) as [[c|e] src'] eqn:ES.
  - exists c. split; [done|].
    apply setSessionCookie_Ok in ES as (token & Ht & Hv & _).
    intros r' Hr'. apply (session_cookie_accepted a r' token "password"); [done|].
    by rewrite Hr', Hv.
  - exfalso. unfold setSessionCookie, generateSessionToken, rand.Read in ES.
    by rewrite Hr in ES.
Qed.

(** ** Delegated identity, again *)

Lemma generateSessionToken_Ok src :
  rand.fails src (rand.calls src) = None ->
  exists token, (generateSessionToken src).1 = Ok token /\
                free_of "." token = true.
Proof.
  intros H. unfold generateSessionToken, rand.Read. rewrite H. cbn [fst].
  eexists. split; [done|]. apply base64_free_of_dot.
Qed.

Lemma setSessionCookie_available a label src :
  rand.fails src (rand.calls src) = None ->
  exists c, (setSessionCookie a label src).1 = Ok c.
Proof.
  intros H. unfold setSessionCookie, generateSessionToken, rand.Read.
  rewrite H. cbn [fst]. by eexists.
Qed.

(** [getOAuthConfig] knows three providers, each only with its client
    id set, and sends the provider back to this server's callback
    path for it. *)
Lemma getOAuthConfig_Some a provider config :
  getOAuthConfig a provider = Some config ->
  (provider = "google" \/ provider = "microsoft" \/ provider = "github") /\
  oauth2.ClientID config <> "" /\
  oauth2.RedirectURL config = App.PublicBaseURL a +:+ "/auth/callback/" +:+ provider.
Proof.
  unfold getOAuthConfig.
  destruct (String.eqb_spec provider "google") as [->|_].
  { destruct (String.eqb_spec (AuthConfig.GoogleClientID (App.AuthConfig a)) "");
      [done|]. intros [= <-]. cbn. auto. }
  destruct (String.eqb_spec provider "microsoft") as [->|_].
  { destruct (String.eqb_spec (AuthConfig.MicrosoftClientID (App.AuthConfig a)) "");
      [done|]. intros [= <-]. cbn. auto. }
  destruct (String.eqb_spec provider "github") as [->|_]; [|done].
  destruct (String.eqb_spec (AuthConfig.GitHubClientID (App.AuthConfig a)) "");
    [done|]. intros [= <-]. cbn. auto.
Qed.

(** X9. The login of a provider sets cookies, reads entropy and redirects
    away only for one of the three providers whose client id is
    configured; then the address it redirects to is the provider's,
    for a configuration whose redirect URL is this server's callback
    for that provider, and the state sent is the value of the state
    cookie.  For any other path the answer is 400, without cookie and
    without entropy read. *)
Theorem oauth_login_known_providers p a r src :
  let provider := strings.TrimPrefix (http.URLPath r) "/auth/login/" in
  let resp := (handleOAuthLogin p a r src).1 in
  (getOAuthConfig a provider = None /\
   handleOAuthLogin p a r src =
   (http.respond (http.Error "OAuth provider not configured"
                    http.StatusBadRequest), src)) \/
  (exists config c1 c2,
     (provider = "google" \/ provider = "microsoft" \/ provider = "github") /\
     getOAuthConfig a provider = Some config /\
     oauth2.ClientID config <> "" /\
     oauth2.RedirectURL config
     = App.PublicBaseURL a +:+ "/auth/callback/" +:+ provider /\
     http.SetCookies resp = [c1; c2] /\
     http.Name c1 = "oauth_redirect" /\ http.Name c2 = "oauth_state" /\
     http.reply resp =
     http.Redirect (oauth2.AuthCodeURL p config (http.Value c2))
       http.StatusTemporaryRedirect).
Proof.
  cbn zeta. unfold handleOAuthLogin.
  destruct (getOAuthConfig a _) as [config|] eqn:EC; [|by left].
  right. apply getOAuthConfig_Some in EC as (Hp & Hid & Hurl).
  destruct (generateSessionToken src) as [res src'].
  eexists config, _, _. by repeat split.
Qed.

(** ** The cookies of the OAuth flow, as [http.SetCookie] writes them *)

Lemma sanitizeCookieValue_valid v :
  all_chars validCookieValueByte v = true -> sanitizeCookieValue v = v.
Proof.
  induction v as [|c v IH]; [done|]. cbn [all_chars sanitizeCookieValue].
  intros [Hc Hv]%andb_true_iff. by rewrite Hc, (IH Hv).
Qed.

Lemma sextet_valid n : validCookieValueByte (base64.sextet n) = true.
Proof.
  unfold base64.sextet.
  assert (H : (N.to_nat (N.land n 63) < 64)%nat).
  { assert (N.land n 63 < 64)%N; [|lia].
    change 63%N with (N.ones 6). rewrite N.land_ones.
    apply N.mod_upper_bound. discriminate. }
  revert H. generalize (N.to_nat (N.land n 63)) as k. intros k H.
  do 64 (destruct k as [|k]; [reflexivity|]). lia.
Qed.

(** A base64 encoding is written as it is. *)
Lemma base64_valid b :
  all_chars validCookieValueByte (base64.EncodeToString b) = true.
Proof.
  assert (H : forall n b, (length b < n)%nat ->
                          all_chars validCookieValueByte (base64.EncodeToString b) = true).
  { clear b. induction n as [|n IH]; intros b Hn; [lia|].
    destruct b as [|x [|y [|z b]]];
      cbn [base64.EncodeToString all_chars]; rewrite ?sextet_valid; try reflexivity.
    cbn [andb]. apply IH. cbn [length] in Hn. lia. }
  apply (H (S (length b))). lia.
Qed.

Lemma generateSessionToken_valid src :
  sanitizeCookieValue
    (match (generateSessionToken src).1 with Ok state => state | Err _ => "" end)
  = match (generateSessionToken src).1 with Ok state => state | Err _ => "" end.
Proof.
  unfold generateSessionToken, rand.Read.
  destruct (rand.fails src (rand.calls src)); [done|]. cbn [fst].
  apply sanitizeCookieValue_valid, base64_valid.
Qed.

(** X10. The two halves of the flow fit: when the browser comes back to the
    callback of the same provider with the two cookies of the login,
    as [http.SetCookie] wrote them, and with the state it was given,
    and the provider exchanges the code for a valid token, the
    callback makes that one exchange, sets a session cookie that
    [isAuthenticated] accepts, clears the two cookies and redirects to
    the validated form of what [http.SetCookie] wrote of the target of
    the login: the bytes that are not valid in a cookie value are
    gone from it before it is validated.  The state is written as it
    is, and so is a target of valid bytes. *)
Theorem oauth_flow_composes p a r1 src1 c1 c2 r2 src2 token :
  let provider := strings.TrimPrefix (http.URLPath r1) "/auth/login/" in
  let code := http.Get (http.URLQuery r2) "code" in
  let target := http.Get (http.URLQuery r1) "redirect" in
  http.SetCookies (handleOAuthLogin p a r1 src1).1 = [c1; c2] ->
  http.URLPath r2 = "/auth/callback/" +:+ provider ->
  http.Cookie_ r2 "oauth_redirect" = Ok (sanitizeCookieValue (http.Value c1)) ->
  http.Cookie_ r2 "oauth_state" = Ok (sanitizeCookieValue (http.Value c2)) ->
  http.Get (http.URLQuery r2) "state" = http.Value c2 ->
  (forall config, getOAuthConfig a provider = Some config ->
                  oauth2.Exchange p config code = Ok token) ->
  oauth2.Valid token = true ->
  rand.fails src2 (rand.calls src2) = None ->
  exists config c,
    getOAuthConfig a provider = Some config /\
    (handleOAuthCallback p a r2 src2).1 =
    {| exchanges := [(config, code)];
       response :=
         {| http.SetCookies := [c; plainCookie "oauth_state" "" (-1) false;
                                   plainCookie "oauth_redirect" "" (-1) false];
            http.reply :=
              http.Redirect
                (honoured (sanitizeCookieValue
                             (if String.eqb target "" then "/" else target)))
                http.StatusSeeOther |} |} /\
    http.Name c = sessionCookieName /\
    (forall r', http.Cookie_ r' sessionCookieName = Ok (http.Value c) ->
                isAuthenticated a r' = true) /\
    sanitizeCookieValue (http.Value c2) = http.Value c2 /\
    (all_chars validCookieValueByte target = true ->
     sanitizeCookieValue (if String.eqb target "" then "/" else target)
     = if String.eqb target "" then "/" else target).
Proof.
  cbn zeta. intros Hl Hpath Hc1 Hc2 Hst Hex Hv Hr.
  unfold handleOAuthLogin in Hl.
  destruct (getOAuthConfig a _) as [config|] eqn:EC; [|done].
  pose proof (generateSessionToken_valid src1) as Hs.
  destruct (generateSessionToken src1) as [res src1'].
  cbn [fst http.SetCookies] in Hl, Hs. injection Hl as <- <-.
  cbn [plainCookie http.Value] in *.
  unfold handleOAuthCallback.
  rewrite Hpath, (TrimPrefix_app "/auth/callback/"), Hc2, Hst, Hs, String.eqb_refl.
  cbn [negb]. rewrite EC, (Hex config eq_refl), Hv. cbn [negb].
  destruct (setSessionCookie_available a
              (strings.TrimPrefix (http.URLPath r1) "/auth/login/") src2 Hr)
    as [c Hc].
  destruct (setSessionCookie a _ src2) as [[c'|e] src2'] eqn:ES;
    cbn [fst] in Hc; [|done]. injection Hc as ->.
  exists config, c. split; [done|]. rewrite Hc1, callbackRedirect_honoured.
  split; [done|].
  apply setSessionCookie_Ok in ES as (tk & Ht & Hval & Hn). split; [done|].
  split; [|split; [done|]].
  - intros r' Hr'. eapply (session_cookie_accepted a r' tk); [done|].
    by rewrite Hr', Hval.
  - intros Ht'. destruct (String.eqb _ ""); [done|].
    by apply sanitizeCookieValue_valid.
Qed.

(** X11. The callback sets cookies only at the end of a complete run: the
    state cookie equal to the state of the query, a known provider,
    one exchange of the code, which the provider answered with a valid
    token.  In every other case nothing is set. *)
Theorem callback_session_only_after_exchange p a r src :
  let provider := strings.TrimPrefix (http.URLPath r) "/auth/callback/" in
  let code := http.Get (http.URLQuery r) "code" in
  let run := (handleOAuthCallback p a r src).1 in
  http.SetCookies (response run) <> [] ->
  exists config token,
    http.Cookie_ r "oauth_state" = Ok (http.Get (http.URLQuery r) "state") /\
    getOAuthConfig a provider = Some config /\
    exchanges run = [(config, code)] /\
    oauth2.Exchange p config code = Ok token /\
    oauth2.Valid token = true.
Proof.
  cbn zeta. unfold handleOAuthCallback.
  destruct (http.Cookie_ r "oauth_state") as [stateCookie|e]; [|done].
  destruct (String.eqb_spec stateCookie (http.Get (http.URLQuery r) "state"))
    as [->|]; [|done]. cbn [negb].
  destruct (getOAuthConfig a _) as [config|]; [|done].
  destruct (oauth2.Exchange p config _) as [token|e] eqn:EX; [|done].
  destruct (oauth2.Valid token) eqn:EV; [|done]. cbn [negb].
  destruct (setSessionCookie a _ src) as [[c|e] src']; [|done].
  intros _. by exists config, token.
Qed.

(** ** Configuration and start-up, again *)

Lemma TrimSpace_empty : strings.TrimSpace "" = "".
Proof. reflexivity. Qed.

(** X12. [firstNonEmpty] gives the first value that is not blank, as it
    was given (not trimmed), and the empty string exactly when every
    value is blank. *)
Theorem firstNonEmpty_first values :
  (firstNonEmpty values = "" /\ Forall blank values) \/
  (exists before v after,
     values = before ++ v :: after /\ Forall blank before /\
     ~ blank v /\ firstNonEmpty values = v /\ v <> "").
Proof.
  induction values as [|v values IH].
  - left. by split.
  - cbn [firstNonEmpty]. unfold nonempty.
    destruct (String.eqb_spec (strings.TrimSpace v) "") as [E|E]; cbn [negb].
    + destruct IH as [[H1 H2]|(before & v' & after & -> & Hb & Hv & Hf & Hne)].
      * left. split; [done|]. by constructor.
      * right. exists (v :: before), v', after. repeat split; try done.
        by constructor.
    + right. exists [], v, values. repeat split; try done.
      intros ->. by apply E.
Qed.

Lemma NewApp_AuthConfig out cfg st :
  NewApp out cfg = Ok st ->
  let c := App.AuthConfig (startedApp st) in
  AuthConfig.Password c = AuthConfig.Password (Config.AuthConfig cfg) /\
  AuthConfig.SessionSecret c = AuthConfig.SessionSecret (Config.AuthConfig cfg) /\
  AuthConfig.GoogleClientID c = AuthConfig.GoogleClientID (Config.AuthConfig cfg) /\
  AuthConfig.MicrosoftClientID c = AuthConfig.MicrosoftClientID (Config.AuthConfig cfg) /\
  AuthConfig.GitHubClientID c = AuthConfig.GitHubClientID (Config.AuthConfig cfg).
Proof.
  unfold NewApp. destruct (loadTemplates _ _ _) as [[tmpl path]|e]; [|done].
  match goal with
  | |- context [if ?c then (match ?g with _ => _ end) else _] =>
      destruct (if c then (match g with Ok id => _ | Err e => _ end) else _) as [dc lg]
  end.
  intros [= <-]. cbn [startedApp].
  by destruct (String.eqb _ "").
Qed.

(** X13. A deployment with neither [SESSION_SECRET] nor [AUTH_PASSWORD],
    one that relies on an identity provider, starts with the empty
    string as signing key, without a warning about it: a cookie made
    of any token and its signature under the empty key is accepted. *)
Theorem empty_secret_without_password env flags out st r token rest :
  Getenv env "SESSION_SECRET" = "" ->
  Getenv env "AUTH_PASSWORD" = "" ->
  NewApp out (LoadConfig env flags).1 = Ok st ->
  free_of "." token = true ->
  http.Cookie_ r sessionCookieName
  = Ok (token +:+ "." +:+ signSessionToken token "" +:+ "." +:+ rest) ->
  (warnSessionSecret ∉ (LoadConfig env flags).2) /\
  AuthConfig.SessionSecret (App.AuthConfig (startedApp st)) = "" /\
  isAuthenticated (startedApp st) r = true.
Proof.
  intros Hs Hp Hst Ht Hc.
  apply NewApp_AuthConfig in Hst as (_ & Hsec & _).
  assert (Hk : AuthConfig.SessionSecret (App.AuthConfig (startedApp st)) = "").
  { rewrite Hsec. unfold LoadConfig.
    cbn [fst Config.AuthConfig AuthConfig.SessionSecret].
    by rewrite Hs, Hp. }
  split; [|split; [done|]].
  - unfold LoadConfig. cbn [snd]. rewrite Hs, Hp. cbn [nonempty String.eqb negb andb].
    rewrite app_nil_r. destruct (_ && _); [|by apply not_elem_of_nil].
    intros H%list_elem_of_singleton. discriminate H.
  - apply (session_cookie_accepted _ r token rest Ht). by rewrite Hk.
Qed.

(** A secret given in [SESSION_SECRET] is the signing key as given,
    whatever the password, and no warning about it is logged. *)
Lemma explicit_session_secret_kept env flags :
  Getenv env "SESSION_SECRET" <> "" ->
  AuthConfig.SessionSecret (Config.AuthConfig (LoadConfig env flags).1)
  = Getenv env "SESSION_SECRET" /\
  (warnSessionSecret ∉ (LoadConfig env flags).2).
Proof.
  intros Hs. unfold LoadConfig.
  cbn [fst snd Config.AuthConfig AuthConfig.SessionSecret].
  destruct (String.eqb_spec (Getenv env "SESSION_SECRET") "") as [|_]; [done|].
  cbn [andb]. split; [done|]. rewrite app_nil_r.
  destruct (_ && _); [|by apply not_elem_of_nil].
  intros H%list_elem_of_singleton. discriminate H.
Qed.

(** X14. [NewApp] fails exactly when none of the three template patterns
    parses, with the error of the last pattern; otherwise the
    application it gives has the templates of the first pattern that
    parses, no stored file, and a public base URL and an
    authentication base URL that are not empty. *)
Theorem NewApp_outcome out cfg :
  match NewApp out cfg with
  | Err e =>
      exists e1 e2 e3,
        ParseGlob out "web/templates/*.html" = Err e1 /\
        ParseGlob out "app/web/templates/*.html" = Err e2 /\
        ParseGlob out "../web/templates/*.html" = Err e3 /\
        e = wrap "failed to parse templates from any location" e3
  | Ok st =>
      let a := startedApp st in
      (exists before path after,
         templatePaths = before ++ path :: after /\
         Forall (fun p => exists e, ParseGlob out p = Err e) before /\
         ParseGlob out path = Ok (App.Tmpl a)) /\
      App.uploadedFiles a = ∅ /\
      App.PublicBaseURL a <> "" /\
      AuthConfig.BaseURL (App.AuthConfig a) <> ""
  end.
Proof.
  assert (Hpub : forall (b : bool) (pub base port : string),
            (if b then if nonempty pub then pub
                       else if String.eqb base "" then "http://localhost:" +:+ port
                            else base
             else if String.eqb base "" then "http://localhost:" +:+ port else base)
            <> "").
  { intros b pub base port. unfold nonempty.
    destruct b; [destruct (String.eqb_spec pub ""); cbn [negb]; [|done]|];
      by destruct (String.eqb_spec base ""). }
  unfold NewApp, templatePaths. cbn [loadTemplates].
  destruct (ParseGlob out "web/templates/*.html") as [t1|e1] eqn:E1;
    [|destruct (ParseGlob out "app/web/templates/*.html") as [t2|e2] eqn:E2;
      [|destruct (ParseGlob out "../web/templates/*.html") as [t3|e3] eqn:E3]].
  4: by exists e1, e2, e3.
  all: match goal with
       | |- context [if ?c then (match ?g with _ => _ end) else _] =>
           destruct (if c then (match g with Ok id => _ | Err e => _ end) else _)
             as [dc lg]
       end.
  all: cbn [startedApp App.AuthConfig AuthConfig.BaseURL].
  all: destruct (String.eqb_spec (AuthConfig.BaseURL (Config.AuthConfig cfg)) "")
         as [Eb|Eb].
  all: cbn [App.with_AuthConfig App.Tmpl App.uploadedFiles App.PublicBaseURL
            App.AuthConfig AuthConfig.with_BaseURL AuthConfig.BaseURL].
  all: split; [|split; [done|split; [apply Hpub|first [apply Hpub|done]]]].
  1,2: exists [], "web/templates/*.html",
         ["app/web/templates/*.html"; "../web/templates/*.html"]; by repeat split.
  1,2: exists ["web/templates/*.html"], "app/web/templates/*.html",
         ["../web/templates/*.html"];
       repeat split; [|done]; constructor; [by exists e1|constructor].
  all: exists ["web/templates/*.html"; "app/web/templates/*.html"],
         "../web/templates/*.html", [];
       repeat split; [|done];
       constructor; [by exists e1|constructor; [by exists e2|constructor]].
Qed.

(** ** The disk backend *)

(** X15. [trimTrailingSlash] removes the slashes at the end of its
    argument, all of them and nothing else. *)
Theorem trimTrailingSlash_spec s :
  ends_with_slash (trimTrailingSlash s) = false /\
  exists n, s = trimTrailingSlash s +:+ slashes n.
Proof.
  induction s as [|c s [IH1 [n IH2]]]; [by split; [|exists 0%nat]|].
  cbn [trimTrailingSlash].
  destruct (trimTrailingSlash s) as [|d t] eqn:E.
  - change ("" +:+ slashes n) with (slashes n) in IH2. subst s.
    destruct (Ascii.eqb_spec c "/") as [->|Hc].
    + split; [done|]. by exists (S n).
    + split; [|by exists n]. cbn. by destruct (Ascii.eqb_spec c "/").
  - split; [exact IH1|]. exists n. by rewrite append_cons, <- IH2.
Qed.

Lemma space_width_graphic b l :
  is_graphic (ascii_of_byte b) = true -> strings.space_width (b :: l) = 0%nat.
Proof. destruct b; try discriminate; reflexivity. Qed.

Lemma space_width_rev_graphic b l :
  is_graphic (ascii_of_byte b) = true -> strings.space_width_rev (b :: l) = 0%nat.
Proof. destruct b; try discriminate; reflexivity. Qed.

Lemma graphic_bytes s :
  all_chars is_graphic s = true ->
  Forall (fun b => is_graphic (ascii_of_byte b) = true) (list_byte_of_string s).
Proof.
  induction s as [|c s IH]; simpl; intros H; [constructor|].
  apply andb_true_iff in H as [Hc Hs].
  constructor; [|by apply IH]. by rewrite ascii_of_byte_of_ascii.
Qed.

Lemma TrimSpace_graphic s :
  all_chars is_graphic s = true -> strings.TrimSpace s = s.
Proof.
  intros H. apply graphic_bytes in H. unfold strings.TrimSpace.
  assert (HL : strings.TrimLeftSpace (list_byte_of_string s) = list_byte_of_string s).
  { unfold strings.TrimLeftSpace. apply trim_while_stop.
    destruct H; [done|]. by apply space_width_graphic. }
  rewrite HL. unfold strings.TrimRightSpace.
  rewrite trim_while_stop.
  - rewrite rev_involutive. apply string_of_list_byte_of_string.
  - apply Forall_rev in H. destruct H; [done|]. by apply space_width_rev_graphic.
Qed.

Lemma all_chars_app P s t :
  all_chars P (s +:+ t) = all_chars P s && all_chars P t.
Proof.
  induction s as [|c s IH]; [done|].
  rewrite append_cons. cbn [all_chars]. by rewrite IH, andb_assoc.
Qed.

Lemma all_chars_impl (P Q : ascii -> bool) s :
  (forall c, P c = true -> Q c = true) ->
  all_chars P s = true -> all_chars Q s = true.
Proof.
  intros HPQ. induction s as [|c s IH]; [done|]. cbn [all_chars].
  intros [Hc Hs]%andb_true_iff. by rewrite (HPQ c Hc), IH.
Qed.

Lemma hex_graphic c : is_hex_digit c = true -> is_graphic c = true.
Proof.
  unfold is_hex_digit, is_graphic. cbn zeta. intros H.
  apply orb_true_iff in H as [H|H]; apply andb_true_iff in H as [H1 H2];
    apply Nat.leb_le in H1, H2; apply andb_true_iff; split; apply Nat.leb_le; lia.
Qed.

Lemma hex_not_sep c : is_hex_digit c = true -> Ascii.eqb c "/" = false.
Proof. destruct (Ascii.eqb_spec c "/") as [->|]; [done|done]. Qed.

Lemma has_separator_app s t :
  filepath.has_separator (s +:+ t)
  = filepath.has_separator s || filepath.has_separator t.
Proof.
  induction s as [|c s IH]; [done|].
  rewrite append_cons. cbn [filepath.has_separator]. by rewrite IH, orb_assoc.
Qed.

Lemma hex_sep_free s : all_chars is_hex_digit s = true -> sep_free s = true.
Proof.
  unfold sep_free. induction s as [|c s IH]; [done|]. cbn [all_chars filepath.has_separator].
  intros [Hc Hs]%andb_true_iff. unfold filepath.Separator. rewrite (hex_not_sep c Hc).
  by apply IH.
Qed.

(** The extension [filepath.Ext] gives has no separator: it is cut
    from the last element of the path. *)
Lemma Ext_sep_free path : sep_free (filepath.Ext path) = true.
Proof.
  unfold sep_free. induction path as [|c path IH]; [done|].
  cbn [filepath.Ext]. destruct (filepath.Ext path) as [|d e] eqn:E; [|exact IH].
  destruct (filepath.has_separator path) eqn:Hs; [done|].
  destruct (Ascii.eqb_spec c ".") as [->|]; [|done].
  cbn [filepath.has_separator]. by rewrite Hs.
Qed.

Lemma diskExt_sep_free fh : sep_free (diskExt fh) = true.
Proof.
  unfold diskExt. destruct (String.eqb (filepath.Ext _) "") eqn:E.
  - destruct (String.eqb _ "application/pdf"); [done|].
    destruct (String.eqb _ "image/tiff"); [done|]. apply Ext_sep_free.
  - apply Ext_sep_free.
Qed.

(** The name the disk store gives a file is one path element. *)
Lemma stored_name token ext :
  is_token token = true -> sep_free ext = true ->
  is_name (token +:+ ext) = true /\ sep_free (token +:+ ext) = true.
Proof.
  intros Ht He. unfold is_token in Ht. apply andb_true_iff in Ht as [Hl Hd].
  split.
  - destruct token as [|c token]; [done|]. rewrite append_cons.
    cbn [all_chars] in Hd. apply andb_true_iff in Hd as [Hc _].
    unfold is_name. cbn [String.eqb].
    destruct (Ascii.eqb_spec c ".") as [->|_]; [done|]. done.
  - unfold sep_free in *. rewrite has_separator_app.
    apply hex_sep_free in Hd. unfold sep_free in Hd.
    apply negb_true_iff in Hd, He. by rewrite Hd, He.
Qed.

Lemma elements_nonempty path : filepath.elements path <> [].
Proof.
  destruct path as [|c path]; [done|]. cbn [filepath.elements].
  destruct (Ascii.eqb c filepath.Separator); [done|].
  by destruct (filepath.elements path).
Qed.

Lemma elements_app a b :
  filepath.elements (a +:+ String "/" b) = filepath.elements a ++ filepath.elements b.
Proof.
  induction a as [|c a IH]; [done|].
  rewrite append_cons. cbn [filepath.elements]. rewrite IH.
  destruct (Ascii.eqb c filepath.Separator); [done|].
  pose proof (elements_nonempty a) as Hn.
  by destruct (filepath.elements a).
Qed.

Lemma clean_elements_app rooted l1 l2 :
  forall out,
    filepath.clean_elements rooted out (l1 ++ l2)
    = filepath.clean_elements rooted (filepath.clean_elements rooted out l1) l2.
Proof.
  induction l1 as [|e l1 IH]; intros out; [done|].
  cbn [app filepath.clean_elements].
  destruct (String.eqb e "" || String.eqb e "."); [apply IH|].
  destruct (String.eqb e "..").
  - destruct out as [|top out']; [destruct rooted; apply IH|].
    destruct (String.eqb top ".."); apply IH.
  - apply IH.
Qed.

Lemma clean_elements_name rooted out e :
  is_name e = true -> filepath.clean_elements rooted out [e] = e :: out.
Proof.
  unfold is_name. intros H. cbn [filepath.clean_elements].
  destruct (String.eqb e ""); [done|]. destruct (String.eqb e "."); [done|].
  by destruct (String.eqb e "..").
Qed.

Lemma name_not_rooted e :
  is_name e = true -> sep_free e = true -> strings.HasPrefix e "/" = false.
Proof.
  intros Hn Hs. destruct e as [|c e]; [done|].
  apply sep_free_cons in Hs as [Hc _]. rewrite HasPrefix_cons.
  by destruct (Ascii.eqb_spec c "/").
Qed.

Lemma Clean_name e :
  is_name e = true -> sep_free e = true -> filepath.Clean e = e.
Proof.
  intros Hn Hs. rewrite Clean_cleaned, (name_not_rooted e Hn Hs).
  unfold cleaned. rewrite (name_not_rooted e Hn Hs), (elements_single e Hs).
  rewrite clean_elements_name by done. cbn [rev app String.concat].
  destruct (String.eqb_spec e "") as [->|]; [done|done].
Qed.

(** The path of a name joined to a directory: its cleaned elements
    are those of the directory, then the name. *)
Lemma Join_name d e :
  d <> "" -> is_name e = true -> sep_free e = true ->
  filepath.Join [d; e] = filepath.Clean (d +:+ "/" +:+ e) /\
  strings.HasPrefix (d +:+ "/" +:+ e) "/" = strings.HasPrefix d "/" /\
  cleaned (d +:+ "/" +:+ e) = cleaned d ++ [e].
Proof.
  intros Hd Hn Hs. split; [|split].
  - cbn [filepath.Join]. by destruct (String.eqb_spec d "").
  - by apply rooted_join.
  - unfold cleaned. rewrite (rooted_join d e Hd).
    change (d +:+ "/" +:+ e) with (d +:+ String "/" e).
    rewrite elements_app, (elements_single e Hs), clean_elements_app.
    by rewrite clean_elements_name.
Qed.

Lemma concat_snoc L x :
  L <> [] -> String.concat "/" (L ++ [x]) = String.concat "/" L +:+ "/" +:+ x.
Proof.
  destruct L as [|y L]; [done|]. intros _. revert y.
  induction L as [|z L IH]; intros y; [done|].
  change (String.concat "/" ((y :: z :: L) ++ [x]))
    with (y +:+ "/" +:+ String.concat "/" ((z :: L) ++ [x])).
  change (String.concat "/" (y :: z :: L))
    with (y +:+ "/" +:+ String.concat "/" (z :: L)).
  by rewrite IH, !append_assoc_string.
Qed.

(** The prefix test of [handleMediaServe] on a name in the upload
    directory: it holds, unless the cleaned directory is [.] or the
    root. *)
Lemma check_name d e :
  d <> "" -> is_name e = true -> sep_free e = true ->
  strings.HasPrefix (filepath.Join [d; e]) (filepath.Clean d +:+ "/")
  = match cleaned d with [] => false | _ => true end.
Proof.
  intros Hd Hn Hs. destruct (Join_name d e Hd Hn Hs) as (-> & Hr & Hc).
  rewrite !Clean_cleaned, Hr, Hc.
  pose proof (cleaned_elements d) as Ed.
  destruct (cleaned d) as [|x L] eqn:EL.
  - cbn [app String.concat]. destruct (strings.HasPrefix d "/").
    + change ("/" +:+ e) with (String "/" e).
      change (("/" +:+ "") +:+ "/") with (String "/" (String "/" "")).
      rewrite HasPrefix_cons, Ascii.eqb_refl.
      pose proof (name_not_rooted e Hn Hs) as N. by rewrite N.
    + destruct (String.eqb_spec e "") as [->|_]; [done|].
      cbn [String.eqb].
      change ("." +:+ "/") with (String "." (String "/" "")).
      destruct e as [|c e]; [done|]. rewrite HasPrefix_cons.
      destruct (Ascii.eqb c "."); [|done].
      apply sep_free_cons in Hs as [_ Hs].
      destruct e as [|c' e]; [done|]. apply sep_free_cons in Hs as [Hc' _].
      rewrite HasPrefix_cons. by destruct (Ascii.eqb_spec c' "/").
  - rewrite concat_snoc by done.
    assert (Hne : String.concat "/" (x :: L) <> "") by by apply concat_nonempty.
    destruct (strings.HasPrefix d "/").
    + rewrite <- !append_assoc_string. rewrite append_assoc_string.
      rewrite <- (append_assoc_string ("/" +:+ String.concat "/" (x :: L)) "/" e).
      apply HasPrefix_app.
    + destruct (String.eqb_spec (String.concat "/" (x :: L) +:+ "/" +:+ e) "") as [E|_].
      { destruct (String.concat "/" (x :: L)); [done|discriminate E]. }
      destruct (String.eqb_spec (String.concat "/" (x :: L)) "") as [E|_]; [done|].
      rewrite <- (append_assoc_string (String.concat "/" (x :: L)) "/" e).
      apply HasPrefix_app.
Qed.

(** Where the joined path leads: to the name, in the directory. *)
Lemma resolve_Join_name cwd d e :
  d <> "" -> is_name e = true -> sep_free e = true ->
  resolve cwd (filepath.Join [d; e]) = resolve cwd d ++ [e].
Proof.
  intros Hd Hn Hs. destruct (Join_name d e Hd Hn Hs) as (-> & Hr & Hc).
  rewrite resolve_Clean, (resolve_cleaned cwd (d +:+ "/" +:+ e)), Hr, Hc.
  rewrite walk_app, (resolve_cleaned cwd d).
  cbn [walk]. unfold is_name in Hn.
  destruct (String.eqb e ""); [done|]. destruct (String.eqb e "."); [done|].
  destruct (String.eqb e ".."); [done|]. by cbn.
Qed.

(** What a run of [storeFileToDisk] that reached the copy did. *)
Lemma storeFileToDisk_outcome a w file fh res a' w' :
  storeFileToDisk a w file fh = (res, a', w') ->
  a' = a /\
  (os.files (disk w') = os.files (disk w) /\ (exists e, res = Err e) \/
   exists token,
     is_token token = true /\
     os.files (disk w')
     = <[filepath.Join [App.UploadDir a; token +:+ diskExt fh] :=
           match res with Ok _ => multipart.content file
                     | Err _ => match os.write_err (disk w) with
                               | Some _ => []
                               | None => multipart.content file
                               end
           end]> (os.files (disk w)) /\
     match res with
     | Ok url =>
         url = trimTrailingSlash (App.PublicBaseURL a) +:+ "/media/"
               +:+ token +:+ diskExt fh /\
         multipart.read_err file = None
     | Err _ => True
     end).
Proof.
  unfold storeFileToDisk, os.MkdirAll, os.Create, os.Write.
  destruct (os.mkdir_err (disk w)) as [e|] eqn:EM.
  { intros [= <- <- <-]. split; [done|]. left. split; [done|]. by eexists. }
  cbn [with_disk with_entropy entropy disk os.files os.create_err os.write_err].
  destruct (generateSecureToken 32 (entropy w)) as [[token|e] src'] eqn:EG.
  2: { intros [= <- <- <-]. split; [done|]. left. split; [done|]. by eexists. }
  apply generateSecureToken_is_token in EG.
  destruct (os.create_err (disk w)) as [e|] eqn:EC.
  { intros [= <- <- <-]. split; [done|]. left. split; [done|]. by eexists. }
  cbn [with_disk with_entropy entropy disk os.files os.create_err os.write_err].
  destruct (os.write_err (disk w)) as [e|] eqn:EW.
  { intros [= <- <- <-]. split; [done|]. right. exists token. by repeat split. }
  cbn [os.files]. rewrite lookup_insert_eq. cbn [default app].
  rewrite insert_insert_eq.
  destruct (multipart.read_err file) as [e|] eqn:ER.
  - intros [= <- <- <-]. split; [done|]. right. exists token. by repeat split.
  - intros [= <- <- <-]. split; [done|]. right. exists token. by repeat split.
Qed.

(** X16. A part uploaded to the disk backend comes back, when its
    extension is made of printable characters: the file written is
    named after the URL returned, holds the bytes of the part, and a
    GET of the path of that URL is answered from that very file --
    unless the upload directory cleans to [.] or to the root, where
    the prefix test of [handleMediaServe] never holds and what was
    stored is not found. *)
Theorem disk_upload_then_serve a w r fh file url a' w' :
  memoryMode a = false ->
  uploadedPart r = Some fh -> multipart.Open fh = Ok file ->
  all_chars is_graphic (diskExt fh) = true ->
  handleFileUpload a w r = (Ok url, a', w') ->
  exists name,
    url = trimTrailingSlash (App.PublicBaseURL a) +:+ "/media/" +:+ name /\
    a' = a /\
    os.files (disk w') !! filepath.Join [App.UploadDir a; name]
    = Some (multipart.content file) /\
    forall t rq,
      http.Method rq = http.MethodGet ->
      http.URLPath rq = "/media/" +:+ name ->
      handleMediaServe a' t rq =
      (match cleaned (App.UploadDir a) with
       | [] => http.NotFound
       | _ => http.ServeFile (filepath.Join [App.UploadDir a; name])
       end, a').
Proof.
  intros Hm Hp Ho Hg H.
  pose proof (handleFileUpload_cases a w r) as C. rewrite Hp, Ho, Hm in C.
  rewrite C in H. apply storeFileToDisk_outcome in H as [-> [[_ [e He]]|Hw]]; [done|].
  destruct Hw as (token & Ht & Hf & -> & Hr).
  exists (token +:+ diskExt fh). split; [done|]. split; [done|].
  split; [by rewrite Hf, lookup_insert_eq|].
  intros t rq HG HP.
  destruct (stored_name token (diskExt fh) Ht (diskExt_sep_free fh)) as [Hn Hs].
  destruct (memoryMode_false a Hm) as [Hh Hd].
  assert (Htok : mediaToken rq = token +:+ diskExt fh).
  { unfold mediaToken. rewrite HP, TrimPrefix_app. apply TrimSpace_graphic.
    rewrite all_chars_app, Hg, andb_true_r.
    unfold is_token in Ht. apply andb_true_iff in Ht as [_ Ht].
    by apply (all_chars_impl is_hex_digit is_graphic _ hex_graphic). }
  unfold handleMediaServe. rewrite HG, Htok, Hh. cbn [negb String.eqb Ascii.eqb].
  change (String.eqb http.MethodGet http.MethodGet) with true. cbn [negb].
  destruct (String.eqb_spec (token +:+ diskExt fh) "") as [E|_].
  { by rewrite E in Hn. }
  unfold nonempty. destruct (String.eqb_spec (App.UploadDir a) "") as [|_]; [done|].
  cbn [negb andb]. unfold filepath.Separator.
  rewrite (Clean_name _ Hn Hs), (check_name _ _ Hd Hn Hs).
  by destruct (cleaned (App.UploadDir a)).
Qed.

(** X18. A part whose reading fails is answered with an error by both
    backends.  The memory backend keeps nothing of it; the disk
    backend has created the file by then and leaves it, with what was
    read, in the upload directory. *)
Theorem failed_copy_leaves_file a w file fh e :
  multipart.read_err file = Some e ->
  os.mkdir_err (disk w) = None -> os.create_err (disk w) = None ->
  os.write_err (disk w) = None ->
  rand.fails (entropy w) (rand.calls (entropy w)) = None ->
  storeFileInMemory a w file fh
  = (Err (wrap "failed to buffer uploaded file" e), a, w) /\
  (storeFileToDisk a w file fh).1
  = (Err (wrap "failed to save uploaded file" e), a) /\
  exists token,
    is_token token = true /\
    os.files (disk (storeFileToDisk a w file fh).2)
    !! filepath.Join [App.UploadDir a; token +:+ diskExt fh]
    = Some (multipart.content file).
Proof.
  intros Hr Hm Hc Hw He. split.
  { unfold storeFileInMemory. by rewrite Hr. }
  unfold storeFileToDisk, os.MkdirAll. rewrite Hm.
  cbn [with_disk entropy disk].
  destruct (generateSecureToken 32 (entropy w)) as [[token|e'] src'] eqn:EG.
  2: { unfold generateSecureToken, rand.Read in EG. by rewrite He in EG. }
  apply generateSecureToken_is_token in EG.
  unfold os.Create. cbn [with_entropy with_disk disk os.create_err]. rewrite Hc.
  unfold os.Write. cbn [os.write_err os.files]. rewrite Hw, Hr.
  split; [done|]. exists token. split; [done|].
  cbn [snd disk with_disk os.files].
  by rewrite lookup_insert_eq, lookup_insert_eq.
Qed.

(** ** White space *)

Lemma space_width_length s : (strings.space_width s <= length s)%nat.
Proof.
  destruct s as [|b1 [|b2 [|b3 s]]]; [done| | |].
  - destruct b1; cbn; lia.
  - destruct b1; try (cbn; lia); destruct b2; cbn; lia.
  - destruct b1; try (cbn; lia); destruct b2; try (cbn; lia);
      destruct b3; cbn; lia.
Qed.

Lemma space_width_rev_length s : (strings.space_width_rev s <= length s)%nat.
Proof.
  destruct s as [|b1 [|b2 [|b3 s]]]; [done| | |].
  - destruct b1; cbn; lia.
  - destruct b1; try (cbn; lia); destruct b2; cbn; lia.
  - destruct b1; try (cbn; lia); destruct b2; try (cbn; lia);
      destruct b3; cbn; lia.
Qed.

(** A white-space rune at the head of a prefix is at the head of the
    whole. *)
Lemma space_width_prefix p q :
  strings.space_width (p ++ q) = 0%nat -> strings.space_width p = 0%nat.
Proof.
  destruct p as [|b1 [|b2 [|b3 p]]]; [done| | |]; cbn [app].
  - destruct b1; try done.
  - destruct b1; try done; destruct b2; try done.
  - destruct b1; try done; destruct b2; try done; destruct b3; try done.
Qed.

(** With fuel for every byte, [trim_while] stops at a string that
    does not begin with a rune [width] recognises, a suffix of the
    one it started from. *)
Lemma trim_while_done width :
  (forall s, (width s <= length s)%nat) ->
  forall fuel s, (length s <= fuel)%nat ->
    width (strings.trim_while width fuel s) = 0%nat /\
    exists k, strings.trim_while width fuel s = drop k s.
Proof.
  intros Hw. induction fuel as [|fuel IH]; intros s Hl.
  - destruct s; [|cbn in Hl; lia]. cbn. split; [|by exists 0%nat].
    pose proof (Hw []) as H. cbn in H. lia.
  - cbn [strings.trim_while]. destruct (width s) as [|n] eqn:E.
    + split; [done|]. by exists 0%nat.
    + pose proof (Hw s) as H. rewrite E in H.
      destruct (IH (drop (S n) s)) as [H1 [k H2]].
      { rewrite length_drop. lia. }
      split; [done|]. exists (k + S n)%nat. by rewrite H2, drop_drop, Nat.add_comm.
Qed.

Lemma TrimLeftSpace_done s :
  strings.space_width (strings.TrimLeftSpace s) = 0%nat.
Proof.
  unfold strings.TrimLeftSpace.
  by destruct (trim_while_done _ space_width_length (length s) s).
Qed.

Lemma TrimRightSpace_done s :
  strings.space_width_rev (rev (strings.TrimRightSpace s)) = 0%nat /\
  exists k, strings.TrimRightSpace s = take k s.
Proof.
  unfold strings.TrimRightSpace. rewrite rev_involutive.
  destruct (trim_while_done _ space_width_rev_length (length s) (rev s)) as [H [k E]].
  { by rewrite length_rev. }
  split; [done|]. rewrite E. exists (length s - k)%nat.
  change (drop k (rev s)) with (skipn k (rev s)).
  by rewrite skipn_rev, rev_involutive.
Qed.

(** The bytes of a trimmed string are not trimmed further. *)
Lemma trimmed_bytes s :
  let t := strings.TrimRightSpace (strings.TrimLeftSpace s) in
  strings.TrimRightSpace (strings.TrimLeftSpace t) = t.
Proof.
  cbn zeta. set (l := strings.TrimLeftSpace s).
  destruct (TrimRightSpace_done l) as [Hr [k Hk]].
  assert (Hl : strings.space_width (strings.TrimRightSpace l) = 0%nat).
  { rewrite Hk. apply (space_width_prefix _ (drop k l)).
    rewrite take_drop. apply TrimLeftSpace_done. }
  assert (E : strings.TrimLeftSpace (strings.TrimRightSpace l) = strings.TrimRightSpace l).
  { unfold strings.TrimLeftSpace at 1. by apply trim_while_stop. }
  rewrite E. unfold strings.TrimRightSpace at 1.
  rewrite trim_while_stop by done. apply rev_involutive.
Qed.

(** [strings.TrimSpace] is idempotent. *)
Lemma TrimSpace_idempotent s :
  strings.TrimSpace (strings.TrimSpace s) = strings.TrimSpace s.
Proof.
  unfold strings.TrimSpace. rewrite list_byte_of_string_of_list_byte.
  by rewrite trimmed_bytes.
Qed.

(** ** Phone numbers *)

Lemma digitsOf_digits s : all_chars strconv.is_digit (digitsOf s) = true.
Proof.
  induction s as [|c s IH]; [done|]. cbn [digitsOf].
  destruct (strconv.is_digit c) eqn:E; [|done]. cbn [all_chars]. by rewrite E.
Qed.

Lemma digitsOf_id s : all_chars strconv.is_digit s = true -> digitsOf s = s.
Proof.
  induction s as [|c s IH]; [done|]. cbn [all_chars digitsOf].
  intros [Hc Hs]%andb_true_iff. by rewrite Hc, IH.
Qed.

Lemma digit_graphic c : strconv.is_digit c = true -> is_graphic c = true.
Proof.
  unfold strconv.is_digit, is_graphic. cbn zeta.
  intros [H1 H2]%andb_true_iff. apply Nat.leb_le in H1, H2.
  apply andb_true_iff; split; apply Nat.leb_le; lia.
Qed.

(** A number in the form [normalizePhoneNumber] gives, a plus sign and
    digits, is given back as it is. *)
Lemma normalizePhoneNumber_plus ds :
  all_chars strconv.is_digit ds = true -> ds <> "" ->
  normalizePhoneNumber (String "+" ds) = String "+" ds.
Proof.
  intros Hd Hne. unfold normalizePhoneNumber.
  rewrite TrimSpace_graphic.
  2: { cbn [all_chars]. apply andb_true_iff. split; [done|].
       by apply (all_chars_impl strconv.is_digit is_graphic _ digit_graphic). }
  cbn [String.eqb]. change (lowerHasSIP (String "+" ds)) with false. cbv iota.
  rewrite HasPrefix_cons, HasPrefix_nil. change (Ascii.eqb "+" "+") with true.
  cbv iota. change (digitsOf (String "+" ds)) with (digitsOf ds).
  rewrite (digitsOf_id ds Hd). cbn [andb].
  destruct (10 <=? String.length ds)%nat eqn:E10; [done|].
  apply Nat.leb_gt in E10.
  destruct (Nat.eqb_spec (String.length ds) 10); [lia|].
  destruct (Nat.eqb_spec (String.length ds) 11); [lia|].
  destruct (Nat.leb_spec 12 (String.length ds)); [lia|]. cbn [andb].
  destruct ds; [done|]. done.
Qed.

(** The forms of what [normalizePhoneNumber] gives. *)
Lemma normalizePhoneNumber_forms phone :
  let p := strings.TrimSpace phone in
  normalizePhoneNumber phone = "" \/
  (normalizePhoneNumber phone = p /\ p <> "" /\
   (lowerHasSIP p = true \/ lowerHasSIP p = false /\ digitsOf p = "")) \/
  (exists ds, ds <> "" /\ all_chars strconv.is_digit ds = true /\
              normalizePhoneNumber phone = String "+" ds).
Proof.
  cbn zeta. unfold normalizePhoneNumber.
  destruct (String.eqb_spec (strings.TrimSpace phone) "") as [E|E]; [by left|].
  set (p := strings.TrimSpace phone) in *.
  destruct (lowerHasSIP p) eqn:ES; [right; left; by repeat split; try left|].
  pose proof (digitsOf_digits p) as Hd.
  destruct (digitsOf p) as [|d ds] eqn:ED.
  { right. left. cbn. rewrite andb_false_r. repeat split; try done. by right. }
  right. right.
  assert (H1 : all_chars strconv.is_digit (String "1" (String d ds)) = true).
  { change (strconv.is_digit "1" && all_chars strconv.is_digit (String d ds) = true).
    by rewrite Hd. }
  destruct (_ && _); [by exists (String d ds)|].
  destruct (_ =? 10)%nat; [by exists (String "1" (String d ds))|].
  destruct (_ =? 11)%nat.
  { destruct (strings.HasPrefix _ "1");
      [by exists (String d ds)|by exists (String "1" (String d ds))]. }
  destruct (_ && _); [by exists (String d ds)|].
  by exists (String d ds).
Qed.

(** X19. What [normalizePhoneNumber] gives: nothing exactly for a blank
    argument; an address that begins with [sip:], in any case, as it
    is but for the white space around it; for any other argument with
    a digit, a plus sign and digits only -- those of the argument,
    after a [1] when there are ten of them, or eleven that do not
    begin with [1], and no plus sign with ten digits or more comes
    first; an argument without digit as it is, trimmed. *)
Theorem normalizePhoneNumber_e164 phone :
  let p := strings.TrimSpace phone in
  let ds := digitsOf p in
  let n := String.length ds in
  (normalizePhoneNumber phone = "" <-> blank phone) /\
  (lowerHasSIP p = true -> normalizePhoneNumber phone = p) /\
  (lowerHasSIP p = false -> ds = "" -> normalizePhoneNumber phone = p) /\
  (lowerHasSIP p = false -> ds <> "" ->
   all_chars strconv.is_digit ds = true /\
   normalizePhoneNumber phone =
   if negb (strings.HasPrefix p "+" && (10 <=? n)%nat)
      && ((n =? 10)%nat || (n =? 11)%nat && negb (strings.HasPrefix ds "1"))
   then "+1" +:+ ds else "+" +:+ ds).
Proof.
  cbn zeta. unfold blank, normalizePhoneNumber.
  destruct (String.eqb_spec (strings.TrimSpace phone) "") as [E|E].
  { rewrite E. by repeat split. }
  set (p := strings.TrimSpace phone) in *.
  destruct (lowerHasSIP p) eqn:ES.
  { split; [split; [done|by intros ?]|]. by repeat split. }
  split; [|split; [done|split]].
  - split; [|done]. intros H. exfalso. revert H.
    destruct (_ && _); [done|]. destruct (_ =? 10)%nat; [done|].
    destruct (_ =? 11)%nat; [by destruct (strings.HasPrefix _ "1")|].
    destruct (_ && _); [done|]. by destruct (0 <? _)%nat.
  - intros _ ->. cbn. by rewrite andb_false_r.
  - intros _ Hd. split; [apply digitsOf_digits|].
    destruct (strings.HasPrefix p "+" && (10 <=? String.length (digitsOf p))%nat);
      [done|]. cbn [negb andb].
    destruct (String.length (digitsOf p) =? 10)%nat; [done|]. cbn [orb].
    destruct (String.length (digitsOf p) =? 11)%nat.
    + by destruct (strings.HasPrefix (digitsOf p) "1").
    + cbn [andb]. destruct (_ && _); [done|].
      destruct (digitsOf p); [done|]. done.
Qed.

(** X20. Normalising a number that was normalised changes nothing. *)
Theorem normalizePhoneNumber_idempotent phone :
  normalizePhoneNumber (normalizePhoneNumber phone) = normalizePhoneNumber phone.
Proof.
  destruct (normalizePhoneNumber_forms phone)
    as [->|[(-> & Hne & Hp)|(ds & Hne & Hd & ->)]]; [done| |].
  - unfold normalizePhoneNumber. rewrite TrimSpace_idempotent.
    set (p := strings.TrimSpace phone) in *.
    destruct (String.eqb_spec p ""); [done|].
    destruct Hp as [->|[-> ->]]; [done|]. cbn. by rewrite andb_false_r.
  - by apply normalizePhoneNumber_plus.
Qed.

(** ** The fax handlers *)

Lemma FormValue_withoutMultipart r key :
  http.FormValue (withoutMultipart r) key = http.FormValue r key.
Proof. reflexivity. Qed.

Lemma normalizePhoneNumber_blank phone :
  blank phone -> normalizePhoneNumber phone = "".
Proof. intros H. unfold normalizePhoneNumber. unfold blank in H. by rewrite H. Qed.

Lemma with_disk_same w : with_disk w (disk w) = w.
Proof. by destruct w. Qed.

(** What the parse of a multipart form leaves of the file system: all
    of it but, at most, the temporary file. *)
Lemma ParseMultipartForm_frame maxMemory tmp r fs res fs' :
  ParseMultipartForm maxMemory tmp r fs = (res, fs') ->
  os.dirs fs' = os.dirs fs /\
  os.mkdir_err fs' = os.mkdir_err fs /\
  os.create_err fs' = os.create_err fs /\
  os.write_err fs' = os.write_err fs /\
  (forall path, path <> tmp -> os.files fs' !! path = os.files fs !! path) /\
  (spooled maxMemory (fileParts r) = [] -> fs' = fs).
Proof.
  unfold ParseMultipartForm, os.Create, os.Write.
  destruct (spooled maxMemory (fileParts r)) as [|fh parts].
  { intros [= <- <-]. repeat split; try done. }
  destruct (os.create_err fs) as [e|] eqn:EC.
  { intros [= <- <-]. repeat split; try done. }
  cbn [os.write_err os.files].
  destruct (os.write_err fs) as [e|] eqn:EW.
  { intros [= <- <-]. repeat split; try done. }
  intros [= <- <-]. cbn [os.dirs os.mkdir_err os.create_err os.write_err os.files].
  repeat split; try done.
  intros path Hp. by rewrite !lookup_insert_ne.
Qed.

(** The same for the parse [handleSendFax] begins with. *)
Lemma parseFaxForm_frame multipart tmp r w res w' :
  parseFaxForm multipart tmp r w = (res, w') ->
  now w' = now w /\ entropy w' = entropy w /\
  os.dirs (disk w') = os.dirs (disk w) /\
  os.mkdir_err (disk w') = os.mkdir_err (disk w) /\
  os.create_err (disk w') = os.create_err (disk w) /\
  os.write_err (disk w') = os.write_err (disk w) /\
  (forall path, path <> tmp ->
                os.files (disk w') !! path = os.files (disk w) !! path) /\
  (multipart = false \/ spooled (Z.shiftl 25 20) (fileParts r) = [] -> w' = w).
Proof.
  unfold parseFaxForm. destruct multipart.
  - destruct (ParseMultipartForm _ tmp r (disk w)) as [res0 fs] eqn:E.
    intros [= <- <-].
    apply ParseMultipartForm_frame in E as (H1 & H2 & H3 & H4 & H5 & H6).
    cbn [now entropy disk with_disk]. repeat split; try done.
    intros [[=]|H]. rewrite (H6 H). apply with_disk_same.
  - intros [= <- <-]. by repeat split.
Qed.

(** X21. Every fax the server asks the API for has a connection, a sender,
    a recipient and a media URL, none of them empty; in compliance
    mode it asks that neither preview nor media be stored, whatever
    the form says; its quality, if any, is one of the five known; and
    one request makes at most one such call. *)
Theorem send_fax_call_shape c a w contentType tmp r :
  let run := (handleSendFax c a w contentType tmp r).1.1 in
  apiCalls run = [] \/
  exists params,
    apiCalls run = [telnyx.CallNew params] /\
    telnyx.ConnectionID params <> "" /\
    telnyx.From_ params <> "" /\
    telnyx.To params <> "" /\
    (exists url, telnyx.MediaURL params = Some url /\ url <> "") /\
    telnyx.WebhookURL params <> Some "" /\
    (App.Hipaa a = true ->
     telnyx.StorePreview params = Some false /\
     telnyx.StoreMedia params = Some false) /\
    (forall q, telnyx.Quality params = Some q -> q ∈ qualities).
Proof.
  cbn zeta. unfold handleSendFax.
  destruct (parseFaxForm _ tmp r w) as [[[]|e] w0]; [|by left].
  set (r' := if Contains contentType "multipart/form-data" then r
             else withoutMultipart r).
  set (conn := if String.eqb (http.FormValue r' "connection_id") ""
               then App.DefaultConnectionID a
               else http.FormValue r' "connection_id").
  set (from := if String.eqb (normalizePhoneNumber (http.FormValue r' "from")) ""
               then App.DefaultFrom a
               else normalizePhoneNumber (http.FormValue r' "from")).
  set (to := normalizePhoneNumber (http.FormValue r' "to")).
  destruct (String.eqb_spec conn "") as [|Hc]; [by left|].
  destruct (String.eqb_spec from "") as [|Hf]; [by left|].
  destruct (String.eqb_spec to "") as [|Ht]; [by left|]. cbn [orb].
  destruct (handleFileUpload a w0 r') as [[[url|e] a'] w']; [|by left].
  set (media := if nonempty url then Some url
                else if nonempty (http.FormValue r' "media_url")
                     then Some (http.FormValue r' "media_url") else None).
  assert (Hmedia : forall u, media = Some u -> u <> "").
  { subst media. unfold nonempty. intros u.
    destruct (String.eqb_spec url "") as [|Hu]; cbn [negb]; [|by intros [= <-]].
    destruct (String.eqb_spec (http.FormValue r' "media_url") "") as [|Hm];
      cbn [negb]; [done|by intros [= <-]]. }
  destruct media as [u|] eqn:EM; [|by left].
  assert (Hshape : forall params : telnyx.FaxNewParams,
            params =
            {| telnyx.ConnectionID := conn; telnyx.From_ := from; telnyx.To := to;
               telnyx.MediaURL := Some u;
               telnyx.WebhookURL :=
                 if nonempty (http.FormValue r' "webhook_url")
                 then Some (http.FormValue r' "webhook_url") else None;
               telnyx.StorePreview :=
                 if String.eqb (http.FormValue r' "store_preview") "on"
                    && negb (App.Hipaa a)
                 then Some true else if App.Hipaa a then Some false else None;
               telnyx.StoreMedia :=
                 if String.eqb (http.FormValue r' "store_media") "on"
                    && negb (App.Hipaa a)
                 then Some true else if App.Hipaa a then Some false else None;
               telnyx.Quality :=
                 if existsb (String.eqb (http.FormValue r' "quality")) qualities
                 then Some (http.FormValue r' "quality") else None |} ->
            telnyx.ConnectionID params <> "" /\
            telnyx.From_ params <> "" /\
            telnyx.To params <> "" /\
            (exists url, telnyx.MediaURL params = Some url /\ url <> "") /\
            telnyx.WebhookURL params <> Some "" /\
            (App.Hipaa a = true ->
             telnyx.StorePreview params = Some false /\
             telnyx.StoreMedia params = Some false) /\
            (forall q, telnyx.Quality params = Some q -> q ∈ qualities)).
  { intros params ->. cbn [telnyx.ConnectionID telnyx.From_ telnyx.To telnyx.MediaURL
                           telnyx.WebhookURL telnyx.StorePreview telnyx.StoreMedia
                           telnyx.Quality].
    split; [done|]. split; [done|]. split; [done|].
    split; [exists u; split; [done|by apply Hmedia]|].
    split; [|split].
    - unfold nonempty.
      destruct (String.eqb_spec (http.FormValue r' "webhook_url") "");
        cbn [negb]; [done|]. by intros [= ?].
    - intros ->. by rewrite !andb_false_r.
    - intros q.
      destruct (existsb _ qualities) eqn:EQ; [|done]. intros [= <-].
      apply existsb_exists in EQ as (x & Hx & Heq).
      apply String.eqb_eq in Heq as ->. by apply list_elem_of_In. }
  right.
  destruct (telnyx.FaxesNew c _) as [fax|e] eqn:EN; cbn [fst apiCalls];
    (eexists; split; [done|]; by apply Hshape).
Qed.

(** X22. A form without recipient is answered 400 and nothing is done
    with it: the application is as it was, no entropy was read, the
    API was not called and no upload was stored.  What is left of the
    request is what the parse of the form left: for a multipart form
    with parts beyond the memory bound the temporary file, and
    otherwise nothing. *)
Theorem send_fax_requires_recipient c a w contentType tmp r vals :
  http.Form r = Ok vals ->
  blank (http.Get vals "to") ->
  exists msg w',
    handleSendFax c a w contentType tmp r =
    (noCall (http.Error msg http.StatusBadRequest), a, w') /\
    (msg = "connection_id, from and to are required" \/
     msg = "invalid multipart form") /\
    now w' = now w /\ entropy w' = entropy w /\
    os.dirs (disk w') = os.dirs (disk w) /\
    (forall path, path <> tmp ->
                  os.files (disk w') !! path = os.files (disk w) !! path) /\
    (Contains contentType "multipart/form-data" = false \/
     spooled (Z.shiftl 25 20) (fileParts r) = [] -> w' = w).
Proof.
  intros Hf Hb. unfold handleSendFax.
  assert (E : forall r', http.Form r' = Ok vals ->
                         normalizePhoneNumber (http.FormValue r' "to") = "").
  { intros r' Hr'. unfold http.FormValue. rewrite Hr'.
    by apply normalizePhoneNumber_blank. }
  destruct (parseFaxForm _ tmp r w) as [res w0] eqn:EP. pose proof EP as EP'.
  apply parseFaxForm_frame in EP as (H1 & H2 & H3 & _ & _ & _ & H4 & H5).
  assert (H5' : Contains contentType "multipart/form-data" = false \/
                spooled (Z.shiftl 25 20) (fileParts r) = [] -> w0 = w).
  { intros [H|H]; apply H5; auto. }
  destruct res as [[]|e].
  - exists "connection_id, from and to are required", w0.
    split; [|by repeat split; try left].
    destruct (Contains contentType "multipart/form-data").
    + rewrite (E r Hf). cbn [String.eqb]. by rewrite !orb_true_r.
    + rewrite (E (withoutMultipart r) Hf). cbn [String.eqb]. by rewrite !orb_true_r.
  - destruct (Contains contentType "multipart/form-data") eqn:EC.
    + exists "invalid multipart form", w0. split; [done|]. by repeat split; try right.
    + exfalso. unfold parseFaxForm, ParseForm in EP'. by rewrite Hf in EP'.
Qed.

(** X23. In memory mode the media URL the API is given for an uploaded part
    is one this server answers: whenever the API was called for a
    multipart request with a part, the URL sent is the public base URL
    followed by [/media/] and a token, the [media_url] of the form is
    not used, and a GET of that path within thirty minutes is answered
    with the bytes of the part. *)
Theorem send_fax_media_is_served c a w contentType tmp r fh file run a' w' params :
  memoryMode a = true ->
  Contains contentType "multipart/form-data" = true ->
  uploadedPart r = Some fh -> multipart.Open fh = Ok file ->
  handleSendFax c a w contentType tmp r = (run, a', w') ->
  apiCalls run = [telnyx.CallNew params] ->
  exists token,
    telnyx.MediaURL params
    = Some (trimTrailingSlash (App.PublicBaseURL a) +:+ "/media/" +:+ token) /\
    forall t rq,
      http.Method rq = http.MethodGet ->
      http.URLPath rq = "/media/" +:+ token ->
      t <= time.Add (now w) (30 * time.Minute) ->
      handleMediaServe a' t rq =
      (http.ServeContent (Some (Type_ (memoryEntry w file fh))) token
         (multipart.content file), a').
Proof.
  intros Hm Hct Hp Ho H Hcall. unfold handleSendFax in H. rewrite Hct in H.
  destruct (parseFaxForm true tmp r w) as [[[]|e] w0] eqn:EP;
    [|by injection H as <- _ _].
  apply parseFaxForm_frame in EP as (Hnow & _).
  destruct (_ || _); [by injection H as <- _ _|].
  pose proof (handleFileUpload_cases a w0 r) as C. rewrite Hp, Ho, Hm in C.
  rewrite C in H.
  destruct (storeFileInMemory a w0 file fh) as [[[url|e] a1] w1] eqn:ES;
    [|by injection H as <- _ _].
  apply storeFileInMemory_Ok in ES as (token & Ht & -> & ->).
  assert (Hentry : memoryEntry w0 file fh = memoryEntry w file fh).
  { unfold memoryEntry. by rewrite Hnow. }
  rewrite Hentry in H.
  assert (Hne : nonempty (trimTrailingSlash (App.PublicBaseURL a) +:+ "/media/"
                          +:+ token) = true).
  { unfold nonempty.
    destruct (String.eqb_spec (trimTrailingSlash (App.PublicBaseURL a) +:+ "/media/"
                               +:+ token) "") as [E|]; [|done].
    exfalso. by destruct (trimTrailingSlash (App.PublicBaseURL a)). }
  rewrite Hne in H. exists token.
  assert (Hserve : forall t rq,
            http.Method rq = http.MethodGet ->
            http.URLPath rq = "/media/" +:+ token ->
            t <= time.Add (now w) (30 * time.Minute) ->
            handleMediaServe
              (App.with_uploadedFiles a
                 (<[token := memoryEntry w file fh]> (App.uploadedFiles a))) t rq =
            (http.ServeContent (Some (Type_ (memoryEntry w file fh))) token
               (multipart.content file),
             App.with_uploadedFiles a
               (<[token := memoryEntry w file fh]> (App.uploadedFiles a)))).
  { intros t rq HG HP Hle.
    apply (handleMediaServe_live _ t rq token (memoryEntry w file fh)); try done.
    - cbn. by rewrite lookup_insert_eq.
    - apply memoryEntry_Type. }
  destruct (telnyx.FaxesNew c _) as [fax|e] eqn:EN;
    injection H as <- <- <-; cbn [apiCalls] in Hcall;
    injection Hcall as <-; by split.
Qed.

Lemma ParseInt_range v n :
  strconv.ParseInt v = Some n -> - 2 ^ 63 <= n <= 2 ^ 63 - 1.
Proof.
  unfold strconv.ParseInt.
  destruct (match v with
            | String "+" s' => (false, s')
            | String "-" s' => (true, s')
            | _ => (false, v)
            end) as [neg body].
  destruct (strconv.digits_value body 0) as [x|]; [|done].
  destruct (Z.leb_spec (- 2 ^ 63) (if neg then - x else x)); [|done].
  destruct (Z.leb_spec (if neg then - x else x) (2 ^ 63 - 1)); [|done].
  cbn [andb]. intros [= <-]. lia.
Qed.

Lemma pageParam_range v dflt :
  1 <= dflt <= 2 ^ 63 - 1 -> 1 <= pageParam v dflt <= 2 ^ 63 - 1.
Proof.
  intros Hd. unfold pageParam. destruct (String.eqb v ""); [done|].
  destruct (strconv.ParseInt v) as [n|] eqn:E; [|done].
  apply ParseInt_range in E. destruct (Z.ltb_spec 0 n); [lia|done].
Qed.

(** X24. The list of faxes is asked of the API only for a GET, once, and
    always for a page number and a page size that are positive 64-bit
    integers: a parameter that is missing, is not a decimal integer,
    overflows, or is not positive is replaced by the default, page 1
    and ten faxes a page. *)
Theorem faxes_page_bounds c a r :
  let run := handleFaxes c a r in
  (http.Method r <> http.MethodGet -> apiCalls run = []) /\
  (http.Method r = http.MethodGet ->
   exists number size,
     apiCalls run = [telnyx.CallList number size] /\
     1 <= number <= 2 ^ 63 - 1 /\ 1 <= size <= 2 ^ 63 - 1 /\
     (strconv.ParseInt (http.Get (http.URLQuery r) "page_number") = None -> number = 1) /\
     (strconv.ParseInt (http.Get (http.URLQuery r) "page_size") = None -> size = 10) /\
     (forall n, strconv.ParseInt (http.Get (http.URLQuery r) "page_number") = Some n ->
                number = if 0 <? n then n else 1) /\
     (forall n, strconv.ParseInt (http.Get (http.URLQuery r) "page_size") = Some n ->
                size = if 0 <? n then n else 10)).
Proof.
  cbn zeta. unfold handleFaxes.
  destruct (String.eqb_spec (http.Method r) http.MethodGet) as [E|E]; cbn [negb].
  2: by split.
  split; [done|]. intros _.
  set (number := pageParam (http.Get (http.URLQuery r) "page_number") 1).
  set (size := pageParam (http.Get (http.URLQuery r) "page_size") 10).
  exists number, size. split; [by destruct (telnyx.FaxesList c number size)|].
  split; [apply pageParam_range; lia|]. split; [apply pageParam_range; lia|].
  subst number size. unfold pageParam.
  repeat split.
  - intros ->. by destruct (String.eqb _ "").
  - intros ->. by destruct (String.eqb _ "").
  - intros n Hn. rewrite Hn.
    destruct (String.eqb_spec (http.Get (http.URLQuery r) "page_number") "") as [E0|];
      [|done]. by rewrite E0 in Hn.
  - intros n Hn. rewrite Hn.
    destruct (String.eqb_spec (http.Get (http.URLQuery r) "page_size") "") as [E0|];
      [|done]. by rewrite E0 in Hn.
Qed.

(** X25. The fax route changes the state of the server in no way of its
    own.  A request that is not a POST leaves application and world as
    they were.  A POST leaves the world as the parse of the form left
    it (with the temporary file of a multipart parse, at most), or as
    [handleFileUpload] left it after that, and the application as
    [handleFileUpload] left it.  So the application after a fax
    request is a state of the running server, where the map holds
    tokens only, and only in memory mode. *)
Theorem fax_route_steps c a w contentType tmp r run a' w' :
  handleFax c a w contentType tmp r = (run, a', w') ->
  let multipart := Contains contentType "multipart/form-data" in
  let w0 := (parseFaxForm multipart tmp r w).2 in
  (a' = a /\ w' = w \/
   http.Method r = http.MethodPost /\
   (a' = a /\ w' = w0 \/
    exists res,
      handleFileUpload a w0 (if multipart then r else withoutMultipart r)
      = (res, a', w'))) /\
  (Reachable a -> Reachable a' /\ Inv a').
Proof.
  intros H. cbn zeta.
  assert (Hs : a' = a /\ w' = w \/
               http.Method r = http.MethodPost /\
               (a' = a /\
                w' = (parseFaxForm (Contains contentType "multipart/form-data")
                        tmp r w).2 \/
                exists res,
                  handleFileUpload a
                    (parseFaxForm (Contains contentType "multipart/form-data")
                       tmp r w).2
                    (if Contains contentType "multipart/form-data" then r
                     else withoutMultipart r) = (res, a', w'))).
  { unfold handleFax in H.
    destruct (String.eqb_spec (http.Method r) http.MethodPost) as [HP|_].
    2: { left. by destruct (String.eqb (http.Method r) http.MethodGet);
           injection H as _ <- <-. }
    right. split; [done|]. unfold handleSendFax in H.
    destruct (parseFaxForm _ tmp r w) as [res0 w0]. cbn [snd].
    destruct res0 as [[]|e]; [|left; by injection H as _ <- <-].
    destruct (_ || _); [left; by injection H as _ <- <-|].
    right. destruct (handleFileUpload a w0 _) as [[res a1] w1].
    exists res. destruct res as [url|e]; [|by injection H as _ <- <-].
    destruct (if nonempty url then _ else _); [|by injection H as _ <- <-].
    by destruct (telnyx.FaxesNew c _); injection H as _ <- <-. }
  split; [exact Hs|]. intros HR.
  assert (HR' : Reachable a').
  { destruct Hs as [[-> _]|(_ & [[-> _]|(res & Hu)])]; [done|done|].
    apply (reach_step a a' HR). by eapply step_upload. }
  split; [exact HR'|]. by apply Reachable_Inv.
Qed.

(** ** The files of a fax request in disk mode *)

(** [handleFileUpload] leaves the files as they were, or there is one
    path, a token with the extension of the part directly in the
    upload directory, and every other path is as it was. *)
Lemma handleFileUpload_disk_confined a w r cwd :
  memoryMode a = false ->
  os.files (disk (handleFileUpload a w r).2) = os.files (disk w) \/
  exists fh token,
    uploadedPart r = Some fh /\ is_token token = true /\
    (forall path,
       path <> filepath.Join [App.UploadDir a; token +:+ diskExt fh] ->
       os.files (disk (handleFileUpload a w r).2) !! path = os.files (disk w) !! path) /\
    resolve cwd (filepath.Join [App.UploadDir a; token +:+ diskExt fh])
    = resolve cwd (App.UploadDir a) ++ [token +:+ diskExt fh].
Proof.
  intros Hm.
  pose proof (handleFileUpload_cases a w r) as C.
  destruct (uploadedPart r) as [fh|]; [|left; by rewrite C].
  destruct (multipart.Open fh) as [file|e]; [|left; by rewrite C].
  rewrite Hm in C. rewrite C.
  destruct (storeFileToDisk a w file fh) as [[res a'] w'] eqn:ES.
  apply storeFileToDisk_outcome in ES as [_ [[Hf _]|(token & Ht & Hf & _)]];
    cbn [snd]; [by left|].
  right. exists fh, token. split; [done|]. split; [done|]. split.
  - intros path Hp. rewrite Hf. by rewrite lookup_insert_ne.
  - destruct (stored_name token (diskExt fh) Ht (diskExt_sep_free fh)) as [Hn Hs].
    destruct (memoryMode_false a Hm) as [_ Hd].
    by apply resolve_Join_name.
Qed.

(** The world a fax request leaves is the one its upload left, or the
    one the parse of the form left. *)
Lemma handleSendFax_world c a w contentType tmp r :
  let multipart := Contains contentType "multipart/form-data" in
  let w0 := (parseFaxForm multipart tmp r w).2 in
  (handleSendFax c a w contentType tmp r).2 = w0 \/
  (handleSendFax c a w contentType tmp r).2
  = (handleFileUpload a w0 (if multipart then r else withoutMultipart r)).2.
Proof.
  cbn zeta. unfold handleSendFax.
  destruct (parseFaxForm _ tmp r w) as [res0 w0]. cbn [snd].
  destruct res0 as [[]|e]; [|by left].
  destruct (_ || _); [by left|]. right.
  destruct (handleFileUpload a w0 _) as [[res a1] w1].
  destruct res as [url|e]; [|done].
  destruct (if nonempty url then _ else _); [|done].
  by destruct (telnyx.FaxesNew c _).
Qed.

(** X17. In disk mode a fax request writes at most two files, and the name
    the client gave the part decides nothing but an extension:
    whatever the request, the paths other than the temporary file of
    the parse are as they were, but for at most one path, a token
    with the extension of the part directly in the upload
    directory. *)
Theorem disk_upload_confined c a w contentType tmp r cwd :
  memoryMode a = false ->
  (forall path,
     path <> tmp ->
     os.files (disk (handleSendFax c a w contentType tmp r).2) !! path
     = os.files (disk w) !! path) \/
  exists fh token,
    uploadedPart r = Some fh /\ is_token token = true /\
    (forall path,
       path <> tmp ->
       path <> filepath.Join [App.UploadDir a; token +:+ diskExt fh] ->
       os.files (disk (handleSendFax c a w contentType tmp r).2) !! path
       = os.files (disk w) !! path) /\
    resolve cwd (filepath.Join [App.UploadDir a; token +:+ diskExt fh])
    = resolve cwd (App.UploadDir a) ++ [token +:+ diskExt fh].
Proof.
  intros Hm.
  destruct (parseFaxForm (Contains contentType "multipart/form-data") tmp r w)
    as [res0 w0] eqn:EP.
  pose proof (parseFaxForm_frame _ _ _ _ _ _ EP) as (_ & _ & _ & _ & _ & _ & Hp & _).
  destruct (handleSendFax_world c a w contentType tmp r) as [E|E];
    cbn zeta in E; rewrite EP in E; cbn [snd] in E; rewrite E.
  { left. exact Hp. }
  destruct (handleFileUpload_disk_confined a w0
              (if Contains contentType "multipart/form-data" then r
               else withoutMultipart r) cwd Hm)
    as [H|(fh & token & Hu & Ht & Hf & Hr)].
  { left. intros path Hpath. rewrite H. by apply Hp. }
  right. exists fh, token. split.
  { destruct (Contains contentType "multipart/form-data"); [done|].
    by unfold uploadedPart, withoutMultipart in Hu. }
  split; [done|]. split; [|done].
  intros path H1 H2. rewrite (Hf path H2). by apply Hp.
Qed.

(** ** File names *)

Lemma keepSafe_safe s : all_chars is_safe (keepSafe s) = true.
Proof.
  induction s as [|c s IH]; [done|]. cbn [keepSafe].
  destruct (is_safe c) eqn:E; [|done]. cbn [all_chars]. by rewrite E.
Qed.

Lemma safe_not_sep c : is_safe c = true -> Ascii.eqb c "/" = false.
Proof. destruct (Ascii.eqb_spec c "/") as [->|]; [done|done]. Qed.

Lemma safe_sep_free s : all_chars is_safe s = true -> sep_free s = true.
Proof.
  unfold sep_free. induction s as [|c s IH]; [done|].
  cbn [all_chars filepath.has_separator].
  intros [Hc Hs]%andb_true_iff. unfold filepath.Separator.
  rewrite (safe_not_sep c Hc). by apply IH.
Qed.

Lemma dots_graphic n : all_chars is_graphic (dots n) = true.
Proof. induction n as [|n IH]; [done|]. cbn [dots all_chars]. by rewrite IH. Qed.

Lemma replaceDotDot_dots n : replaceDotDot (dots (2 * n)) = dots n.
Proof.
  induction n as [|n IH]; [done|].
  replace (2 * S n)%nat with (S (S (2 * n))) by lia.
  cbn [dots replaceDotDot]. change (Ascii.eqb "." ".") with true.
  cbn [andb]. by rewrite IH.
Qed.

Lemma replaceSpace_dots n : replaceSpace (dots n) = dots n.
Proof. induction n as [|n IH]; [done|]. cbn [dots replaceSpace]. by rewrite IH. Qed.

Lemma keepSafe_dots n : keepSafe (dots n) = dots n.
Proof. induction n as [|n IH]; [done|]. cbn [dots keepSafe]. by rewrite IH. Qed.

(** X26. What [sanitizeFilename] gives is never empty and is made of ASCII
    letters, digits, dots, underscores and hyphens only; in
    particular it has no separator.  It is not free of [..]: the pairs
    of dots are replaced in one pass, so that four dots leave two. *)
Theorem sanitizeFilename_safe name :
  sanitizeFilename name <> "" /\
  all_chars is_safe (sanitizeFilename name) = true /\
  sep_free (sanitizeFilename name) = true /\
  forall n, sanitizeFilename (dots (2 * S n)) = dots (S n).
Proof.
  assert (H : forall name, sanitizeFilename name <> "" /\
                           all_chars is_safe (sanitizeFilename name) = true).
  { intros name0. unfold sanitizeFilename.
    pose proof (keepSafe_safe (replaceSpace (replaceDotDot (strings.TrimSpace name0))))
      as Hs.
    destruct (keepSafe _) as [|c b]; [done|]. by split. }
  destruct (H name) as [H1 H2]. split; [done|]. split; [done|].
  split; [by apply safe_sep_free|].
  intros n. unfold sanitizeFilename.
  rewrite (TrimSpace_graphic _ (dots_graphic _)), replaceDotDot_dots,
    replaceSpace_dots, keepSafe_dots. done.
Qed.

(** ** The deployment, again *)

Lemma oauthOnlyApp_started :
  NewApp demoOutside (LoadConfig oauthOnlyEnv demoFlags).1 = Ok oauthOnlyStarted.
Proof. vm_compute. reflexivity. Qed.

Lemma diskUpload_stored :
  handleFileUpload diskApp demoWorld demoUpload
  = (Ok ("https://host/media/" +:+ demoToken), diskApp, diskWorld').
Proof. vm_compute. reflexivity. Qed.

Lemma faxUpload_sent :
  apiCalls (handleSendFax demoClient demoApp demoWorld
              "multipart/form-data; boundary=x" "/tmp/multipart-1" faxUpload).1.1
  = [telnyx.CallNew faxParams].
Proof. vm_compute. reflexivity. Qed.

Lemma goodCallback_state :
  http.SetCookies (handleOAuthLogin demoProvider demoApp oauthLoginRequest demoSource).1
  = [plainCookie "oauth_redirect" "/faxes" 300 true;
     plainCookie "oauth_state" demoState 300 true].
Proof. vm_compute. reflexivity. Qed.

Lemma demoStored_swept :
  cleanupExpiredFiles demoStored (demoExpiry + 1)
  = Some (demoApp, ["Cleaned up expired file: 01080f16..."]).
Proof. vm_compute. reflexivity. Qed.

Lemma demoStored_expired :
  handleMediaServe demoStored (demoExpiry + 1) (mediaGet ("/media/" +:+ demoToken))
  = (http.NotFound, demoApp).
Proof. vm_compute. reflexivity. Qed.

(** ** The properties, on the deployment *)

Lemma handleMediaServe_frame_witness :
  handleMediaServe demoStored (demoExpiry + 1) (mediaGet ("/media/" +:+ demoToken))
  = (http.NotFound, demoApp) /\
  forall k, k <> mediaToken (mediaGet ("/media/" +:+ demoToken)) ->
            App.uploadedFiles demoApp !! k = App.uploadedFiles demoStored !! k.
Proof.
  split; [exact demoStored_expired|].
  exact (proj1 (proj2 (handleMediaServe_frame demoStored (demoExpiry + 1)
                         (mediaGet ("/media/" +:+ demoToken)) http.NotFound demoApp
                         demoStored_expired))).
Defined.

Lemma handleFileUpload_frame_witness :
  handleFileUpload demoApp demoWorld demoUpload
  = (Ok ("https://host/media/" +:+ demoToken), demoStored, demoWorld') /\
  (demoStored = demoApp \/
   memoryMode demoApp = true /\
   exists token entry,
     is_token token = true /\
     Ok ("https://host/media/" +:+ demoToken)
     = Ok (trimTrailingSlash (App.PublicBaseURL demoApp) +:+ "/media/" +:+ token) /\
     Data entry = list_byte_of_string "abc" /\
     demoStored
     = App.with_uploadedFiles demoApp (<[token := entry]> (App.uploadedFiles demoApp))).
Proof.
  split; [exact demoUpload_stored|].
  exact (handleFileUpload_frame demoApp demoWorld demoUpload _ _ _ demoUpload_stored).
Defined.

Lemma cleanup_again_witness :
  cleanupExpiredFiles demoStored (demoExpiry + 1)
  = Some (demoApp, ["Cleaned up expired file: 01080f16..."]) /\
  demoExpiry <= demoExpiry + 1 /\
  cleanupExpiredFiles demoApp demoExpiry = Some (demoApp, []).
Proof.
  assert (H : demoExpiry <= demoExpiry + 1) by lia.
  split; [exact demoStored_swept|]. split; [exact H|].
  exact (cleanup_again demoStored (demoExpiry + 1) demoApp _ demoExpiry
           demoStored_swept H).
Defined.

Lemma cleanup_log_witness :
  cleanupExpiredFiles demoStored (demoExpiry + 1)
  = Some (demoApp, ["Cleaned up expired file: 01080f16..."]) /\
  (size (App.uploadedFiles demoApp)
   + length ["Cleaned up expired file: 01080f16..."]
   = size (App.uploadedFiles demoStored))%nat.
Proof.
  split; [exact demoStored_swept|].
  exact (proj1 (cleanup_log demoStored (demoExpiry + 1) demoApp _ demoStored_swept)).
Defined.

Lemma requireAuth_redirects_witness :
  hasAuthConfigured demoApp = true /\
  isAuthenticated demoApp staleRequest = false /\
  requireAuth demoApp (fun (_ : http.Request) (s : unit) => (http.respond http.NotFound, s))
    staleRequest tt
  = (http.respond (http.Redirect ("/login?redirect=" +:+ http.URLPath staleRequest)
                     http.StatusSeeOther), tt).
Proof.
  split; [reflexivity|].
  apply (requireAuth_redirects demoApp
           (fun (_ : http.Request) (s : unit) => (http.respond http.NotFound, s))
           staleRequest tt); [reflexivity|].
  intros value H. vm_compute in H. injection H as <-. vm_compute. lia.
Defined.

Lemma empty_password_login_witness :
  hasAuthConfigured oauthOnlyApp = true /\
  AuthConfig.Password (App.AuthConfig oauthOnlyApp) = "" /\
  exists c,
    (handleLogin oauthOnlyApp emptyLogin demoSource).1 =
    {| http.SetCookies := [c];
       http.reply := http.Redirect (honoured (http.Get [] "redirect"))
                       http.StatusSeeOther |} /\
    forall r', http.Cookie_ r' sessionCookieName = Ok (http.Value c) ->
               isAuthenticated oauthOnlyApp r' = true.
Proof.
  split; [reflexivity|]. split; [reflexivity|].
  exact (empty_password_login oauthOnlyApp emptyLogin demoSource []
           eq_refl eq_refl eq_refl eq_refl eq_refl eq_refl eq_refl).
Defined.

Lemma semicolonLogin_cookies :
  http.SetCookies (handleOAuthLogin demoProvider demoApp semicolonLogin demoSource).1
  = [plainCookie "oauth_redirect" "/;/evil.example" 300 true;
     plainCookie "oauth_state" demoState 300 true].
Proof. vm_compute. reflexivity. Qed.

Lemma oauth_flow_composes_witness :
  http.SetCookies (handleOAuthLogin demoProvider demoApp semicolonLogin demoSource).1
  = [plainCookie "oauth_redirect" "/;/evil.example" 300 true;
     plainCookie "oauth_state" demoState 300 true] /\
  http.Cookie_ semicolonCallback "oauth_redirect" = Ok "//evil.example" /\
  exists config c,
    getOAuthConfig demoApp "google" = Some config /\
    (handleOAuthCallback demoProvider demoApp semicolonCallback demoSource).1 =
    {| exchanges := [(config, "good")];
       response :=
         {| http.SetCookies := [c; plainCookie "oauth_state" "" (-1) false;
                                   plainCookie "oauth_redirect" "" (-1) false];
            http.reply := http.Redirect "/" http.StatusSeeOther |} |} /\
    http.Name c = sessionCookieName /\
    (forall r', http.Cookie_ r' sessionCookieName = Ok (http.Value c) ->
                isAuthenticated demoApp r' = true) /\
    sanitizeCookieValue demoState = demoState /\
    (all_chars validCookieValueByte "/;/evil.example" = true ->
     sanitizeCookieValue "/;/evil.example" = "/;/evil.example").
Proof.
  split; [exact semicolonLogin_cookies|]. split; [reflexivity|].
  exact (oauth_flow_composes demoProvider demoApp semicolonLogin demoSource
           (plainCookie "oauth_redirect" "/;/evil.example" 300 true)
           (plainCookie "oauth_state" demoState 300 true)
           semicolonCallback demoSource {| oauth2.Valid := true |}
           semicolonLogin_cookies eq_refl eq_refl eq_refl eq_refl
           (fun _ _ => eq_refl) eq_refl eq_refl).
Defined.

Lemma callback_session_only_after_exchange_witness :
  http.SetCookies
    (response (handleOAuthCallback demoProvider demoApp goodCallback demoSource).1)
  <> [] /\
  exists config token,
    http.Cookie_ goodCallback "oauth_state"
    = Ok (http.Get (http.URLQuery goodCallback) "state") /\
    getOAuthConfig demoApp "google" = Some config /\
    exchanges (handleOAuthCallback demoProvider demoApp goodCallback demoSource).1
    = [(config, "good")] /\
    oauth2.Exchange demoProvider config "good" = Ok token /\
    oauth2.Valid token = true.
Proof.
  assert (H : http.SetCookies
                (response (handleOAuthCallback demoProvider demoApp goodCallback
                             demoSource).1) <> [])
    by (vm_compute; discriminate).
  split; [exact H|].
  exact (callback_session_only_after_exchange demoProvider demoApp goodCallback
           demoSource H).
Defined.

Lemma empty_secret_without_password_witness :
  Getenv oauthOnlyEnv "SESSION_SECRET" = "" /\
  Getenv oauthOnlyEnv "AUTH_PASSWORD" = "" /\
  NewApp demoOutside (LoadConfig oauthOnlyEnv demoFlags).1 = Ok oauthOnlyStarted /\
  hasAuthConfigured oauthOnlyApp = true /\
  (warnSessionSecret ∉ (LoadConfig oauthOnlyEnv demoFlags).2) /\
  AuthConfig.SessionSecret (App.AuthConfig (startedApp oauthOnlyStarted)) = "" /\
  isAuthenticated (startedApp oauthOnlyStarted) forgedSession = true.
Proof.
  split; [reflexivity|]. split; [reflexivity|].
  split; [exact oauthOnlyApp_started|]. split; [reflexivity|].
  exact (empty_secret_without_password oauthOnlyEnv demoFlags demoOutside
           oauthOnlyStarted forgedSession "x" "forged"
           eq_refl eq_refl oauthOnlyApp_started eq_refl eq_refl).
Defined.

Lemma disk_upload_then_serve_witness :
  handleFileUpload diskApp demoWorld demoUpload
  = (Ok ("https://host/media/" +:+ demoToken), diskApp, diskWorld') /\
  exists name,
    "https://host/media/" +:+ demoToken
    = trimTrailingSlash (App.PublicBaseURL diskApp) +:+ "/media/" +:+ name /\
    diskApp = diskApp /\
    os.files (disk diskWorld') !! filepath.Join [App.UploadDir diskApp; name]
    = Some (multipart.content demoFile) /\
    forall t rq,
      http.Method rq = http.MethodGet ->
      http.URLPath rq = "/media/" +:+ name ->
      handleMediaServe diskApp t rq =
      (http.ServeFile (filepath.Join [App.UploadDir diskApp; name]), diskApp).
Proof.
  split; [exact diskUpload_stored|].
  exact (disk_upload_then_serve diskApp demoWorld demoUpload demoHeader demoFile
           _ _ _ eq_refl eq_refl eq_refl eq_refl diskUpload_stored).
Defined.

Lemma diskUpload_changes :
  os.files (disk (handleSendFax demoClient diskApp demoWorld
                    "multipart/form-data; boundary=x" "/tmp/multipart-1" faxUpload).2)
  !! ("/data/" +:+ demoToken)
  <> os.files (disk demoWorld) !! ("/data/" +:+ demoToken).
Proof. vm_compute. discriminate. Qed.

Lemma disk_upload_confined_witness :
  memoryMode diskApp = false /\
  exists fh token,
    uploadedPart faxUpload = Some fh /\ is_token token = true /\
    (forall path,
       path <> "/tmp/multipart-1" ->
       path <> filepath.Join [App.UploadDir diskApp; token +:+ diskExt fh] ->
       os.files (disk (handleSendFax demoClient diskApp demoWorld
                         "multipart/form-data; boundary=x" "/tmp/multipart-1"
                         faxUpload).2) !! path
       = os.files (disk demoWorld) !! path) /\
    resolve ["srv"] (filepath.Join [App.UploadDir diskApp; token +:+ diskExt fh])
    = resolve ["srv"] (App.UploadDir diskApp) ++ [token +:+ diskExt fh].
Proof.
  split; [reflexivity|].
  destruct (disk_upload_confined demoClient diskApp demoWorld
              "multipart/form-data; boundary=x" "/tmp/multipart-1" faxUpload
              ["srv"] eq_refl)
    as [H|H]; [|exact H].
  exfalso. apply diskUpload_changes. by apply H.
Defined.

Lemma failed_copy_leaves_file_witness :
  storeFileInMemory diskApp demoWorld truncatedFile demoHeader
  = (Err (wrap "failed to buffer uploaded file" "unexpected EOF"), diskApp, demoWorld) /\
  (storeFileToDisk diskApp demoWorld truncatedFile demoHeader).1
  = (Err (wrap "failed to save uploaded file" "unexpected EOF"), diskApp) /\
  exists token,
    is_token token = true /\
    os.files (disk (storeFileToDisk diskApp demoWorld truncatedFile demoHeader).2)
    !! filepath.Join [App.UploadDir diskApp; token +:+ diskExt demoHeader]
    = Some (multipart.content truncatedFile).
Proof.
  exact (failed_copy_leaves_file diskApp demoWorld truncatedFile demoHeader
           "unexpected EOF" eq_refl eq_refl eq_refl eq_refl eq_refl).
Defined.

Lemma send_fax_requires_recipient_witness :
  http.Form demoUpload = Ok [] /\
  exists msg w',
    handleSendFax demoClient demoApp demoWorld "multipart/form-data; boundary=x"
      "/tmp/multipart-1" demoUpload =
    (noCall (http.Error msg http.StatusBadRequest), demoApp, w') /\
    (msg = "connection_id, from and to are required" \/
     msg = "invalid multipart form") /\
    now w' = now demoWorld /\ entropy w' = entropy demoWorld /\
    os.dirs (disk w') = os.dirs (disk demoWorld) /\
    (forall path, path <> "/tmp/multipart-1" ->
                  os.files (disk w') !! path = os.files (disk demoWorld) !! path) /\
    (Contains "multipart/form-data; boundary=x" "multipart/form-data" = false \/
     spooled (Z.shiftl 25 20) (fileParts demoUpload) = [] -> w' = demoWorld).
Proof.
  split; [reflexivity|].
  exact (send_fax_requires_recipient demoClient demoApp demoWorld
           "multipart/form-data; boundary=x" "/tmp/multipart-1" demoUpload []
           eq_refl eq_refl).
Defined.

Lemma send_fax_media_is_served_witness :
  apiCalls (handleSendFax demoClient demoApp demoWorld
              "multipart/form-data; boundary=x" "/tmp/multipart-1" faxUpload).1.1
  = [telnyx.CallNew faxParams] /\
  exists token,
    telnyx.MediaURL faxParams
    = Some (trimTrailingSlash (App.PublicBaseURL demoApp) +:+ "/media/" +:+ token) /\
    forall t rq,
      http.Method rq = http.MethodGet ->
      http.URLPath rq = "/media/" +:+ token ->
      t <= time.Add (now demoWorld) (30 * time.Minute) ->
      handleMediaServe
        (handleSendFax demoClient demoApp demoWorld
           "multipart/form-data; boundary=x" "/tmp/multipart-1" faxUpload).1.2 t rq =
      (http.ServeContent (Some (Type_ (memoryEntry demoWorld demoFile demoHeader))) token
         (multipart.content demoFile),
       (handleSendFax demoClient demoApp demoWorld
          "multipart/form-data; boundary=x" "/tmp/multipart-1" faxUpload).1.2).
Proof.
  split; [exact faxUpload_sent|].
  assert (H : handleSendFax demoClient demoApp demoWorld
                 "multipart/form-data; boundary=x" "/tmp/multipart-1" faxUpload
               = ((handleSendFax demoClient demoApp demoWorld
                     "multipart/form-data; boundary=x" "/tmp/multipart-1" faxUpload).1.1,
                  (handleSendFax demoClient demoApp demoWorld
                     "multipart/form-data; boundary=x" "/tmp/multipart-1" faxUpload).1.2,
                  (handleSendFax demoClient demoApp demoWorld
                     "multipart/form-data; boundary=x" "/tmp/multipart-1" faxUpload).2)).
  { by destruct (handleSendFax demoClient demoApp demoWorld
                   "multipart/form-data; boundary=x" "/tmp/multipart-1" faxUpload)
      as [[run a'] w']. }
  exact (send_fax_media_is_served demoClient demoApp demoWorld
           "multipart/form-data; boundary=x" "/tmp/multipart-1" faxUpload
           demoHeader demoFile
           _ _ _ faxParams eq_refl eq_refl eq_refl eq_refl H faxUpload_sent).
Defined.

Lemma fax_route_steps_witness :
  Reachable demoApp /\
  Reachable (handleFax demoClient demoApp demoWorld
               "multipart/form-data; boundary=x" "/tmp/multipart-1" faxUpload).1.2 /\
  Inv (handleFax demoClient demoApp demoWorld
         "multipart/form-data; boundary=x" "/tmp/multipart-1" faxUpload).1.2.
Proof.
  assert (H : handleFax demoClient demoApp demoWorld
                "multipart/form-data; boundary=x" "/tmp/multipart-1" faxUpload
              = ((handleFax demoClient demoApp demoWorld
                    "multipart/form-data; boundary=x" "/tmp/multipart-1" faxUpload).1.1,
                 (handleFax demoClient demoApp demoWorld
                    "multipart/form-data; boundary=x" "/tmp/multipart-1" faxUpload).1.2,
                 (handleFax demoClient demoApp demoWorld
                    "multipart/form-data; boundary=x" "/tmp/multipart-1" faxUpload).2)).
  { by destruct (handleFax demoClient demoApp demoWorld
                   "multipart/form-data; boundary=x" "/tmp/multipart-1" faxUpload)
      as [[run a'] w']. }
  assert (HR : Reachable demoApp) by exact (reach_start _ _ _ demoApp_started).
  split; [exact HR|].
  exact (proj2 (fax_route_steps demoClient demoApp demoWorld
                  "multipart/form-data; boundary=x" "/tmp/multipart-1" faxUpload
                  _ _ _ H) HR).
Defined.
